(** * openweather_pub: the bounded-rate historical ingestion pipeline

    A shallow embedding of the gap detector and batch materializer
    (scripts/openweather_historical_fill_daily.py and _hourly.py), of the
    quota and rate governor (src/services/api_control.py), of the audit
    logger (src/services/api_logger.py) and of the two fetch-validate-store
    engines (src/services/openweather_summary.py and
    openweather_timemachine.py).

    Conventions of the model.
    - The two PostgreSQL databases, the event log file, the batch directory
      and standard output are fields of one state record [St]; every method
      is a function in the monad [M], which threads [St] and ends in a
      returned value, a raised Python exception or [sys.exit].
    - What the process cannot decide is an oracle of the environment [Env]:
      the wall clock (one reading per tick), the remote source (one outcome
      per request sent) and the standard-library parsers the code calls.
    - Times are seconds since the epoch; the local zone of the process and of
      the database session is taken to be UTC.
    - The databases are reachable and every statement executes, except that
      an INSERT into a weather table may be rejected by the schema (the
      schema files are not part of the sources; see [hourly_schema] and
      [daily_schema]). *)

From Stdlib Require Import ZArith QArith Qround Lqa String Ascii List Lia.
From stdpp Require Import base decidable option list gmap strings.

Set Warnings "-register-all".
Local Open Scope string_scope.
Local Open Scope Z_scope.

(** ** Python values and control flow *)

(** The exception classes the pipeline raises or catches. [SystemExit] is
    not among them: it is not an [Exception] and is modelled by [Exit]. *)
Inductive exn_class :=
  | KeyError | IndexError | TypeError | AttributeError | ValueError
  | RequestException | IntegrityError | DatabaseError.

Record exn := mk_exn { exn_cls : exn_class; exn_str : string }.

Definition exn_class_eqb (a b : exn_class) : bool :=
  match a, b with
  | KeyError, KeyError | IndexError, IndexError | TypeError, TypeError
  | AttributeError, AttributeError | ValueError, ValueError
  | RequestException, RequestException | IntegrityError, IntegrityError
  | DatabaseError, DatabaseError => true
  | _, _ => false
  end.

(** Decoded JSON, as [json.load] and [response.json()] produce it. *)
Inductive json :=
  | JNull
  | JBool (b : bool)
  | JInt (n : Z)
  | JFloat (x : Q)
  | JStr (s : string)
  | JArr (items : list json)
  | JObj (fields : list (string * json)).

(** Truth value of a decoded object in [if x:]. *)
Definition truthy (j : json) : bool :=
  match j with
  | JNull => false
  | JBool b => b
  | JInt n => negb (n =? 0)
  | JFloat x => negb (Qeq_bool x 0)
  | JStr s => negb (String.eqb s "")
  | JArr l => match l with [] => false | _ => true end
  | JObj l => match l with [] => false | _ => true end
  end.

Definition is_none (j : json) : bool :=
  match j with JNull => true | _ => false end.

Fixpoint assoc (k : string) (l : list (string * json)) : option json :=
  match l with
  | [] => None
  | (k', v) :: r => if String.eqb k k' then Some v else assoc k r
  end.

(** [d[k] = v] on a dict: replaces the value of an existing key in place,
    appends a new key. *)
Fixpoint assoc_set (k : string) (v : json) (l : list (string * json))
  : list (string * json) :=
  match l with
  | [] => [(k, v)]
  | (k', v') :: r =>
      if String.eqb k k' then (k', v) :: r else (k', v') :: assoc_set k v r
  end.

(** [needle in haystack] on strings. *)
Definition str_contains (needle haystack : string) : bool :=
  match String.index 0 needle haystack with Some _ => true | None => false end.

(** A formatted string keeps its interpolated values apart from the literal
    text, in the order of the f-string. *)
Inductive frag :=
  | FStr (s : string)
  | FInt (n : Z)
  | FNum (x : Q)
  | FJson (j : json)
  | FNames (l : list string)
  | FExn (e : exn).

Definition text := list frag.

(** ** Slices *)

(** [l[:limit]] for an integer [limit]: a negative limit counts from the
    end. *)
Definition slice_to {A} (limit : Z) (l : list A) : list A :=
  if 0 <=? limit then take (Z.to_nat limit) l
  else take (length l - Z.to_nat (- limit))%nat l.

(** The last [n] elements of a list. *)
Definition lastn {A} (n : nat) (l : list A) : list A :=
  drop (length l - n)%nat l.

(** ** The stores *)

(** api_logging.api_call_types: the request template of each call type. *)
Record ApiCallType := {
  act_id : Z;
  act_platform : string;
  act_type : string;
  act_prototype : string }.

(** The URL built from a template: the coordinates and the credential are
    fixed by the configuration, the time parameter varies per key. *)
Record request := { req_prototype : string; req_time : json }.

(** api_logging.api_calls: one audit row per logged remote call. *)
Record ApiCall := {
  call_id : Z;
  call_timestamp : Z;
  call_type_id : Z;
  call_event : string;
  request_payload : request;
  response_code : Z;
  response_message : text;
  retry_count : Z;
  call_log_message : string }.

(** api_logging.sql_handling: one audit row per store outcome. *)
Record SqlHandling := {
  sh_api_call_id : option Z;
  sh_timestamp : Z;
  sh_status : text;
  sh_error : option text }.

(** api_logging.api_script_tracking: one row per (script_name, platform,
    api_call_alt_name). [daily_limit_reached] is [None] while no statement
    has assigned the column (it then holds the default of the schema). *)
Record TrackingRow := {
  status : text;
  previous_status : option text;
  last_checked : Z;
  requests_made_today : Z;
  daily_limit_reached : option bool;
  stopped_reason : option text;
  force_restart : bool }.

Abbreviation TKey := (string * string * string)%type.

(** The dictionary [extract_and_validate_weather_data] of the hourly engine
    returns. *)
Record hourly_validated := {
  hv_dt : json; hv_sunrise : json; hv_sunset : json; hv_temp : json;
  hv_feels_like : json; hv_pressure : json; hv_humidity : json;
  hv_dew_point : json; hv_visibility : json; hv_description : json;
  hv_clouds : json; hv_wind_speed : json; hv_wind_deg : json;
  hv_lat : json; hv_lon : json; hv_timezone : json;
  hv_timezone_offset : json }.

(** openweather_historical.hourly_data: keyed by (dt, location_id). *)
Record HourlyRow := {
  h_dt : Z;
  h_location_id : Z;
  h_values : hourly_validated }.

(** The dictionary [extract_and_validate_weather_data] of the daily engine
    returns. *)
Record daily_validated := {
  dv_lat : json; dv_lon : json; dv_tzoff : Z; dv_date : Z; dv_units : json;
  dv_cloud_cover_afternoon : json; dv_humidity_afternoon : json;
  dv_precipitation_total : json; dv_temperature_min : json;
  dv_temperature_max : json; dv_temperature_afternoon : json;
  dv_temperature_night : json; dv_temperature_evening : json;
  dv_temperature_morning : json; dv_pressure_afternoon : json;
  dv_wind_max_speed : json; dv_wind_max_direction : json }.

(** openweather_historical.daily_summary_data: keyed by date. *)
Record DailyRow := {
  d_date : Z;
  d_values : daily_validated }.

(** ** The environment *)

(** The result of an expression that may raise: a value or the exception
    raised. *)
Inductive res (A : Type) := Ok (a : A) | Err (e : exn).
Arguments Ok {A} a.
Arguments Err {A} e.

(** A response of the remote source. [resp_json] is what [response.json()]
    gives: the decoded body, or the exception it raises on a body that is
    not JSON (its class depends on the version of the library: a
    [JSONDecodeError] that is a [RequestException], or a [ValueError]). *)
Record response := {
  status_code : Z;
  resp_text : string;
  resp_json : res json }.

Inductive remote_outcome :=
  | Responded (r : response)
  | Failed (e : exn).

Record Env := {
  (** the wall clock: the value of the n-th reading *)
  clock : nat -> Z;
  (** the remote source: the outcome of the n-th request *)
  remote : nat -> remote_outcome;
  (** [datetime.strptime(s, "%Y-%m-%d").timestamp()], [None] on ValueError *)
  strptime_ymd : string -> option Z;
  (** [to_char(t, 'YYYY-MM-DD')] of PostgreSQL *)
  to_char_ymd : Z -> string;
  (** [int(s)] on a string, [None] on ValueError *)
  py_int : string -> option Z;
  (** the input function of [bigint] in PostgreSQL on a quoted literal,
      [None] on a syntax error *)
  pg_int8in : string -> option Z;
  (** the constraints of the weather schema: the error that rejects a row
      (a violated constraint, a value out of the range of its column) *)
  hourly_schema : HourlyRow -> option exn;
  daily_schema : DailyRow -> option exn }.

(** ** The state *)

Record St := {
  (** clock readings taken so far *)
  ticks : nat;
  (** requests sent to the remote source so far *)
  sent : nat;
  api_call_types : list ApiCallType;
  api_calls : list ApiCall;
  sql_handling : list SqlHandling;
  api_script_tracking : gmap TKey TrackingRow;
  hourly_data : list HourlyRow;
  daily_summary_data : list DailyRow;
  (** the event log: time, event, message *)
  log_file : list (Z * string * text);
  (** batch files by directory and creation second; [None] is a file that does not decode as JSON *)
  batch_dir : gmap (string * Z) (option json);
  stdout : list text;
  (** counters of the engine object *)
  failed_requests : Z;
  failed_sql_inserts : Z;
  batch_call_requests : Z }.

(** Field updates. *)
Definition set_ticks (v : nat) (st : St) : St :=
  {| ticks := v; sent := sent st; api_call_types := api_call_types st;
     api_calls := api_calls st; sql_handling := sql_handling st;
     api_script_tracking := api_script_tracking st;
     hourly_data := hourly_data st;
     daily_summary_data := daily_summary_data st; log_file := log_file st;
     batch_dir := batch_dir st; stdout := stdout st;
     failed_requests := failed_requests st;
     failed_sql_inserts := failed_sql_inserts st;
     batch_call_requests := batch_call_requests st |}.

Definition set_sent (v : nat) (st : St) : St :=
  {| ticks := ticks st; sent := v; api_call_types := api_call_types st;
     api_calls := api_calls st; sql_handling := sql_handling st;
     api_script_tracking := api_script_tracking st;
     hourly_data := hourly_data st;
     daily_summary_data := daily_summary_data st; log_file := log_file st;
     batch_dir := batch_dir st; stdout := stdout st;
     failed_requests := failed_requests st;
     failed_sql_inserts := failed_sql_inserts st;
     batch_call_requests := batch_call_requests st |}.

Definition set_api_calls (v : list ApiCall) (st : St) : St :=
  {| ticks := ticks st; sent := sent st; api_call_types := api_call_types st;
     api_calls := v; sql_handling := sql_handling st;
     api_script_tracking := api_script_tracking st;
     hourly_data := hourly_data st;
     daily_summary_data := daily_summary_data st; log_file := log_file st;
     batch_dir := batch_dir st; stdout := stdout st;
     failed_requests := failed_requests st;
     failed_sql_inserts := failed_sql_inserts st;
     batch_call_requests := batch_call_requests st |}.

Definition set_sql_handling (v : list SqlHandling) (st : St) : St :=
  {| ticks := ticks st; sent := sent st; api_call_types := api_call_types st;
     api_calls := api_calls st; sql_handling := v;
     api_script_tracking := api_script_tracking st;
     hourly_data := hourly_data st;
     daily_summary_data := daily_summary_data st; log_file := log_file st;
     batch_dir := batch_dir st; stdout := stdout st;
     failed_requests := failed_requests st;
     failed_sql_inserts := failed_sql_inserts st;
     batch_call_requests := batch_call_requests st |}.

Definition set_api_script_tracking (v : gmap TKey TrackingRow) (st : St) : St :=
  {| ticks := ticks st; sent := sent st; api_call_types := api_call_types st;
     api_calls := api_calls st; sql_handling := sql_handling st;
     api_script_tracking := v; hourly_data := hourly_data st;
     daily_summary_data := daily_summary_data st; log_file := log_file st;
     batch_dir := batch_dir st; stdout := stdout st;
     failed_requests := failed_requests st;
     failed_sql_inserts := failed_sql_inserts st;
     batch_call_requests := batch_call_requests st |}.

Definition set_hourly_data (v : list HourlyRow) (st : St) : St :=
  {| ticks := ticks st; sent := sent st; api_call_types := api_call_types st;
     api_calls := api_calls st; sql_handling := sql_handling st;
     api_script_tracking := api_script_tracking st; hourly_data := v;
     daily_summary_data := daily_summary_data st; log_file := log_file st;
     batch_dir := batch_dir st; stdout := stdout st;
     failed_requests := failed_requests st;
     failed_sql_inserts := failed_sql_inserts st;
     batch_call_requests := batch_call_requests st |}.

Definition set_daily_summary_data (v : list DailyRow) (st : St) : St :=
  {| ticks := ticks st; sent := sent st; api_call_types := api_call_types st;
     api_calls := api_calls st; sql_handling := sql_handling st;
     api_script_tracking := api_script_tracking st;
     hourly_data := hourly_data st; daily_summary_data := v;
     log_file := log_file st; batch_dir := batch_dir st; stdout := stdout st;
     failed_requests := failed_requests st;
     failed_sql_inserts := failed_sql_inserts st;
     batch_call_requests := batch_call_requests st |}.

Definition set_log_file (v : list (Z * string * text)) (st : St) : St :=
  {| ticks := ticks st; sent := sent st; api_call_types := api_call_types st;
     api_calls := api_calls st; sql_handling := sql_handling st;
     api_script_tracking := api_script_tracking st;
     hourly_data := hourly_data st;
     daily_summary_data := daily_summary_data st; log_file := v;
     batch_dir := batch_dir st; stdout := stdout st;
     failed_requests := failed_requests st;
     failed_sql_inserts := failed_sql_inserts st;
     batch_call_requests := batch_call_requests st |}.

Definition set_batch_dir (v : gmap (string * Z) (option json)) (st : St) : St :=
  {| ticks := ticks st; sent := sent st; api_call_types := api_call_types st;
     api_calls := api_calls st; sql_handling := sql_handling st;
     api_script_tracking := api_script_tracking st;
     hourly_data := hourly_data st;
     daily_summary_data := daily_summary_data st; log_file := log_file st;
     batch_dir := v; stdout := stdout st;
     failed_requests := failed_requests st;
     failed_sql_inserts := failed_sql_inserts st;
     batch_call_requests := batch_call_requests st |}.

Definition set_stdout (v : list text) (st : St) : St :=
  {| ticks := ticks st; sent := sent st; api_call_types := api_call_types st;
     api_calls := api_calls st; sql_handling := sql_handling st;
     api_script_tracking := api_script_tracking st;
     hourly_data := hourly_data st;
     daily_summary_data := daily_summary_data st; log_file := log_file st;
     batch_dir := batch_dir st; stdout := v;
     failed_requests := failed_requests st;
     failed_sql_inserts := failed_sql_inserts st;
     batch_call_requests := batch_call_requests st |}.

Definition set_failed_requests (v : Z) (st : St) : St :=
  {| ticks := ticks st; sent := sent st; api_call_types := api_call_types st;
     api_calls := api_calls st; sql_handling := sql_handling st;
     api_script_tracking := api_script_tracking st;
     hourly_data := hourly_data st;
     daily_summary_data := daily_summary_data st; log_file := log_file st;
     batch_dir := batch_dir st; stdout := stdout st; failed_requests := v;
     failed_sql_inserts := failed_sql_inserts st;
     batch_call_requests := batch_call_requests st |}.

Definition set_failed_sql_inserts (v : Z) (st : St) : St :=
  {| ticks := ticks st; sent := sent st; api_call_types := api_call_types st;
     api_calls := api_calls st; sql_handling := sql_handling st;
     api_script_tracking := api_script_tracking st;
     hourly_data := hourly_data st;
     daily_summary_data := daily_summary_data st; log_file := log_file st;
     batch_dir := batch_dir st; stdout := stdout st;
     failed_requests := failed_requests st; failed_sql_inserts := v;
     batch_call_requests := batch_call_requests st |}.

Definition set_batch_call_requests (v : Z) (st : St) : St :=
  {| ticks := ticks st; sent := sent st; api_call_types := api_call_types st;
     api_calls := api_calls st; sql_handling := sql_handling st;
     api_script_tracking := api_script_tracking st;
     hourly_data := hourly_data st;
     daily_summary_data := daily_summary_data st; log_file := log_file st;
     batch_dir := batch_dir st; stdout := stdout st;
     failed_requests := failed_requests st;
     failed_sql_inserts := failed_sql_inserts st; batch_call_requests := v |}.

(** ** The monad of the pipeline *)

Inductive outcome (A : Type) :=
  | Ret (a : A)          (* the call returns *)
  | Raise (e : exn)      (* an exception propagates *)
  | Exit (code : Z).     (* sys.exit(code) *)
Arguments Ret {A} a.
Arguments Raise {A} e.
Arguments Exit {A} code.

Definition M (A : Type) : Type := St -> outcome A * St.

Definition ret {A} (a : A) : M A := fun st => (Ret a, st).

Definition bind {A B} (m : M A) (k : A -> M B) : M B :=
  fun st =>
    match m st with
    | (Ret a, st') => k a st'
    | (Raise e, st') => (Raise e, st')
    | (Exit c, st') => (Exit c, st')
    end.

Notation "x <- m ;; k" := (bind m (fun x => k))
  (at level 100, m at next level, k at level 200, right associativity).
Notation "m ;; k" := (bind m (fun _ => k))
  (at level 100, k at level 200, right associativity).

Definition raise {A} (e : exn) : M A := fun st => (Raise e, st).
Definition sys_exit {A} (code : Z) : M A := fun st => (Exit code, st).
Definition gets {A} (f : St -> A) : M A := fun st => (Ret (f st), st).
Definition modify (f : St -> St) : M unit := fun st => (Ret tt, f st).

(** [try: m except <classes>: h]. [SystemExit] passes through every
    handler of the pipeline, none of which names it. *)
Definition try_except {A} (m : M A) (catches : exn -> bool)
    (h : exn -> M A) : M A :=
  fun st =>
    match m st with
    | (Raise e, st') => if catches e then h e st' else (Raise e, st')
    | r => r
    end.

Definition except_Exception (e : exn) : bool := true.
Definition except_class (c : exn_class) (e : exn) : bool :=
  exn_class_eqb (exn_cls e) c.

(** A reading of the wall clock: [datetime.now()], [datetime.utcnow()]. *)
Definition now (env : Env) : M Z :=
  fun st => (Ret (clock env (ticks st)), set_ticks (S (ticks st)) st).

(** ** APILogging (src/services/api_logger.py) *)

Definition log_event (env : Env) (event : string) (message : text) : M unit :=
  timestamp <- now env ;;
  modify (fun st => set_log_file (log_file st ++ [(timestamp, event, message)]) st).

(** The upsert of the tracking row: a new row takes [requests_made_today]
    0 and leaves [daily_limit_reached] to the schema; an existing row keeps
    both. *)
Definition upsert_tracking (status' : text) (previous : option text)
    (t : Z) (reason : option text) (restart : bool)
    (old : option TrackingRow) : TrackingRow :=
  match old with
  | None =>
      {| status := status'; previous_status := previous; last_checked := t;
         requests_made_today := 0; daily_limit_reached := None;
         stopped_reason := reason; force_restart := restart |}
  | Some r =>
      {| status := status'; previous_status := previous; last_checked := t;
         requests_made_today := requests_made_today r;
         daily_limit_reached := daily_limit_reached r;
         stopped_reason := reason; force_restart := restart |}
  end.

Definition insert_tracking_log (env : Env)
    (script_name platform api_call_alt_name : string) (status' : text)
    (stopped_reason' : option text) (force_restart' : bool) : M unit :=
  let key := (script_name, platform, api_call_alt_name) in
  previous_status' <- gets (fun st => status <$> api_script_tracking st !! key) ;;
  t <- now env ;;
  modify (fun st =>
    set_api_script_tracking
      (<[key := upsert_tracking status' previous_status' t stopped_reason'
                  force_restart' (api_script_tracking st !! key)]>
         (api_script_tracking st)) st).

(** Returns the id of the new audit row ([None] stands for the id the code
    returns when the insert fails, which the model's database never does). *)
Definition log_api_call (call_timestamp' api_call_type_id' : Z)
    (call_event' : string) (request_payload' : request) (response_code' : Z)
    (response_message' : text) (retry_count' : Z)
    (call_log_message' : string) : M (option Z) :=
  api_call_id <- gets (fun st => Z.of_nat (length (api_calls st)) + 1) ;;
  modify (fun st =>
    set_api_calls
      (api_calls st ++
         [{| call_id := api_call_id; call_timestamp := call_timestamp';
             call_type_id := api_call_type_id'; call_event := call_event';
             request_payload := request_payload';
             response_code := response_code';
             response_message := response_message';
             retry_count := retry_count';
             call_log_message := call_log_message' |}]) st) ;;
  ret (Some api_call_id).

Definition find_prototype (platform api_call_type : string)
    (l : list ApiCallType) : option string :=
  act_prototype <$>
    head (filter (fun r => act_platform r = platform /\ act_type r = api_call_type) l).

Definition get_api_prototype (env : Env) (platform api_call_type : string)
  : M string :=
  types <- gets api_call_types ;;
  match find_prototype platform api_call_type types with
  | Some p => ret p
  | None =>
      let e := mk_exn ValueError
                 ("No API prototype found for " ++ platform ++ " - " ++
                  api_call_type) in
      log_event env "Database Error" [FExn e] ;;
      raise e
  end.

Definition log_sql_insert (api_call_id : option Z) (insert_timestamp : Z)
    (insert_status : text) (error_message : option text) : M unit :=
  modify (fun st =>
    set_sql_handling
      (sql_handling st ++
         [{| sh_api_call_id := api_call_id; sh_timestamp := insert_timestamp;
             sh_status := insert_status; sh_error := error_message |}]) st).

Definition handle_sql_failure (env : Env) (api_call_id : option Z)
    (error_message : text) : M unit :=
  log_event env "data_validation_failure" error_message ;;
  t <- now env ;;
  log_sql_insert api_call_id t [FStr "failure"] (Some error_message).

(** ** APIControl (src/services/api_control.py) *)

Record APIControl := {
  api_call_type_id : Z;
  script_name : string;
  platform : string;
  api_call_alt_name : string;
  daily_limit : Z }.

Definition tracking_key (self : APIControl) : TKey :=
  (script_name self, platform self, api_call_alt_name self).

(** [UPDATE api_script_tracking SET ... WHERE script_name = ... AND
    platform = ... AND api_call_alt_name = ...]: changes the row of the key
    when there is one. *)
Definition update_tracking (key : TKey) (f : TrackingRow -> TrackingRow)
  : M unit :=
  modify (fun st =>
    set_api_script_tracking (alter f key (api_script_tracking st)) st).

(** [SELECT COUNT( * ) FROM api_calls WHERE api_call_type_id = id AND
    call_timestamp >= since]. *)
Definition count_calls_of_type (id since : Z) (calls : list ApiCall) : Z :=
  Z.of_nat (length (filter
    (fun c => call_type_id c = id /\ since <= call_timestamp c) calls)).

Definition requests_today (env : Env) (self : APIControl) : M Z :=
  current_utc_time <- now env ;;
  let reset_time_utc := current_utc_time - current_utc_time mod 86400 in
  gets (fun st =>
    count_calls_of_type (api_call_type_id self) reset_time_utc (api_calls st)).

Definition check_daily_limit_reached (env : Env) (self : APIControl)
  : M bool :=
  requests_made_today' <- requests_today env self ;;
  current_utc_time <- now env ;;
  log_event env "Daily Request Check"
    [FStr "Requests made today: "; FInt requests_made_today'] ;;
  if daily_limit self <=? requests_made_today' then
    update_tracking (tracking_key self) (fun r =>
      {| status := status r; previous_status := previous_status r;
         last_checked := current_utc_time;
         requests_made_today := requests_made_today r;
         daily_limit_reached := Some true;
         stopped_reason := stopped_reason r;
         force_restart := force_restart r |}) ;;
    insert_tracking_log env (script_name self) (platform self)
      (api_call_alt_name self) [FStr "stopped-warn"]
      (Some [FStr "Daily limit reached"]) false ;;
    log_event env "Daily Limit"
      [FStr "Daily API limit reached. No further processing for today."] ;;
    ret true
  else
    (if requests_made_today' =? 0 then
       update_tracking (tracking_key self) (fun r =>
         {| status := status r; previous_status := previous_status r;
            last_checked := current_utc_time;
            requests_made_today := 0;
            daily_limit_reached := Some false;
            stopped_reason := stopped_reason r;
            force_restart := force_restart r |}) ;;
       log_event env "Daily Limit Reset"
         [FStr "A new day has started. Daily API limit has been reset."]
     else ret tt) ;;
    ret false.

Definition update_requests_made_today (env : Env) (self : APIControl)
  : M unit :=
  requests_made_today' <- requests_today env self ;;
  current_utc_time <- now env ;;
  update_tracking (tracking_key self) (fun r =>
    {| status := status r; previous_status := previous_status r;
       last_checked := current_utc_time;
       requests_made_today := requests_made_today r + 1;
       daily_limit_reached := daily_limit_reached r;
       stopped_reason := stopped_reason r;
       force_restart := force_restart r |}) ;;
  log_event env "Request Update"
    [FStr "Requests made today incremented to "; FInt (requests_made_today' + 1)].

(** [SELECT api_call_type_id FROM api_call_types WHERE platform = p]. *)
Definition platform_type_ids (p : string) (types : list ApiCallType)
  : list Z :=
  act_id <$> filter (fun r => act_platform r = p) types.

(** [SELECT COUNT( * ) FROM api_calls WHERE api_call_type_id = ANY(ids) AND
    call_timestamp >= since], with a condition on the response code. *)
Definition count_calls (ids : list Z) (since : Z) (code_ok : Z -> bool)
    (calls : list ApiCall) : Z :=
  Z.of_nat (length (filter
    (fun c => call_type_id c ∈ ids /\ since <= call_timestamp c /\
              code_ok (response_code c) = true) calls)).

Definition Qgt_bool (a b : Q) : bool := negb (Qle_bool a b).

(** The pacing delay of [rate_limit_check] for a number of calls observed
    in the trailing 300 seconds, in exact arithmetic. *)
Definition next_interval_of (calls_in_last_5_minutes : Z) : Q :=
  let calls_in_5_minutes_allowed := (300 * (9 # 10))%Q in
  let allowed_call_interval := (300 / calls_in_5_minutes_allowed)%Q in
  let current_call_rate := (inject_Z calls_in_last_5_minutes / 300)%Q in
  (allowed_call_interval + current_call_rate * allowed_call_interval)%Q.

(** [time.sleep] changes nothing the process holds; the time it takes shows
    in the later readings of the clock. *)
Definition time_sleep (seconds : Q) : M unit := ret tt.

Definition rate_limit_check (env : Env) (self : APIControl) : M unit :=
  t <- now env ;;
  let time_5_minutes_ago := t - 300 in
  api_call_type_ids <- gets (fun st =>
    platform_type_ids (platform self) (api_call_types st)) ;;
  calls_in_last_5_minutes <- gets (fun st =>
    count_calls api_call_type_ids time_5_minutes_ago (fun _ => true)
      (api_calls st)) ;;
  let next_interval := next_interval_of calls_in_last_5_minutes in
  log_event env "Rate Limit Check"
    [FStr "Calls in the last 5 minutes: "; FInt calls_in_last_5_minutes;
     FStr ", Next interval: "; FNum next_interval; FStr " seconds"] ;;
  if Qgt_bool next_interval 0 then
    log_event env "Rate Limit"
      [FStr "Sleeping for "; FNum next_interval;
       FStr " seconds to enforce rate limit."] ;;
    time_sleep next_interval
  else
    log_event env "Rate Limit"
      [FStr "No need to sleep, the call rate is within limits."].

(** The threshold test of [check_failure_rate]. The quotient is taken in
    exact arithmetic; on counts below 2^50 the comparison of the rounded
    quotient with the constant 0.2 of the code gives the same answer. *)
Definition failure_threshold_exceeded (failure_count success_count : Z)
  : bool :=
  (10 <? failure_count) &&
  ((0 <? success_count) &&
   Qgt_bool (inject_Z failure_count / inject_Z success_count) (2 # 10)).

Definition check_failure_rate (env : Env) (self : APIControl) : M bool :=
  t <- now env ;;
  let time_2_minutes_ago := t - 120 in
  api_call_type_ids <- gets (fun st =>
    platform_type_ids (platform self) (api_call_types st)) ;;
  failure_count <- gets (fun st =>
    count_calls api_call_type_ids time_2_minutes_ago
      (fun c => negb (c =? 200)) (api_calls st)) ;;
  success_count <- gets (fun st =>
    count_calls api_call_type_ids time_2_minutes_ago
      (fun c => c =? 200) (api_calls st)) ;;
  if failure_threshold_exceeded failure_count success_count then
    log_event env "Failure Rate Check"
      [FStr "Failures exceed threshold: "; FInt failure_count;
       FStr " failures in last 2 minutes."] ;;
    ret true
  else
    log_event env "Failure Rate Check"
      [FStr "Failures within limits: "; FInt failure_count;
       FStr " failures, "; FInt success_count; FStr " successes."] ;;
    ret false.

(** ** What the two engines share *)

(** The attributes of an engine object that its methods read. The platform,
    script name, alternative name, call-type id and daily limit are those of
    its [control]. *)
Record Engine := {
  json_file_path : string * Z;
  location_id : Z;
  api_call_type : string;
  control : APIControl }.

(** [requests.get]: the next outcome of the remote source. *)
Definition requests_get (env : Env) : M response :=
  fun st =>
    match remote env (sent st) with
    | Responded r => (Ret r, set_sent (S (sent st)) st)
    | Failed e => (Raise e, set_sent (S (sent st)) st)
    end.

Definition tracking_log (env : Env) (self : Engine) (status' : text)
    (stopped_reason' : option text) (force_restart' : bool) : M unit :=
  insert_tracking_log env (script_name (control self)) (platform (control self))
    (api_call_alt_name (control self)) status' stopped_reason' force_restart'.

Definition add_failed_request : M unit :=
  modify (fun st => set_failed_requests (failed_requests st + 1) st).
Definition add_failed_sql_insert : M unit :=
  modify (fun st => set_failed_sql_inserts (failed_sql_inserts st + 1) st).
Definition add_batch_call_request : M unit :=
  modify (fun st => set_batch_call_requests (batch_call_requests st + 1) st).

(** The last handler of [call_openweather_api], the same in both engines:
    any exception is a critical failure. *)
Definition critical_failure {A} (env : Env) (self : Engine) (e : exn) : M A :=
  let error_message := [FStr "API Error: "; FExn e] in
  log_event env "API Error" error_message ;;
  tracking_log env self [FStr "stopped-err"] (Some error_message) true ;;
  update_requests_made_today env (control self) ;;
  sys_exit 1.

(** The fatal branches of the response classification, the same in both
    engines up to the wording of the message. *)
Definition critical_response {A} (env : Env) (self : Engine)
    (error_message : text) : M A :=
  log_event env "Critical Error" error_message ;;
  tracking_log env self [FStr "stopped-err"] (Some error_message) true ;;
  update_requests_made_today env (control self) ;;
  sys_exit 1.

Definition rbind {A B} (r : res A) (k : A -> res B) : res B :=
  match r with Ok a => k a | Err e => Err e end.

Notation "x <~ r ;; k" := (rbind r (fun x => k))
  (at level 100, r at next level, k at level 200, right associativity).

Definition lift {A} (r : res A) : M A :=
  match r with Ok a => ret a | Err e => raise e end.

(** [d.get(k, default)] *)
Definition py_get (d : json) (k : string) (default : json) : res json :=
  match d with
  | JObj l => Ok (match assoc k l with Some v => v | None => default end)
  | _ => Err (mk_exn AttributeError "object has no attribute 'get'")
  end.

(** [d[k]] for a string key *)
Definition py_getitem (d : json) (k : string) : res json :=
  match d with
  | JObj l =>
      match assoc k l with Some v => Ok v | None => Err (mk_exn KeyError k) end
  | JArr _ | JStr _ => Err (mk_exn TypeError "indices must be integers")
  | _ => Err (mk_exn TypeError "object is not subscriptable")
  end.

(** [d[0]] *)
Definition py_first (d : json) : res json :=
  match d with
  | JArr (x :: _) => Ok x
  | JArr [] => Err (mk_exn IndexError "list index out of range")
  | JStr (String c _) => Ok (JStr (String c ""))
  | JStr EmptyString => Err (mk_exn IndexError "string index out of range")
  | JObj _ => Err (mk_exn KeyError "0")
  | _ => Err (mk_exn TypeError "object is not subscriptable")
  end.

(** [s.split(':')] *)
Fixpoint split_colon (s : string) : list string :=
  match s with
  | EmptyString => [""]
  | String c r =>
      if Ascii.eqb c ":" then "" :: split_colon r
      else match split_colon r with
           | h :: t => String c h :: t
           | [] => [String c ""]
           end
  end.

(** The three checks of the governor before a call. *)
Definition gate (env : Env) (self : Engine) : M unit :=
  reached <- check_daily_limit_reached env (control self) ;;
  if reached then sys_exit 1
  else
    rate_limit_check env (control self) ;;
    open <- check_failure_rate env (control self) ;;
    if open then sys_exit 1 else ret tt.

(** The truth value of an [api_call_id]. *)
Definition truthy_id (i : option Z) : bool :=
  match i with Some n => negb (n =? 0) | None => false end.


(** ** OpenWeatherDailySummary (src/services/openweather_summary.py) *)

Module Daily.

Definition engine (path : string * Z) (limit : Z) : Engine :=
  {| json_file_path := path;
     location_id := 1;
     api_call_type := "Daily Aggregation";
     control :=
       {| api_call_type_id := 2;
          script_name := "openweather_summary_get";
          platform := "OpenWeather";
          api_call_alt_name := "day_summary";
          daily_limit := limit |} |}.

(** What one pass of the retry loop decides: [return] a value from the
    method, or go on with the next attempt. *)
Inductive step :=
  | Return (weather_data : option json) (api_call_id : option Z)
  | Next (retry_count : Z).

Definition max_retries : Z := 3.

(** The body of [for attempt in range(max_retries)]. A response code that
    no branch names leaves the [if] chain without a [return], and the loop
    goes on. *)
Definition attempt_call (env : Env) (self : Engine) (date : string)
    (total_dates completed_dates call_timestamp' : Z)
    (request_payload' : request) (attempt retry_count' : Z) : M step :=
  try_except
    (response <- requests_get env ;;
     let response_code' := status_code response in
     let response_message' :=
       if response_code' =? 200
       then [FStr "Successfully retrieved summary for "; FStr date]
       else [FStr "API call failed with status "; FInt response_code';
             FStr " - "; FStr (resp_text response)] in
     api_call_id <- log_api_call call_timestamp'
       (api_call_type_id (control self)) "API Call" request_payload'
       response_code' response_message' retry_count'
       "OpenWeather API Daily Summary" ;;
     if response_code' =? 200 then
       log_event env "Success" [FStr "Data received for date: "; FStr date] ;;
       tracking_log env self
         [FStr "Processing: "; FInt completed_dates; FStr " of ";
          FInt total_dates] None false ;;
       update_requests_made_today env (control self) ;;
       body <- lift (resp_json response) ;;
       ret (Return (Some body) api_call_id)
     else if (response_code' =? 400) &&
             str_contains "out the available range" (resp_text response) then
       let error_message :=
         [FStr "API Error: call failed with status "; FInt response_code';
          FStr ": Invalid date"] in
       log_event env "Warning" error_message ;;
       add_failed_request ;;
       tracking_log env self [FStr "Processing"] (Some error_message) false ;;
       update_requests_made_today env (control self) ;;
       ret (Return None api_call_id)
     else if response_code' =? 404 then
       critical_response env self
         [FStr "API call failed with status "; FInt response_code';
          FStr ": Not Found"]
     else if response_code' =? 403 then
       critical_response env self
         [FStr "API call failed with status "; FInt response_code';
          FStr ": Forbidden (Invalid API Key)"]
     else if 500 <=? response_code' then
       critical_response env self
         [FStr "Server Error (Status: "; FInt response_code';
          FStr ") during API call"]
     else ret (Next retry_count'))
    (except_class RequestException)
    (fun e =>
       let retry_count' := retry_count' + 1 in
       if attempt <? max_retries - 1 then
         log_event env "Warning"
           [FStr "Error fetching data: "; FExn e; FStr ". Retrying (";
            FInt retry_count'; FStr "/"; FInt max_retries; FStr ")..."] ;;
         ret (Next retry_count')
       else
         let error_message :=
           [FStr "Error fetching data after "; FInt max_retries;
            FStr " attempts. Skipping this date: "; FStr date] in
         log_event env "Error" error_message ;;
         tracking_log env self [FStr "Processing"] (Some error_message) true ;;
         update_requests_made_today env (control self) ;;
         ret (Return None None)).

(** The [for] loop over the attempts. Falling off its end, the method
    returns [None] (here: the outer [None]) instead of a pair. *)
Fixpoint attempts_loop (env : Env) (self : Engine) (date : string)
    (total_dates completed_dates call_timestamp' : Z)
    (request_payload' : request) (attempts : list Z) (retry_count' : Z)
  : M (option (option json * option Z)) :=
  match attempts with
  | [] => ret None
  | attempt :: rest =>
      s <- attempt_call env self date total_dates completed_dates
             call_timestamp' request_payload' attempt retry_count' ;;
      match s with
      | Return weather_data api_call_id =>
          ret (Some (weather_data, api_call_id))
      | Next retry_count'' =>
          attempts_loop env self date total_dates completed_dates
            call_timestamp' request_payload' rest retry_count''
      end
  end.

Definition call_openweather_api (env : Env) (self : Engine) (date : string)
    (total_dates completed_dates : Z)
  : M (option (option json * option Z)) :=
  try_except
    (api_prototype <- get_api_prototype env (platform (control self))
                        (api_call_type self) ;;
     let base_url :=
       {| req_prototype := api_prototype; req_time := JStr date |} in
     log_event env "Request"
       [FStr "Calling API: OpenWeather daily summary for timestamp: ";
        FStr date] ;;
     call_timestamp' <- now env ;;
     attempts_loop env self date total_dates completed_dates call_timestamp'
       base_url (seqZ 0 max_retries) 0)
    except_Exception
    (critical_failure env self).

Definition convert_tz_to_seconds (env : Env) (tz : json) : res Z :=
  match tz with
  | JStr s =>
      let tz_sign := match s with String "-" _ => -1 | _ => 1 end in
      let rest := match s with String _ r => r | EmptyString => "" end in
      match split_colon rest with
      | [h; m] =>
          match py_int env h, py_int env m with
          | Some tz_hours, Some tz_minutes =>
              Ok (tz_sign * (tz_hours * 3600 + tz_minutes * 60))
          | _, _ => Err (mk_exn ValueError "invalid literal for int()")
          end
      | _ => Err (mk_exn ValueError "wrong number of values to unpack")
      end
  | _ => Err (mk_exn AttributeError "object has no attribute 'startswith'")
  end.

(** [int(datetime.strptime(date_str, "%Y-%m-%d").timestamp())] *)
Definition date_to_unix (env : Env) (date_str : json) : res Z :=
  match date_str with
  | JStr s =>
      match strptime_ymd env s with
      | Some t => Ok t
      | None => Err (mk_exn ValueError "time data does not match format")
      end
  | _ => Err (mk_exn TypeError "strptime() argument 1 must be str")
  end.

(** [data.get(section, {}).get(field, default)] *)
Definition get2 (data : json) (section field : string) (default : json)
  : res json :=
  s <~ py_get data section (JObj []) ;;
  py_get s field default.

Inductive extraction :=
  | Missing (missing_fields : list string) (date_unix : Z)
  | Validated (validated_data : daily_validated).

(** The [try] body of [extract_and_validate_weather_data] up to its
    [return]s, without the logging. *)
Definition extract (env : Env) (data : json) : res extraction :=
  date_str <~ py_get data "date" (JStr "1970-01-01") ;;
  date_unix <~ date_to_unix env date_str ;;
  cloud_cover_afternoon <~ get2 data "cloud_cover" "afternoon" (JFloat 0) ;;
  humidity_afternoon <~ get2 data "humidity" "afternoon" (JFloat 0) ;;
  precipitation_total <~ get2 data "precipitation" "total" (JFloat 0) ;;
  temperature_min <~ get2 data "temperature" "min" (JFloat 0) ;;
  temperature_max <~ get2 data "temperature" "max" (JFloat 0) ;;
  temperature_afternoon <~ get2 data "temperature" "afternoon" (JFloat 0) ;;
  temperature_night <~ get2 data "temperature" "night" (JFloat 0) ;;
  temperature_evening <~ get2 data "temperature" "evening" (JFloat 0) ;;
  temperature_morning <~ get2 data "temperature" "morning" (JFloat 0) ;;
  pressure_afternoon <~ get2 data "pressure" "afternoon" (JFloat 0) ;;
  wind_max <~ get2 data "wind" "max" (JObj []) ;;
  wind_max_speed <~ py_get wind_max "speed" (JFloat 0) ;;
  wind_max' <~ get2 data "wind" "max" (JObj []) ;;
  wind_max_direction <~ py_get wind_max' "direction" (JInt 0) ;;
  let critical_fields :=
    [("cloud_cover_afternoon", cloud_cover_afternoon);
     ("humidity_afternoon", humidity_afternoon);
     ("precipitation_total", precipitation_total);
     ("temperature_min", temperature_min);
     ("temperature_max", temperature_max);
     ("pressure_afternoon", pressure_afternoon);
     ("wind_max_speed", wind_max_speed)] in
  let missing_fields :=
    fst <$> List.filter (fun fv => is_none (snd fv)) critical_fields in
  match missing_fields with
  | _ :: _ => Ok (Missing missing_fields date_unix)
  | [] =>
      lat <~ py_get data "lat" (JFloat 0) ;;
      lon <~ py_get data "lon" (JFloat 0) ;;
      tz <~ py_get data "tz" (JStr "00:00") ;;
      tzoff <~ convert_tz_to_seconds env tz ;;
      units <~ py_get data "units" (JStr "metric") ;;
      Ok (Validated
        {| dv_lat := lat; dv_lon := lon; dv_tzoff := tzoff;
           dv_date := date_unix; dv_units := units;
           dv_cloud_cover_afternoon := cloud_cover_afternoon;
           dv_humidity_afternoon := humidity_afternoon;
           dv_precipitation_total := precipitation_total;
           dv_temperature_min := temperature_min;
           dv_temperature_max := temperature_max;
           dv_temperature_afternoon := temperature_afternoon;
           dv_temperature_night := temperature_night;
           dv_temperature_evening := temperature_evening;
           dv_temperature_morning := temperature_morning;
           dv_pressure_afternoon := pressure_afternoon;
           dv_wind_max_speed := wind_max_speed;
           dv_wind_max_direction := wind_max_direction |})
  end.

Definition extract_and_validate_weather_data (env : Env) (self : Engine)
    (data : json) (api_call_id : option Z) : M (option daily_validated) :=
  try_except
    (x <- lift (extract env data) ;;
     match x with
     | Missing missing_fields date_unix =>
         handle_sql_failure env api_call_id
           [FStr "Missing critical data: "; FNames missing_fields;
            FStr " for date "; FInt date_unix] ;;
         ret None
     | Validated validated_data => ret (Some validated_data)
     end)
    except_Exception
    (fun e =>
       handle_sql_failure env api_call_id
         [FStr "Error extracting and validating weather data: "; FExn e] ;;
       ret None).

(** [SELECT 1 FROM daily_summary_data WHERE date = d] finds a row. *)
Definition date_exists (d : Z) (rows : list DailyRow) : bool :=
  bool_decide (Exists (fun r => d_date r = d) rows).

Definition store_failure (env : Env) (api_call_id : option Z)
    (log_message error_message : text) : M Z :=
  log_event env "sql_insert_failure" log_message ;;
  t <- now env ;;
  log_sql_insert api_call_id t [FStr "failure"] (Some error_message) ;;
  add_failed_sql_insert ;;
  ret 0.

Definition store_weather_data (env : Env) (self : Engine)
    (data : daily_validated) (api_call_id : option Z) : M Z :=
  try_except
    (found <- gets (fun st => date_exists (dv_date data) (daily_summary_data st)) ;;
     if found then
       log_event env "data_exists"
         [FStr "Record already exists for date "; FInt (dv_date data)] ;;
       t <- now env ;;
       log_sql_insert api_call_id t [FStr "failure"]
         (Some [FStr "Duplicate record"]) ;;
       add_failed_sql_insert ;;
       ret 0
     else
       let row := {| d_date := dv_date data; d_values := data |} in
       match daily_schema env row with
       | Some e => raise e
       | None =>
           modify (fun st =>
             set_daily_summary_data (daily_summary_data st ++ [row]) st) ;;
           t <- now env ;;
           log_sql_insert api_call_id t
             [FStr "Successfully inserted data for date ";
              FInt (dv_date data)] None ;;
           log_event env "sql_insert_success"
             [FStr "Record inserted for date "; FInt (dv_date data)] ;;
           ret 1
       end)
    except_Exception
    (fun e =>
       if except_class IntegrityError e then
         store_failure env api_call_id
           [FStr "Duplicate record for date "; FInt (dv_date data)]
           [FStr "Duplicate record"]
       else
         store_failure env api_call_id
           [FStr "Failed to insert data: "; FExn e] [FExn e]).

(** [human_to_unix]: the epoch of a date of the batch. *)
Definition human_to_unix (env : Env) (human_timestamp : string) : M Z :=
  lift (date_to_unix env (JStr human_timestamp)).

Fixpoint check_for_duplicates (env : Env) (timestamps : list string)
  : M (list string) :=
  match timestamps with
  | [] => ret []
  | timestamp :: rest =>
      t <- human_to_unix env timestamp ;;
      found <- gets (fun st => date_exists t (daily_summary_data st)) ;;
      valid <- check_for_duplicates env rest ;;
      ret (if found then valid else timestamp :: valid)
  end.

(** [isinstance(data, list) and all(isinstance(item, str) for item in
    data)], with the items. *)
Fixpoint all_str (items : list json) : option (list string) :=
  match items with
  | [] => Some []
  | JStr s :: rest => cons s <$> all_str rest
  | _ => None
  end.

Definition input_error {A} (env : Env) (self : Engine) (error_message : text)
  : M A :=
  log_event env "Error" error_message ;;
  tracking_log env self [FStr "stopped-err"] (Some error_message) false ;;
  sys_exit 1.

Definition load_json_input (env : Env) (self : Engine) : M (list string) :=
  file <- gets (fun st => batch_dir st !! json_file_path self) ;;
  match file with
  | None =>
      input_error env self
        [FStr "Input file "; FInt (snd (json_file_path self)); FStr " not found"]
  | Some None =>
      input_error env self
        [FStr "Failed to decode JSON from file ";
         FInt (snd (json_file_path self))]
  | Some (Some data) =>
      match data with
      | JArr items =>
          match all_str items with
          | Some l => ret l
          | None => input_error env self [FStr "Invalid input format: "; FJson data]
          end
      | _ => input_error env self [FStr "Invalid input format: "; FJson data]
      end
  end.

(** [weather_data, api_call_id = ...]: unpacking [None] raises. *)
Definition unpack (r : option (option json * option Z))
  : M (option json * option Z) :=
  match r with
  | Some p => ret p
  | None => raise (mk_exn TypeError "cannot unpack non-iterable NoneType object")
  end.

(** The loop body after the call: validate, store, count the key. *)
Definition validate_and_store (env : Env) (self : Engine)
    (r : option json * option Z) : M unit :=
  let '(weather_data, api_call_id) := r in
  (match weather_data with
   | Some data =>
       if truthy data && truthy_id api_call_id then
         extracted <- extract_and_validate_weather_data env self data
                        api_call_id ;;
         match extracted with
         | Some validated_data =>
             store_weather_data env self validated_data api_call_id ;; ret tt
         | None => ret tt
         end
       else ret tt
   | None => ret tt
   end) ;;
  add_batch_call_request.

(** The loop body from the call on. *)
Definition fetch_validate_store (env : Env) (self : Engine) (total idx : Z)
    (date : string) : M unit :=
  r <- call_openweather_api env self date total idx ;;
  p <- unpack r ;;
  validate_and_store env self p.

Definition process_key (env : Env) (self : Engine) (total idx : Z)
    (date : string) : M unit :=
  gate env self ;;
  fetch_validate_store env self total idx date.

Fixpoint process_keys (env : Env) (self : Engine) (total idx : Z)
    (dates : list string) : M unit :=
  match dates with
  | [] => ret tt
  | date :: rest =>
      process_key env self total idx date ;;
      process_keys env self total (idx + 1) rest
  end.

(** The end of [run]: the closing tracking transition and the summary. *)
Definition finish (env : Env) (self : Engine) : M unit :=
  failed_requests' <- gets failed_requests ;;
  failed_sql_inserts' <- gets failed_sql_inserts ;;
  batch_call_requests' <- gets batch_call_requests ;;
  (if negb (failed_requests' =? 0) || (0 <? failed_sql_inserts')
   then tracking_log env self [FStr "stopped-warn"] None false
   else tracking_log env self [FStr "stopped-succ"] None false) ;;
  log_event env "Success"
    [FStr "Script completed with "; FInt batch_call_requests';
     FStr " requests, "; FInt failed_requests';
     FStr " request failures, and "; FInt failed_sql_inserts';
     FStr " failed inserts."].

Definition run (env : Env) (self : Engine) : M unit :=
  timestamps <- load_json_input env self ;;
  valid_timestamps <- check_for_duplicates env timestamps ;;
  (match valid_timestamps with
   | [] => log_event env "Warning"
             [FStr "All dates submitted exist in the database."]
   | _ => ret tt
   end) ;;
  process_keys env self (Z.of_nat (length valid_timestamps)) 0
    valid_timestamps ;;
  finish env self.

End Daily.

(** ** OpenWeatherTimemachine (src/services/openweather_timemachine.py) *)

Module Hourly.

Definition engine (path : string * Z) (limit : Z) : Engine :=
  {| json_file_path := path;
     location_id := 1;
     api_call_type := "Weather Data for Timestamp";
     control :=
       {| api_call_type_id := 4;
          script_name := "openweather_timemachine_get";
          platform := "OpenWeather";
          api_call_alt_name := "timemachine";
          daily_limit := limit |} |}.

(** The text of a timestamp in the messages ("%Y-%m-%d %H:%M" in UTC). *)
Definition unix_to_human (unix_timestamp : Z) : frag := FInt unix_timestamp.

(** One request, no retry loop: an exception of [requests.get] reaches the
    last handler. *)
Definition call_openweather_api (env : Env) (self : Engine)
    (unix_timestamp total_timestamps completed_timestamps : Z)
  : M (option json * option Z) :=
  try_except
    (api_prototype <- get_api_prototype env (platform (control self))
                        (api_call_type self) ;;
     let base_url :=
       {| req_prototype := api_prototype; req_time := JInt unix_timestamp |} in
     let human_timestamp := unix_to_human unix_timestamp in
     log_event env "Request"
       [FStr "Calling API: OpenWeather timemachine for timestamp: ";
        human_timestamp] ;;
     response <- requests_get env ;;
     call_timestamp' <- now env ;;
     let request_payload' := base_url in
     let retry_count' := 0 in
     let response_code' := status_code response in
     let response_message' :=
       if response_code' =? 200
       then [FStr "Successfully retrieved "; human_timestamp]
       else [FStr "API call failed with status "; FInt response_code';
             FStr " - "; FStr (resp_text response)] in
     api_call_id <- log_api_call call_timestamp'
       (api_call_type_id (control self)) "API Call" request_payload'
       response_code' response_message' retry_count'
       "OpenWeather API Historical Timemachine" ;;
     if response_code' =? 200 then
       log_event env "Success"
         [FStr "Data received for timestamp: "; human_timestamp] ;;
       tracking_log env self
         [FStr "Processing: "; FInt completed_timestamps; FStr " of ";
          FInt total_timestamps] None false ;;
       update_requests_made_today env (control self) ;;
       body <- lift (resp_json response) ;;
       ret (Some body, api_call_id)
     else if (response_code' =? 400) &&
             str_contains "out the available range" (resp_text response) then
       let error_message :=
         [FStr "API Error: call failed with status "; FInt response_code';
          FStr ": Invalid date"] in
       log_event env "Warning" error_message ;;
       add_failed_request ;;
       tracking_log env self [FStr "Processing"] (Some error_message) false ;;
       update_requests_made_today env (control self) ;;
       ret (None, api_call_id)
     else if response_code' =? 404 then
       critical_response env self
         [FStr "API call failed with status "; FInt response_code';
          FStr ": Not Found (URL might be wrong)"]
     else if response_code' =? 403 then
       critical_response env self
         [FStr "API call failed with status "; FInt response_code';
          FStr ": Forbidden (Invalid API Key)"]
     else if 500 <=? response_code' then
       critical_response env self
         [FStr "Server Error (Status: "; FInt response_code';
          FStr ") during API call"]
     else
       let error_message :=
         [FStr "API Error: Unhandled API error with status ";
          FInt response_code'] in
       log_event env "API Error: " error_message ;;
       add_failed_request ;;
       tracking_log env self [FStr "Processing"] (Some error_message) true ;;
       update_requests_made_today env (control self) ;;
       ret (None, api_call_id))
    except_Exception
    (critical_failure env self).

(** [isinstance(v, (int, float))]; a boolean is an [int]. *)
Definition is_number (v : json) : bool :=
  match v with JInt _ | JFloat _ | JBool _ => true | _ => false end.

Inductive extraction :=
  | Missing (missing_fields : list string) (dt : json)
  | NoDescription (dt : json)
  | Validated (validated_data : hourly_validated).

Definition critical_fields : list string :=
  ["temp"; "feels_like"; "pressure"; "humidity"; "dt"].

(** The [try] body of [extract_and_validate_weather_data] up to its
    [return]s, without the logging. *)
Definition extract (data : json) : res extraction :=
  data_list <~ py_getitem data "data" ;;
  weather_data <~ py_first data_list ;;
  visibility <~ py_get weather_data "visibility" (JInt 0) ;;
  let visibility := if is_number visibility then visibility else JInt 0 in
  let weather_data :=
    match weather_data with
    | JObj l => JObj (assoc_set "visibility" visibility l)
    | other => other
    end in
  let missing_fields :=
    List.filter
      (fun field =>
         match py_get weather_data field JNull with
         | Ok v => is_none v
         | Err _ => false
         end) critical_fields in
  dt <~ py_get weather_data "dt" JNull ;;
  match missing_fields with
  | _ :: _ => Ok (Missing missing_fields dt)
  | [] =>
      weather <~ py_get weather_data "weather" (JArr [JObj []]) ;;
      weather0 <~ py_first weather ;;
      description <~ py_get weather0 "description" JNull ;;
      if negb (truthy description) then Ok (NoDescription dt)
      else
        dt' <~ py_getitem weather_data "dt" ;;
        sunrise <~ py_getitem weather_data "sunrise" ;;
        sunset <~ py_getitem weather_data "sunset" ;;
        temp <~ py_getitem weather_data "temp" ;;
        feels_like <~ py_getitem weather_data "feels_like" ;;
        pressure <~ py_getitem weather_data "pressure" ;;
        humidity <~ py_getitem weather_data "humidity" ;;
        dew_point <~ py_getitem weather_data "dew_point" ;;
        visibility' <~ py_getitem weather_data "visibility" ;;
        weather' <~ py_getitem weather_data "weather" ;;
        weather0' <~ py_first weather' ;;
        description' <~ py_getitem weather0' "description" ;;
        clouds <~ py_getitem weather_data "clouds" ;;
        wind_speed <~ py_getitem weather_data "wind_speed" ;;
        wind_deg <~ py_getitem weather_data "wind_deg" ;;
        lat <~ py_getitem data "lat" ;;
        lon <~ py_getitem data "lon" ;;
        timezone <~ py_getitem data "timezone" ;;
        timezone_offset <~ py_getitem data "timezone_offset" ;;
        Ok (Validated
          {| hv_dt := dt'; hv_sunrise := sunrise; hv_sunset := sunset;
             hv_temp := temp; hv_feels_like := feels_like;
             hv_pressure := pressure; hv_humidity := humidity;
             hv_dew_point := dew_point; hv_visibility := visibility';
             hv_description := description'; hv_clouds := clouds;
             hv_wind_speed := wind_speed; hv_wind_deg := wind_deg;
             hv_lat := lat; hv_lon := lon; hv_timezone := timezone;
             hv_timezone_offset := timezone_offset |})
  end.

Definition except_Index_or_Key (e : exn) : bool :=
  except_class IndexError e || except_class KeyError e.

Definition extract_and_validate_weather_data (env : Env) (self : Engine)
    (data : json) (api_call_id : option Z) : M (option hourly_validated) :=
  try_except
    (x <- lift (extract data) ;;
     match x with
     | Missing missing_fields dt =>
         handle_sql_failure env api_call_id
           [FStr "Missing critical data: "; FNames missing_fields;
            FStr " for timestamp "; FJson dt] ;;
         ret None
     | NoDescription dt =>
         handle_sql_failure env api_call_id
           [FStr "Missing 'description' for timestamp "; FJson dt] ;;
         ret None
     | Validated validated_data => ret (Some validated_data)
     end)
    except_Index_or_Key
    (fun e =>
       handle_sql_failure env api_call_id
         [FStr "Data extraction failed: "; FExn e] ;;
       ret None).

(** A timestamp of the batch in [WHERE dt = %s]. [load_json_input] admits
    integers and booleans only; a boolean makes the statement fail. *)
Definition bigint_of (v : json) : res Z :=
  match v with
  | JInt n => Ok n
  | _ => Err (mk_exn DatabaseError "invalid input for type bigint")
  end.

(** What PostgreSQL makes of the value of a record bound to [dt], a bigint
    column. The driver writes an int as an integer constant, a float as a
    numeric constant and a string as a quoted literal, which takes the
    type of the column; a boolean, a list or an object gives a statement
    that fails. *)

(** [WHERE dt = %s]: the integer a row holds to match the value, [None]
    when no integer equals it. *)
Definition bigint_eq (env : Env) (v : json) : res (option Z) :=
  match v with
  | JInt n => Ok (Some n)
  | JFloat q =>
      Ok (if Qeq_bool q (inject_Z (Qfloor q)) then Some (Qfloor q) else None)
  | JStr s =>
      match pg_int8in env s with
      | Some n => Ok (Some n)
      | None => Err (mk_exn DatabaseError "invalid input syntax for type bigint")
      end
  | JNull => Ok None
  | _ => Err (mk_exn DatabaseError "operator does not exist")
  end.

(** The cast of a numeric constant to an integer: to the nearest integer,
    a tie away from zero. *)
Definition round_half_away (q : Q) : Z :=
  if Qle_bool 0 q then Qfloor (q + (1 # 2)) else Qceiling (q - (1 # 2)).

(** [INSERT ... VALUES (%s, ...)]: the integer the column takes from the
    value. The column is the key of the table and takes no NULL (the
    validation lets no null timestamp through to the store). *)
Definition bigint_in (env : Env) (v : json) : res Z :=
  match v with
  | JInt n => Ok n
  | JFloat q => Ok (round_half_away q)
  | JStr s =>
      match pg_int8in env s with
      | Some n => Ok n
      | None => Err (mk_exn DatabaseError "invalid input syntax for type bigint")
      end
  | JNull => Err (mk_exn IntegrityError "null value in column dt")
  | _ => Err (mk_exn DatabaseError "column dt is of type bigint")
  end.

(** [SELECT 1 FROM hourly_data WHERE dt = t AND location_id = loc] finds a
    row. *)
Definition key_exists (t loc : Z) (rows : list HourlyRow) : bool :=
  bool_decide (Exists (fun r => h_dt r = t /\ h_location_id r = loc) rows).

Definition store_failure (env : Env) (api_call_id : option Z)
    (log_message error_message : text) : M Z :=
  log_event env "sql_insert_failure" log_message ;;
  t <- now env ;;
  log_sql_insert api_call_id t [FStr "failure"] (Some error_message) ;;
  add_failed_sql_insert ;;
  ret 0.

Definition store_weather_data (env : Env) (self : Engine)
    (data : hourly_validated) (api_call_id : option Z) : M Z :=
  try_except
    (key <- lift (bigint_eq env (hv_dt data)) ;;
     found <- gets (fun st =>
       match key with
       | Some t => key_exists t (location_id self) (hourly_data st)
       | None => false
       end) ;;
     if found then
       log_event env "data_exists"
         [FStr "Record already exists for timestamp "; FJson (hv_dt data)] ;;
       t <- now env ;;
       log_sql_insert api_call_id t [FStr "failure"]
         (Some [FStr "Duplicate record"]) ;;
       add_failed_sql_insert ;;
       ret 0
     else
       dt <- lift (bigint_in env (hv_dt data)) ;;
       let row :=
         {| h_dt := dt; h_location_id := location_id self;
            h_values := data |} in
       match hourly_schema env row with
       | Some e => raise e
       | None =>
           modify (fun st => set_hourly_data (hourly_data st ++ [row]) st) ;;
           t <- now env ;;
           log_sql_insert api_call_id t
             [FStr "Successfully inserted timestamp "; FJson (hv_dt data)]
             None ;;
           log_event env "sql_insert_success"
             [FStr "Record inserted for timestamp "; FJson (hv_dt data)] ;;
           ret 1
       end)
    except_Exception
    (fun e =>
       if except_class IntegrityError e then
         store_failure env api_call_id
           [FStr "Duplicate record for timestamp "; FJson (hv_dt data)]
           [FStr "Duplicate record"]
       else
         store_failure env api_call_id
           [FStr "Failed to insert data: "; FExn e] [FExn e]).

Fixpoint check_for_duplicates (self : Engine) (timestamps : list json)
  : M (list Z) :=
  match timestamps with
  | [] => ret []
  | timestamp :: rest =>
      t <- lift (bigint_of timestamp) ;;
      found <- gets (fun st => key_exists t (location_id self) (hourly_data st)) ;;
      valid <- check_for_duplicates self rest ;;
      ret (if found then valid else t :: valid)
  end.

(** [isinstance(data, list) and all(isinstance(item, int) for item in
    data)]; a boolean is an [int]. *)
Definition all_int (items : list json) : bool :=
  forallb (fun v => match v with JInt _ | JBool _ => true | _ => false end)
    items.

Definition input_error {A} (env : Env) (self : Engine) (error_message : text)
  : M A :=
  log_event env "Error" error_message ;;
  tracking_log env self [FStr "stopped-err"] (Some error_message) false ;;
  sys_exit 1.

Definition load_json_input (env : Env) (self : Engine) : M (list json) :=
  file <- gets (fun st => batch_dir st !! json_file_path self) ;;
  match file with
  | None =>
      input_error env self
        [FStr "Input file "; FInt (snd (json_file_path self)); FStr " not found"]
  | Some None =>
      input_error env self
        [FStr "Failed to decode JSON from file ";
         FInt (snd (json_file_path self))]
  | Some (Some data) =>
      match data with
      | JArr items =>
          if all_int items then ret items
          else input_error env self [FStr "Invalid input format: "; FJson data]
      | _ => input_error env self [FStr "Invalid input format: "; FJson data]
      end
  end.

(** The loop body after the call: validate, store, count the key. *)
Definition validate_and_store (env : Env) (self : Engine)
    (r : option json * option Z) : M unit :=
  let '(weather_data, api_call_id) := r in
  (match weather_data with
   | Some data =>
       if truthy data && truthy_id api_call_id then
         extracted <- extract_and_validate_weather_data env self data
                        api_call_id ;;
         match extracted with
         | Some validated_data =>
             store_weather_data env self validated_data api_call_id ;; ret tt
         | None => ret tt
         end
       else ret tt
   | None => ret tt
   end) ;;
  add_batch_call_request.

(** The loop body from the call on. *)
Definition fetch_validate_store (env : Env) (self : Engine) (total idx : Z)
    (unix_timestamp : Z) : M unit :=
  r <- call_openweather_api env self unix_timestamp total idx ;;
  validate_and_store env self r.

Definition process_key (env : Env) (self : Engine) (total idx : Z)
    (unix_timestamp : Z) : M unit :=
  gate env self ;;
  fetch_validate_store env self total idx unix_timestamp.

Fixpoint process_keys (env : Env) (self : Engine) (total idx : Z)
    (timestamps : list Z) : M unit :=
  match timestamps with
  | [] => ret tt
  | unix_timestamp :: rest =>
      process_key env self total idx unix_timestamp ;;
      process_keys env self total (idx + 1) rest
  end.

(** The end of [run]: the closing tracking transition and the summary. *)
Definition finish (env : Env) (self : Engine) : M unit :=
  failed_requests' <- gets failed_requests ;;
  failed_sql_inserts' <- gets failed_sql_inserts ;;
  batch_call_requests' <- gets batch_call_requests ;;
  (if negb (failed_requests' =? 0) || (0 <? failed_sql_inserts')
   then tracking_log env self [FStr "stopped-warn"] None false
   else tracking_log env self [FStr "stopped-succ"] None false) ;;
  log_event env "Success"
    [FStr "Script completed with "; FInt batch_call_requests';
     FStr " requests, "; FInt failed_requests';
     FStr " request failures, and "; FInt failed_sql_inserts';
     FStr " failed inserts."].

Definition run (env : Env) (self : Engine) : M unit :=
  tracking_log env self [FStr "started"] None false ;;
  timestamps <- load_json_input env self ;;
  valid_timestamps <- check_for_duplicates self timestamps ;;
  process_keys env self (Z.of_nat (length valid_timestamps)) 0
    valid_timestamps ;;
  finish env self.

End Hourly.

(** ** The fill scripts (scripts/openweather_historical_fill_*.py) *)

(** [generate_series(first, last, stride)] of PostgreSQL for a positive
    stride: first, first + stride, ... while not beyond last. *)
Definition generate_series (first last stride : Z) : list Z :=
  if first <=? last
  then (fun k => first + k * stride) <$> seqZ 0 ((last - first) / stride + 1)
  else [].

(** The anti-join of the gap query: the values of the series that match no
    existing row. The rows come in the order of the series. *)
Definition missing_keys (stride : Z) (existing : list Z) (first last : Z)
  : list Z :=
  filter (fun a => a ∉ existing) (generate_series first last stride).

(** [list(reversed(timestamps))[:limit]] *)
Definition limited_reversed {A} (timestamps : list A) (limit : Z) : list A :=
  slice_to limit (reverse timestamps).

Inductive start_config :=
  | Recent             (* "recent" *)
  | At (t : Z).        (* a time in the format '%Y-%m-%d %H:%M:%S' *)

Record Config := {
  HISTORY_START : start_config;
  HISTORY_STOP : Z;
  BATCH_LIMIT : Z;
  LIMIT : Z }.

Definition py_print (line : text) : M unit :=
  modify (fun st => set_stdout (stdout st ++ [line]) st).

(** The constructor of an engine object: its counters start at 0. (It
    also creates the event log file when there is none, which the model's
    log, a list of entries, has no need of.) *)
Definition new_engine : M unit :=
  modify (fun st =>
    set_failed_requests 0
      (set_failed_sql_inserts 0 (set_batch_call_requests 0 st))).

(** The exit status of the process for the way [main] ends. *)
Definition exit_status {A} (o : outcome A) : Z :=
  match o with
  | Ret _ => 0
  | Exit code => code
  | Raise _ => 1
  end.

Definition yesterday_at_23 (now' : Z) : Z :=
  let yesterday := now' - 86400 in
  yesterday - yesterday mod 86400 + 23 * 3600.

Definition resolve_start (env : Env) (c : start_config) : M Z :=
  match c with
  | Recent => now' <- now env ;; ret (yesterday_at_23 now')
  | At t => ret t
  end.

(** The two handlers at the end of [main]: it prints and returns. *)
Definition main_handlers (e : exn) : M unit :=
  if except_class ValueError e
  then py_print [FStr "Configuration Error: "; FExn e]
  else py_print [FStr "Unexpected Error: "; FExn e].

Module FillDaily.

Definition BATCH_DIR : string := "day_summary".

Definition validate_time_range (start_time stop_time : Z) : M unit :=
  if start_time <=? stop_time
  then raise (mk_exn ValueError
    "DAILY_SUMMARY_HISTORY_START must be more recent than DAILY_SUMMARY_HISTORY_STOP")
  else ret tt.

(** The query runs with the parameters [(start_time, stop_time)], in this
    order. *)
Definition generate_missing_daily_timestamps (env : Env)
    (stop_time start_time : Z) : M (list string) :=
  gets (fun st =>
    to_char_ymd env <$>
      missing_keys 86400 (d_date <$> daily_summary_data st) start_time stop_time).

Definition create_batch_file (env : Env) (timestamps : list string)
    (limit : Z) : M (string * Z) :=
  t <- now env ;;
  let batch_filename := (BATCH_DIR, t) in
  let limited_reversed_timestamps := limited_reversed timestamps limit in
  modify (fun st =>
    set_batch_dir
      (<[batch_filename := Some (JArr (JStr <$> limited_reversed_timestamps))]>
         (batch_dir st)) st) ;;
  ret batch_filename.

Definition main (env : Env) (cfg : Config) : M unit :=
  try_except
    (start_time <- resolve_start env (HISTORY_START cfg) ;;
     let stop_time := HISTORY_STOP cfg in
     validate_time_range start_time stop_time ;;
     timestamps <- generate_missing_daily_timestamps env start_time stop_time ;;
     match timestamps with
     | _ :: _ =>
         batch_file <- create_batch_file env timestamps (BATCH_LIMIT cfg) ;;
         py_print [FStr "Batch file created: "; FStr (fst batch_file);
                FInt (snd batch_file)] ;;
         new_engine ;;
         Daily.run env (Daily.engine batch_file (LIMIT cfg))
     | [] => py_print [FStr "No missing data found in the specified range."]
     end)
    except_Exception
    main_handlers.

End FillDaily.

Module FillHourly.

Definition BATCH_DIR : string := "timemachine".

Definition validate_time_range (start_time stop_time : Z) : M unit :=
  if start_time <=? stop_time
  then raise (mk_exn ValueError
    "TIME_MACHINE_HISTORY_START must be more recent than TIME_MACHINE_HISTORY_STOP")
  else ret tt.

(** The query runs with the parameters [(start_time, stop_time)], in this
    order. *)
Definition generate_missing_timestamps (stop_time start_time : Z)
  : M (list Z) :=
  gets (fun st =>
    missing_keys 3600 (h_dt <$> hourly_data st) start_time stop_time).

Definition create_batch_file (env : Env) (timestamps : list Z) (limit : Z)
  : M (string * Z) :=
  t <- now env ;;
  let batch_filename := (BATCH_DIR, t) in
  let limited_timestamps := slice_to limit timestamps in
  let limited_reversed_timestamps := limited_reversed timestamps limit in
  modify (fun st =>
    set_batch_dir
      (<[batch_filename := Some (JArr (JInt <$> limited_reversed_timestamps))]>
         (batch_dir st)) st) ;;
  ret batch_filename.

Definition main (env : Env) (cfg : Config) : M unit :=
  try_except
    (start_time <- resolve_start env (HISTORY_START cfg) ;;
     let stop_time := HISTORY_STOP cfg in
     validate_time_range start_time stop_time ;;
     timestamps <- generate_missing_timestamps start_time stop_time ;;
     match timestamps with
     | _ :: _ =>
         batch_file <- create_batch_file env timestamps (BATCH_LIMIT cfg) ;;
         py_print [FStr "Batch file created: "; FStr (fst batch_file);
                FInt (snd batch_file)] ;;
         new_engine ;;
         Hourly.run env (Hourly.engine batch_file (LIMIT cfg))
     | [] => py_print [FStr "No missing timestamps found in the specified range."]
     end)
    except_Exception
    main_handlers.

End FillHourly.

(** ** The vocabulary of the properties *)

(** The keys of the regular sequence of a range: [first], [first + stride],
    ... up to [last]. *)
Definition regular_key (stride first last x : Z) : Prop :=
  exists k, 0 <= k /\ x = first + k * stride /\ x <= last.

(** The most recent UTC midnight. *)
Definition utc_midnight (t : Z) : Z := t - t mod 86400.

(** The key of the tracking row of an engine. *)
Definition engine_key (self : Engine) : TKey := tracking_key (control self).

(** A response code that no branch of the classification names. *)
Definition unclassified (r : response) : bool :=
  negb (status_code r =? 200) &&
  negb ((status_code r =? 400) &&
        str_contains "out the available range" (resp_text r)) &&
  negb (status_code r =? 404) &&
  negb (status_code r =? 403) &&
  negb (500 <=? status_code r).

(** The fields the daily validation checks, each with the path of its value
    in the payload. *)
Definition daily_critical : list (string * list string) :=
  [("cloud_cover_afternoon", ["cloud_cover"; "afternoon"]);
   ("humidity_afternoon", ["humidity"; "afternoon"]);
   ("precipitation_total", ["precipitation"; "total"]);
   ("temperature_min", ["temperature"; "min"]);
   ("temperature_max", ["temperature"; "max"]);
   ("pressure_afternoon", ["pressure"; "afternoon"]);
   ("wind_max_speed", ["wind"; "max"; "speed"])].

(** The value at a path: [Some v] when every key of the path is present
    and every value on the way is an object. *)
Fixpoint value_at (data : json) (path : list string) : option json :=
  match path with
  | [] => Some data
  | k :: rest =>
      match data with
      | JObj l => match assoc k l with Some v => value_at v rest | None => None end
      | _ => None
      end
  end.

(** [m] sends at most [k] requests to the remote source. *)
Definition sends_at_most {A} (k : nat) (m : M A) : Prop :=
  forall st, (sent (snd (m st)) <= sent st + k)%nat.

(** The number of stored records of a key. *)
Definition hourly_records (t loc : Z) (rows : list HourlyRow) : nat :=
  length (filter (fun r => h_dt r = t /\ h_location_id r = loc) rows).
Definition daily_records (d : Z) (rows : list DailyRow) : nat :=
  length (filter (fun r => d_date r = d) rows).

(** ** Sample worlds

    Concrete environments and states, on which the examples below run the
    model. The clock starts at 2023-11-14 22:13:20 UTC and advances by one
    second per reading. *)
Module Sample.

Definition types : list ApiCallType :=
  [ {| act_id := 2; act_platform := "OpenWeather";
       act_type := "Daily Aggregation";
       act_prototype := "https://api.openweathermap.org/data/3.0/onecall/day_summary?lat={lat}&lon={lon}&date={date}&appid={API_key}" |};
    {| act_id := 4; act_platform := "OpenWeather";
       act_type := "Weather Data for Timestamp";
       act_prototype := "https://api.openweathermap.org/data/3.0/onecall/timemachine?lat={lat}&lon={lon}&dt={time}&appid={API_key}" |} ].

(** Both databases empty but for the call types, no file, no output. *)
Definition fresh : St :=
  {| ticks := 0; sent := 0; api_call_types := types; api_calls := [];
     sql_handling := []; api_script_tracking := ∅; hourly_data := [];
     daily_summary_data := []; log_file := []; batch_dir := ∅; stdout := [];
     failed_requests := 0; failed_sql_inserts := 0;
     batch_call_requests := 0 |}.

Definition strptime (s : string) : option Z :=
  if String.eqb s "2023-06-01" then Some 1685577600
  else if String.eqb s "2023-06-02" then Some 1685664000
  else None.

Definition to_char (t : Z) : string :=
  if t =? 1685577600 then "2023-06-01"
  else if t =? 1685664000 then "2023-06-02"
  else "".

Definition int (s : string) : option Z :=
  if String.eqb s "0" then Some 0
  else if String.eqb s "00" then Some 0
  else if String.eqb s "04" then Some 4
  else None.

Definition int8in (s : string) : option Z :=
  if String.eqb s "1685577600" then Some 1685577600 else None.

Definition env (remote' : nat -> remote_outcome) : Env :=
  {| clock := fun n => 1700000000 + Z.of_nat n;
     remote := remote';
     strptime_ymd := strptime;
     to_char_ymd := to_char;
     py_int := int;
     pg_int8in := int8in;
     hourly_schema := fun _ => None;
     daily_schema := fun _ => None |}.

(** A remote source that cannot be reached. *)
Definition unreachable : nat -> remote_outcome :=
  fun _ => Failed (mk_exn RequestException "Connection timed out").

(** A remote source that answers every request with the same response. *)
Definition answering (code : Z) (body_text : string) (body : json)
  : nat -> remote_outcome :=
  fun _ => Responded
    {| status_code := code; resp_text := body_text; resp_json := Ok body |}.

Definition audit_row (id t type code : Z) : ApiCall :=
  {| call_id := id; call_timestamp := t; call_type_id := type;
     call_event := "API Call";
     request_payload := {| req_prototype := ""; req_time := JNull |};
     response_code := code; response_message := []; retry_count := 0;
     call_log_message := "" |}.

(** Fifteen calls of the hourly type in the two minutes before the clock
    starts, all answered 429, and no successful call. *)
Definition fifteen_failures : St :=
  set_api_calls
    ((fun i => audit_row i (1699999900 + i) 4 429) <$> seqZ 1 15) fresh.

(** A daily summary without its temperature and pressure sections. *)
Definition summary_without_temperature : json :=
  JObj [("lat", JFloat (4085 # 100)); ("lon", JFloat (-7397 # 100));
        ("tz", JStr "-04:00"); ("date", JStr "2023-06-01");
        ("units", JStr "metric");
        ("cloud_cover", JObj [("afternoon", JInt 20)]);
        ("humidity", JObj [("afternoon", JInt 60)]);
        ("precipitation", JObj [("total", JInt 0)]);
        ("wind", JObj [("max", JObj [("speed", JInt 5); ("direction", JInt 180)])])].

(** A daily summary whose minimum temperature is null. *)
Definition summary_null_temperature : json :=
  JObj [("date", JStr "2023-06-01");
        ("temperature", JObj [("min", JNull); ("max", JInt 25)])].

(** An hourly payload whose data point has no pressure. *)
Definition hour_without_pressure : json :=
  JObj [("lat", JFloat (4085 # 100)); ("lon", JFloat (-7397 # 100));
        ("timezone", JStr "America/New_York"); ("timezone_offset", JInt (-14400));
        ("data", JArr [JObj [("dt", JInt 1685577600); ("temp", JInt 20);
                             ("feels_like", JInt 19); ("humidity", JInt 60)]])].

Definition validated_hour (t : Z) : hourly_validated :=
  {| hv_dt := JInt t; hv_sunrise := JInt (t - 3600); hv_sunset := JInt (t + 3600);
     hv_temp := JInt 20; hv_feels_like := JInt 19; hv_pressure := JInt 1013;
     hv_humidity := JInt 60; hv_dew_point := JInt 12; hv_visibility := JInt 10000;
     hv_description := JStr "clear sky"; hv_clouds := JInt 0;
     hv_wind_speed := JInt 3; hv_wind_deg := JInt 180;
     hv_lat := JFloat (4085 # 100); hv_lon := JFloat (-7397 # 100);
     hv_timezone := JStr "America/New_York";
     hv_timezone_offset := JInt (-14400) |}.

Definition validated_day (d : Z) : daily_validated :=
  {| dv_lat := JFloat (4085 # 100); dv_lon := JFloat (-7397 # 100);
     dv_tzoff := -14400; dv_date := d; dv_units := JStr "metric";
     dv_cloud_cover_afternoon := JInt 20; dv_humidity_afternoon := JInt 60;
     dv_precipitation_total := JInt 0; dv_temperature_min := JInt 15;
     dv_temperature_max := JInt 25; dv_temperature_afternoon := JInt 24;
     dv_temperature_night := JInt 16; dv_temperature_evening := JInt 20;
     dv_temperature_morning := JInt 17; dv_pressure_afternoon := JInt 1013;
     dv_wind_max_speed := JInt 5; dv_wind_max_direction := JInt 180 |}.

Definition hourly_control (limit : Z) : APIControl :=
  control (Hourly.engine ("timemachine", 0) limit).

(** A tracking row of the hourly script left by an earlier day. *)
Definition stale_row : TrackingRow :=
  {| status := [FStr "stopped-warn"]; previous_status := None;
     last_checked := 1699900000; requests_made_today := 15;
     daily_limit_reached := Some true;
     stopped_reason := Some [FStr "Daily limit reached"];
     force_restart := false |}.

(** No call yet today, and the row of yesterday. *)
Definition new_day : St :=
  set_api_script_tracking
    {[ tracking_key (hourly_control 10) := stale_row ]} fresh.

(** Fifteen calls today, and the row of yesterday. *)
Definition busy_day : St :=
  set_api_script_tracking
    {[ tracking_key (hourly_control 10) := stale_row ]} fifteen_failures.

(** The hour 2023-05-31 22:00 UTC is stored, the two hours from
    2023-06-01 00:00 UTC are not. *)
Definition one_earlier_hour : St :=
  set_hourly_data
    [ {| h_dt := 1685570400; h_location_id := 1;
         h_values := validated_hour 1685570400 |} ] fresh.

(** The two hours from 2023-06-01 00:00 UTC are stored. *)
Definition two_hours_stored : St :=
  set_hourly_data
    [ {| h_dt := 1685577600; h_location_id := 1;
         h_values := validated_hour 1685577600 |};
      {| h_dt := 1685581200; h_location_id := 1;
         h_values := validated_hour 1685581200 |} ] fresh.

(** The days 2023-06-01 and 2023-06-02 are stored. *)
Definition two_days_stored : St :=
  set_daily_summary_data
    [ {| d_date := 1685577600; d_values := validated_day 1685577600 |};
      {| d_date := 1685664000; d_values := validated_day 1685664000 |} ] fresh.

(** From 2023-06-01 back to 2023-06-02: start is older than stop. *)
Definition backwards : Config :=
  {| HISTORY_START := At 1685577600; HISTORY_STOP := 1685664000;
     BATCH_LIMIT := 5; LIMIT := 1000 |}.

(** From 2023-06-02 00:00 back to 2023-06-01 00:00. *)
Definition two_days : Config :=
  {| HISTORY_START := At 1685664000; HISTORY_STOP := 1685577600;
     BATCH_LIMIT := 5; LIMIT := 1000 |}.

(** From 2023-06-01 01:00 back to 2023-06-01 00:00. *)
Definition two_hours : Config :=
  {| HISTORY_START := At 1685581200; HISTORY_STOP := 1685577600;
     BATCH_LIMIT := 5; LIMIT := 1000 |}.

(** The two keys of a daily batch, and of an hourly batch. *)
Definition two_dates : list string := ["2023-06-01"; "2023-06-02"].
Definition two_timestamps : list Z := [1685577600; 1685581200].

(** The daily loop over two dates while the remote source answers 401. *)
Definition daily_loop_401 : outcome unit * St :=
  Daily.process_keys
    (env (answering 401 "Invalid API key" (JObj [("cod", JInt 401)])))
    (Daily.engine ("day_summary", 0) 1000) 2 0 two_dates fresh.

(** The daily script over the two days while the remote source answers
    401. *)
Definition daily_main_401 : outcome unit * St :=
  FillDaily.main
    (env (answering 401 "Invalid API key" (JObj [("cod", JInt 401)])))
    two_days fresh.

(** The hourly loop over two hours while the remote source answers 401. *)
Definition hourly_loop_401 : outcome unit * St :=
  Hourly.process_keys
    (env (answering 401 "Invalid API key" (JObj [("cod", JInt 401)])))
    (Hourly.engine ("timemachine", 0) 1000) 2 0 two_timestamps fresh.

(** The hourly loop over two hours while the remote source cannot be
    reached. *)
Definition hourly_loop_unreachable : outcome unit * St :=
  Hourly.process_keys (env unreachable)
    (Hourly.engine ("timemachine", 0) 1000) 2 0 two_timestamps fresh.

End Sample.

(** ** The vocabulary of the further properties *)

(** A response code that ends the run: 404, 403 or a server error. *)
Definition fatal_code (r : response) : bool :=
  negb (status_code r =? 200) &&
  negb ((status_code r =? 400) &&
        str_contains "out the available range" (resp_text r)) &&
  ((status_code r =? 404) || (status_code r =? 403) ||
   (500 <=? status_code r)).

(** The "date out of range" answer. *)
Definition invalid_date (r : response) : bool :=
  (status_code r =? 400) &&
  str_contains "out the available range" (resp_text r).

(** The persisted counter of a tracking row, 0 when there is no row. *)
Definition counter_of (row : option TrackingRow) : Z :=
  match row with Some r => requests_made_today r | None => 0 end.

(** The tracking row of an engine shows a status, a reason and the
    force-restart flag. *)
Definition tracked (st : St) (self : Engine) (status' : text)
    (reason : option text) (restart : bool) : Prop :=
  exists row,
    api_script_tracking st !! engine_key self = Some row /\
    status row = status' /\
    stopped_reason row = reason /\
    force_restart row = restart.

(** The call audit gained one row, which shows a response code and a retry
    count and carries the id [id]. *)
Definition audited (st st' : St) (code retry : Z) (id : option Z) : Prop :=
  exists call,
    api_calls st' = (api_calls st ++ [call])%list /\
    response_code call = code /\
    retry_count call = retry /\
    id = Some (call_id call).

(** The persisted counter of an engine's row went up by one. *)
Definition counted_once (st st' : St) (self : Engine) : Prop :=
  counter_of (api_script_tracking st' !! engine_key self) =
  counter_of (api_script_tracking st !! engine_key self) + 1.

(** Further sample worlds. *)
Module More.

(** The call types table is empty: no request template is configured. *)
Definition no_types : St :=
  {| ticks := 0; sent := 0; api_call_types := []; api_calls := [];
     sql_handling := []; api_script_tracking := ∅; hourly_data := [];
     daily_summary_data := []; log_file := []; batch_dir := ∅; stdout := [];
     failed_requests := 0; failed_sql_inserts := 0;
     batch_call_requests := 0 |}.

(** Five calls of the hourly type today, and the row of yesterday. *)
Definition five_calls : St :=
  set_api_script_tracking
    {[ tracking_key (Sample.hourly_control 10) := Sample.stale_row ]}
    (set_api_calls
       ((fun i => Sample.audit_row i (1699999900 + i) 4 200) <$> seqZ 1 5)
       Sample.fresh).

(** A remote source whose first [n] requests time out and which then
    answers 200 with an empty object. *)
Definition timing_out_first (n : nat) : nat -> remote_outcome :=
  fun k =>
    if (k <? n)%nat
    then Failed (mk_exn RequestException "Connection timed out")
    else Responded {| status_code := 200; resp_text := "{}";
                      resp_json := Ok (JObj []) |}.

(** A remote source whose first request times out and which then answers
    403. *)
Definition forbidden_after_timeout : nat -> remote_outcome :=
  fun k =>
    if (k <? 1)%nat
    then Failed (mk_exn RequestException "Connection timed out")
    else Responded {| status_code := 403; resp_text := "Forbidden";
                      resp_json := Ok JNull |}.

(** A request that fails with an exception that is no transport error. *)
Definition broken_request : nat -> remote_outcome :=
  fun _ => Failed (mk_exn ValueError "check_hostname requires server_hostname").

Definition daily_prototype : string :=
  "https://api.openweathermap.org/data/3.0/onecall/day_summary?lat={lat}&lon={lon}&date={date}&appid={API_key}".
Definition hourly_prototype : string :=
  "https://api.openweathermap.org/data/3.0/onecall/timemachine?lat={lat}&lon={lon}&dt={time}&appid={API_key}".

End More.

(** The values a validated hourly record may not miss. *)
Definition hourly_checked (v : hourly_validated) : list json :=
  [hv_temp v; hv_feels_like v; hv_pressure v; hv_humidity v; hv_dt v].

(** The values a validated daily record may not miss. *)
Definition daily_checked (v : daily_validated) : list json :=
  [dv_cloud_cover_afternoon v; dv_humidity_afternoon v;
   dv_precipitation_total v; dv_temperature_min v; dv_temperature_max v;
   dv_pressure_afternoon v; dv_wind_max_speed v].

(** The store-outcome audit gained one 'failure' row for the call [id], and
    nothing else of [st] changed that a run counts or stores. *)
Definition validation_failed (st st' : St) (id : option Z) : Prop :=
  exists row,
    sql_handling st' = (sql_handling st ++ [row])%list /\
    sh_api_call_id row = id /\
    sh_status row = [FStr "failure"] /\
    is_Some (sh_error row) /\
    hourly_data st' = hourly_data st /\
    daily_summary_data st' = daily_summary_data st /\
    failed_sql_inserts st' = failed_sql_inserts st /\
    failed_requests st' = failed_requests st.

(** A value that is no JSON object. *)
Definition not_an_object (x : json) : bool :=
  match x with JObj _ => false | _ => true end.

(** More sample worlds. *)
Module Worlds.

(** An answer 200 whose list of data points holds a number. *)
Definition malformed_body : json :=
  JObj [("lat", JFloat (52 # 1)); ("data", JArr [JInt 7])].

Definition answering_malformed : nat -> remote_outcome :=
  Sample.answering 200 "{}" malformed_body.

(** An answer 200 whose body is no JSON; decoding it raises the
    [JSONDecodeError] of the request library, a [RequestException]. *)
Definition undecodable_answer : response :=
  {| status_code := 200; resp_text := "<html>";
     resp_json :=
       Err (mk_exn RequestException "Expecting value: line 1 column 1") |}.

Definition answering_undecodable : nat -> remote_outcome :=
  fun _ => Responded undecodable_answer.

(** The remote source has no data for the key asked for. *)
Definition out_of_range : nat -> remote_outcome :=
  Sample.answering 400 "requested time is out the available range" JNull.

(** A batch of one hour in the batch directory. *)
Definition one_hour_batch : St :=
  set_batch_dir {[ ("timemachine", 0) := Some (JArr [JInt 1685577600]) ]}
    Sample.fresh.

(** A batch of one date in the batch directory. *)
Definition one_date_batch : St :=
  set_batch_dir {[ ("day_summary", 0) := Some (JArr [JStr "2023-06-01"]) ]}
    Sample.fresh.

End Worlds.

(** The store-outcome audit gained one row for the call [id]: a success,
    with the failed-insert counter as before, or a failure, with the
    counter one up. *)
Definition store_audited (st st' : St) (id : option Z) (stored : bool)
  : Prop :=
  exists row,
    sql_handling st' = (sql_handling st ++ [row])%list /\
    sh_api_call_id row = id /\
    if stored
    then sh_error row = None /\
         failed_sql_inserts st' = failed_sql_inserts st
    else sh_status row = [FStr "failure"] /\ is_Some (sh_error row) /\
         failed_sql_inserts st' = failed_sql_inserts st + 1.

(** What the pipeline may do to the state between two points of a run:
    the call types are as they were; the two audit tables, the event log,
    the output and the two weather tables have only gained entries at their
    end; no tracking row and no batch file went away; the clock and the
    count of requests sent did not go back. *)
Record evolves (st st' : St) : Prop := Evolves {
  ev_types : api_call_types st' = api_call_types st;
  ev_calls : api_calls st `prefix_of` api_calls st';
  ev_sql : sql_handling st `prefix_of` sql_handling st';
  ev_log : log_file st `prefix_of` log_file st';
  ev_stdout : stdout st `prefix_of` stdout st';
  ev_hourly : hourly_data st `prefix_of` hourly_data st';
  ev_daily : daily_summary_data st `prefix_of` daily_summary_data st';
  ev_rows : dom (api_script_tracking st) ⊆ dom (api_script_tracking st');
  ev_files : dom (batch_dir st) ⊆ dom (batch_dir st');
  ev_ticks : (ticks st <= ticks st')%nat;
  ev_sent : (sent st <= sent st')%nat }.

(** A method stays within [R] when [R] relates the state before it to the
    state after it whatever its outcome, and when it exits, if at all,
    with status 1. *)
Definition within {A} (R : St -> St -> Prop) (m : M A) : Prop :=
  forall st, R st (snd (m st)) /\ forall c, fst (m st) = Exit c -> c = 1.

(** A run stopped at the quota gate: nothing was sent, audited, stored or
    counted since [st], and the tracking row of the engine shows the
    reason. *)
Definition stopped_at_quota (st st' : St) (self : Engine) : Prop :=
  sent st' = sent st /\
  api_calls st' = api_calls st /\
  hourly_data st' = hourly_data st /\
  daily_summary_data st' = daily_summary_data st /\
  batch_call_requests st' = batch_call_requests st /\
  tracked st' self [FStr "stopped-warn"]
    (Some [FStr "Daily limit reached"]) false.

(** The persisted counter of an engine's row went up by [n]. *)
Definition counted (n : Z) (st st' : St) (self : Engine) : Prop :=
  counter_of (api_script_tracking st' !! engine_key self) =
  counter_of (api_script_tracking st !! engine_key self) + n.

(** An answer 200 whose body [response.json()] cannot decode. *)
Definition undecodable (o : remote_outcome) : bool :=
  match o with
  | Responded r =>
      (status_code r =? 200) &&
      match resp_json r with Err _ => true | Ok _ => false end
  | Failed _ => false
  end.

(** Every answer 200 of the remote source carries a body that decodes. *)
Definition decodes (env : Env) : Prop :=
  forall k, undecodable (remote env k) = false.

(** * Properties *)

(** Unfolds the monad so that [simpl] runs a method on a symbolic state. *)
Ltac run :=
  unfold bind, ret, gets, modify, now, raise, sys_exit, lift; simpl.

(** ** The governor *)

Lemma failure_threshold_exceeded_iff (f s : Z) :
  failure_threshold_exceeded f s = true <-> 10 < f /\ 0 < s /\ s < 5 * f.
Proof.
  unfold failure_threshold_exceeded, Qgt_bool.
  rewrite !andb_true_iff, !Z.ltb_lt, negb_true_iff.
  destruct s as [|p|p];
    try (split; [intros (_ & ? & _) | intros (_ & ? & _)]; lia).
  assert (Qle_bool (inject_Z f / inject_Z (Z.pos p)) (2 # 10) = false
          <-> Z.pos p < 5 * f) as ->; [|tauto].
  unfold Qle_bool, Qdiv, Qmult, Qinv, inject_Z. simpl.
  rewrite Z.leb_gt. lia.
Qed.

(** C1, as amended: the circuit-breaker check returns (never raises), and
    it reports open exactly when, among the calls of the platform in the
    trailing 120 seconds, more than 10 failed, at least one succeeded, and
    failed / succeeded exceeds 0.20. *)
Theorem check_failure_rate_open_iff (env : Env) (self : APIControl) (st : St) :
  let since := clock env (ticks st) - 120 in
  let ids := platform_type_ids (platform self) (api_call_types st) in
  let f := count_calls ids since (fun c => negb (c =? 200)) (api_calls st) in
  let s := count_calls ids since (fun c => c =? 200) (api_calls st) in
  exists b, fst (check_failure_rate env self st) = Ret b /\
    (b = true <-> 10 < f /\ 0 < s /\ s < 5 * f).
Proof.
  intros since ids f s.
  exists (failure_threshold_exceeded f s). split.
  - unfold check_failure_rate, log_event. run.
    fold since ids f s. destruct (failure_threshold_exceeded f s); reflexivity.
  - apply failure_threshold_exceeded_iff.
Qed.

(** C1 as stated fails: with 15 failed calls and no successful call in the
    window the check reports closed. *)
Lemma fifteen_failures_no_success_closed :
  count_calls
    (platform_type_ids "OpenWeather" (api_call_types Sample.fifteen_failures))
    (1700000000 - 120) (fun c => negb (c =? 200))
    (api_calls Sample.fifteen_failures) = 15 /\
  count_calls
    (platform_type_ids "OpenWeather" (api_call_types Sample.fifteen_failures))
    (1700000000 - 120) (fun c => c =? 200)
    (api_calls Sample.fifteen_failures) = 0 /\
  fst (check_failure_rate (Sample.env Sample.unreachable)
         (Sample.hourly_control 1000) Sample.fifteen_failures) = Ret false.
Proof. vm_compute. repeat split. Qed.

(** C8, as amended: when the count of today's calls is at least the daily
    limit, the check signals halt and upserts the tracking row to
    stopped-warn with the reason "Daily limit reached"; the row carries
    daily_limit_reached = true when it existed before the check. When the
    count is 0 and the limit is positive, the check does not signal halt,
    and an existing row gets its flag cleared and its counter reset to 0. *)
Theorem check_daily_limit_reached_spec (env : Env) (self : APIControl)
    (st : St) :
  let n := count_calls_of_type (api_call_type_id self)
             (utc_midnight (clock env (ticks st))) (api_calls st) in
  let old := api_script_tracking st !! tracking_key self in
  (daily_limit self <= n ->
     exists st' row,
       check_daily_limit_reached env self st = (Ret true, st') /\
       api_script_tracking st' !! tracking_key self = Some row /\
       status row = [FStr "stopped-warn"] /\
       stopped_reason row = Some [FStr "Daily limit reached"] /\
       previous_status row = status <$> old /\
       daily_limit_reached row = (fun _ => true) <$> old) /\
  (n = 0 -> 0 < daily_limit self ->
     exists st',
       check_daily_limit_reached env self st = (Ret false, st') /\
       (old = None -> api_script_tracking st' !! tracking_key self = None) /\
       (forall r, old = Some r ->
          exists row,
            api_script_tracking st' !! tracking_key self = Some row /\
            daily_limit_reached row = Some false /\
            requests_made_today row = 0 /\
            status row = status r /\ force_restart row = force_restart r)).
Proof.
  intros n old. split.
  - intros Hn. unfold check_daily_limit_reached, requests_today, log_event,
      insert_tracking_log, update_tracking.
    run. fold (utc_midnight (clock env (ticks st))). fold n.
    rewrite (proj2 (Z.leb_le _ _) Hn). simpl.
    eexists _, _. split; [reflexivity|]. simpl.
    rewrite lookup_insert_eq. split; [reflexivity|].
    rewrite lookup_alter_eq. fold old.
    destruct old; simpl; auto.
  - intros Hn Hd. unfold check_daily_limit_reached, requests_today, log_event,
      insert_tracking_log, update_tracking.
    run. fold (utc_midnight (clock env (ticks st))). fold n.
    rewrite (proj2 (Z.leb_gt _ _)) by lia. rewrite Hn. simpl.
    eexists. split; [reflexivity|]. simpl.
    rewrite lookup_alter_eq. fold old. split.
    + intros ->. reflexivity.
    + intros r ->. simpl. eexists. split; [reflexivity|]. simpl. auto.
Qed.

(** The theorem at work: on a busy day the limit of 10 is reached and the
    row is flagged; on a new day the stale flag of the row is cleared. *)
Lemma check_daily_limit_reached_spec_witness :
  (exists st' row,
     check_daily_limit_reached (Sample.env Sample.unreachable)
       (Sample.hourly_control 10) Sample.busy_day = (Ret true, st') /\
     api_script_tracking st' !! tracking_key (Sample.hourly_control 10)
       = Some row /\
     status row = [FStr "stopped-warn"] /\
     stopped_reason row = Some [FStr "Daily limit reached"] /\
     previous_status row = Some [FStr "stopped-warn"] /\
     daily_limit_reached row = Some true) /\
  (exists row st',
     check_daily_limit_reached (Sample.env Sample.unreachable)
       (Sample.hourly_control 10) Sample.new_day = (Ret false, st') /\
     api_script_tracking st' !! tracking_key (Sample.hourly_control 10)
       = Some row /\
     daily_limit_reached row = Some false /\
     requests_made_today row = 0).
Proof.
  split.
  - apply (proj1 (check_daily_limit_reached_spec (Sample.env Sample.unreachable)
                    (Sample.hourly_control 10) Sample.busy_day)).
    vm_compute. discriminate.
  - destruct (proj2 (check_daily_limit_reached_spec
                       (Sample.env Sample.unreachable)
                       (Sample.hourly_control 10) Sample.new_day))
      as (st' & Hrun & _ & Hrow); [reflexivity | reflexivity |].
    destruct (Hrow Sample.stale_row) as (row & ? & ? & ? & _); [reflexivity|].
    exists row, st'. auto.
Defined.

(** C8 as stated fails: with a daily limit of 0 and no call today, the
    count is 0 and the check signals halt all the same. *)
Lemma zero_limit_halts_on_zero_count :
  count_calls_of_type 4 (utc_midnight 1700000000) (api_calls Sample.new_day)
    = 0 /\
  fst (check_daily_limit_reached (Sample.env Sample.unreachable)
         (Sample.hourly_control 0) Sample.new_day) = Ret true.
Proof. vm_compute. split; reflexivity. Qed.

(** ** The gap detector *)

Section Series.
Context (stride : Z) (Hstride : 0 < stride).

Lemma elem_of_generate_series (first last x : Z) :
  x ∈ generate_series first last stride <-> regular_key stride first last x.
Proof using Hstride.
  unfold generate_series, regular_key.
  destruct (Z.leb_spec first last) as [Hle|Hgt].
  - rewrite list_elem_of_fmap. split.
    + intros (k & -> & Hk). apply elem_of_seqZ in Hk. exists k.
      split; [lia|]. split; [done|].
      assert (k <= (last - first) / stride) as Hq by lia.
      pose proof (Z.mul_div_le (last - first) stride Hstride).
      nia.
    + intros (k & Hk0 & -> & Hlast). exists k. split; [done|].
      apply elem_of_seqZ. split; [lia|].
      assert (k <= (last - first) / stride); [|lia].
      apply Z.div_le_lower_bound; lia.
  - split; [intros H; by apply elem_of_nil in H|].
    intros (k & Hk0 & -> & Hlast). nia.
Qed.

Lemma NoDup_generate_series (first last : Z) :
  NoDup (generate_series first last stride).
Proof using Hstride.
  unfold generate_series. case_match; [|constructor].
  apply NoDup_fmap_2; [|apply NoDup_seqZ].
  intros a b Hab. nia.
Qed.

(** What the anti-join returns, for any existing keys. *)
Lemma missing_keys_spec (existing : list Z) (first last : Z) :
  NoDup (missing_keys stride existing first last) /\
  (forall x, x ∈ missing_keys stride existing first last -> x ∉ existing) /\
  (forall x, x ∈ missing_keys stride existing first last ->
     first <= x <= last) /\
  (forall x, regular_key stride first last x <->
     x ∈ missing_keys stride existing first last \/
     (x ∈ existing /\ regular_key stride first last x)).
Proof using Hstride.
  unfold missing_keys. split; [|split; [|split]].
  - apply NoDup_filter, NoDup_generate_series.
  - intros x H. apply list_elem_of_filter in H. tauto.
  - intros x H. apply list_elem_of_filter in H as [_ H].
    apply elem_of_generate_series in H as (k & ? & -> & ?). nia.
  - intros x. split.
    + intros Hx. destruct (decide (x ∈ existing)) as [Hin|Hout]; [tauto|].
      left. apply list_elem_of_filter. split; [done|].
      by apply elem_of_generate_series.
    + intros [Hx|[_ Hx]]; [|done].
      apply list_elem_of_filter in Hx as [_ Hx].
      by apply elem_of_generate_series in Hx.
Qed.

End Series.

(** C5, as amended: for every set of existing keys and every range
    [stop, start], the output of the gap detector is disjoint from the
    existing keys, has no duplicate and no key outside the range, and
    together with the existing keys that belong to the regular sequence of
    the range it is exactly that sequence. The hourly detector returns the
    keys, the daily detector their dates. *)
Theorem gap_detector_spec (env : Env) (st : St) (stop start : Z) :
  (exists gaps,
     FillHourly.generate_missing_timestamps start stop st = (Ret gaps, st) /\
     NoDup gaps /\
     (forall x, x ∈ gaps -> x ∉ h_dt <$> hourly_data st) /\
     (forall x, x ∈ gaps -> stop <= x <= start) /\
     (forall x, regular_key 3600 stop start x <->
        x ∈ gaps \/
        (x ∈ h_dt <$> hourly_data st /\ regular_key 3600 stop start x))) /\
  (exists gaps,
     FillDaily.generate_missing_daily_timestamps env start stop st
       = (Ret (to_char_ymd env <$> gaps), st) /\
     NoDup gaps /\
     (forall x, x ∈ gaps -> x ∉ d_date <$> daily_summary_data st) /\
     (forall x, x ∈ gaps -> stop <= x <= start) /\
     (forall x, regular_key 86400 stop start x <->
        x ∈ gaps \/
        (x ∈ d_date <$> daily_summary_data st /\
         regular_key 86400 stop start x))).
Proof.
  split.
  - exists (missing_keys 3600 (h_dt <$> hourly_data st) stop start).
    split; [reflexivity|]. apply missing_keys_spec. lia.
  - exists (missing_keys 86400 (d_date <$> daily_summary_data st) stop start).
    split; [reflexivity|]. apply missing_keys_spec. lia.
Qed.

(** C5 as stated fails: an existing key before the range (the hour
    2023-05-31 22:00) is in the union of the output with the existing keys,
    and it is not in the regular sequence of the range. *)
Lemma existing_key_outside_range :
  exists gaps,
    FillHourly.generate_missing_timestamps 1685581200 1685577600
      Sample.one_earlier_hour = (Ret gaps, Sample.one_earlier_hour) /\
    (1685570400 ∈ gaps \/
     1685570400 ∈ h_dt <$> hourly_data Sample.one_earlier_hour) /\
    ~ regular_key 3600 1685577600 1685581200 1685570400.
Proof.
  eexists. split; [reflexivity|]. split.
  - right. simpl. apply list_elem_of_here.
  - intros (k & ? & ? & ?). lia.
Qed.

(** ** The batch materializer and the start of a run *)

Lemma slice_to_nat {A} (L : nat) (l : list A) :
  slice_to (Z.of_nat L) l = take L l.
Proof.
  unfold slice_to. rewrite (proj2 (Z.leb_le _ _)) by lia.
  by rewrite Nat2Z.id.
Qed.

Lemma limited_reversed_spec {A} (gaps : list A) (L : nat) :
  length (limited_reversed gaps (Z.of_nat L)) = Nat.min (length gaps) L /\
  limited_reversed gaps (Z.of_nat L) = reverse (lastn L gaps).
Proof.
  unfold limited_reversed, lastn. rewrite slice_to_nat. split.
  - rewrite length_take, length_reverse. lia.
  - rewrite <- (reverse_involutive (take L (reverse gaps))).
    f_equal. rewrite reverse_take, reverse_involutive.
    by rewrite length_reverse.
Qed.

(** The start time is resolved without any effect but, for "recent", one
    reading of the clock. *)
Lemma resolve_start_frame (env : Env) (c : start_config) (st st1 : St)
    (start : Z) :
  resolve_start env c st = (Ret start, st1) ->
  st1 = st \/ st1 = set_ticks (S (ticks st)) st.
Proof.
  destruct c; unfold resolve_start; run; intros [= _ <-]; auto.
Qed.

(** C9: for every gap list of length n and every batch limit L, the batch
    has length min(n, L) and is the last L gaps in reverse order, and this
    is the content of the batch file both scripts write; when the gap list
    of a valid range is empty, [main] writes no batch file and only prints
    that nothing is missing. *)
Theorem batch_is_last_gaps_reversed :
  (forall (A : Type) (gaps : list A) (L : nat),
     length (limited_reversed gaps (Z.of_nat L)) = Nat.min (length gaps) L /\
     limited_reversed gaps (Z.of_nat L) = reverse (lastn L gaps)) /\
  (forall (env : Env) (gaps : list string) (L : nat) (st : St),
     exists name st',
       FillDaily.create_batch_file env gaps (Z.of_nat L) st = (Ret name, st') /\
       batch_dir st' !! name = Some (Some (JArr (JStr <$> reverse (lastn L gaps))))) /\
  (forall (env : Env) (gaps : list Z) (L : nat) (st : St),
     exists name st',
       FillHourly.create_batch_file env gaps (Z.of_nat L) st = (Ret name, st') /\
       batch_dir st' !! name = Some (Some (JArr (JInt <$> reverse (lastn L gaps))))) /\
  (forall (env : Env) (cfg : Config) (st st1 : St) (start : Z),
     resolve_start env (HISTORY_START cfg) st = (Ret start, st1) ->
     HISTORY_STOP cfg < start ->
     missing_keys 86400 (d_date <$> daily_summary_data st1)
       (HISTORY_STOP cfg) start = [] ->
     FillDaily.main env cfg st =
       (Ret tt,
        set_stdout
          (stdout st1 ++ [[FStr "No missing data found in the specified range."]])
          st1)) /\
  (forall (env : Env) (cfg : Config) (st st1 : St) (start : Z),
     resolve_start env (HISTORY_START cfg) st = (Ret start, st1) ->
     HISTORY_STOP cfg < start ->
     missing_keys 3600 (h_dt <$> hourly_data st1) (HISTORY_STOP cfg) start
       = [] ->
     FillHourly.main env cfg st =
       (Ret tt,
        set_stdout
          (stdout st1 ++
             [[FStr "No missing timestamps found in the specified range."]])
          st1)).
Proof.
  split; [intros; apply limited_reversed_spec|].
  split; [|split; [|split]].
  - intros env gaps L st. unfold FillDaily.create_batch_file. run.
    eexists _, _. split; [reflexivity|]. simpl.
    rewrite lookup_insert_eq.
    by rewrite (proj2 (limited_reversed_spec gaps L)).
  - intros env gaps L st. unfold FillHourly.create_batch_file. run.
    eexists _, _. split; [reflexivity|]. simpl.
    rewrite lookup_insert_eq.
    by rewrite (proj2 (limited_reversed_spec gaps L)).
  - intros env cfg st st1 start Hstart Hlt Hnone.
    unfold FillDaily.main, try_except, bind. rewrite Hstart.
    unfold FillDaily.validate_time_range.
    rewrite (proj2 (Z.leb_gt _ _) Hlt).
    unfold FillDaily.generate_missing_daily_timestamps. run.
    rewrite Hnone. reflexivity.
  - intros env cfg st st1 start Hstart Hlt Hnone.
    unfold FillHourly.main, try_except, bind. rewrite Hstart.
    unfold FillHourly.validate_time_range.
    rewrite (proj2 (Z.leb_gt _ _) Hlt).
    unfold FillHourly.generate_missing_timestamps. run.
    rewrite Hnone. reflexivity.
Qed.

(** The theorem at work: the two days, and the two hours, of the range are
    stored, and neither script writes a batch file. *)
Lemma batch_is_last_gaps_reversed_witness :
  limited_reversed [1; 2; 3; 4; 5] 2 = [5; 4] /\
  (FillDaily.main (Sample.env Sample.unreachable) Sample.two_days
     Sample.two_days_stored =
   (Ret tt,
    set_stdout [[FStr "No missing data found in the specified range."]]
      Sample.two_days_stored)) /\
  (FillHourly.main (Sample.env Sample.unreachable) Sample.two_hours
     Sample.two_hours_stored =
   (Ret tt,
    set_stdout [[FStr "No missing timestamps found in the specified range."]]
      Sample.two_hours_stored)).
Proof.
  destruct batch_is_last_gaps_reversed as (Hlist & _ & _ & Hdaily & Hhourly).
  split; [|split].
  - exact (proj2 (Hlist Z [1; 2; 3; 4; 5] 2%nat)).
  - apply (Hdaily (Sample.env Sample.unreachable) Sample.two_days
             Sample.two_days_stored Sample.two_days_stored 1685664000);
      [reflexivity | simpl; lia | vm_compute; reflexivity].
  - apply (Hhourly (Sample.env Sample.unreachable) Sample.two_hours
             Sample.two_hours_stored Sample.two_hours_stored 1685581200);
      [reflexivity | simpl; lia | vm_compute; reflexivity].
Defined.

(** C6, as amended: when start is not strictly more recent than stop, the
    configuration error is raised before any gap query, batch file or
    remote call and is reported on standard output; nothing else changes,
    [main] returns, and the process ends with status 0. *)
Theorem backwards_range_is_reported (env : Env) (cfg : Config)
    (st st1 : St) (start : Z) :
  resolve_start env (HISTORY_START cfg) st = (Ret start, st1) ->
  start <= HISTORY_STOP cfg ->
  (st1 = st \/ st1 = set_ticks (S (ticks st)) st) /\
  (exists e,
     exn_cls e = ValueError /\
     FillDaily.validate_time_range start (HISTORY_STOP cfg) st1
       = (Raise e, st1) /\
     FillDaily.main env cfg st =
       (Ret tt,
        set_stdout (stdout st1 ++ [[FStr "Configuration Error: "; FExn e]]) st1)) /\
  exit_status (fst (FillDaily.main env cfg st)) = 0 /\
  (exists e,
     exn_cls e = ValueError /\
     FillHourly.validate_time_range start (HISTORY_STOP cfg) st1
       = (Raise e, st1) /\
     FillHourly.main env cfg st =
       (Ret tt,
        set_stdout (stdout st1 ++ [[FStr "Configuration Error: "; FExn e]]) st1)) /\
  exit_status (fst (FillHourly.main env cfg st)) = 0.
Proof.
  intros Hstart Hle.
  split; [eapply resolve_start_frame; eassumption|].
  unfold FillDaily.main, FillHourly.main, try_except, bind. rewrite Hstart.
  unfold FillDaily.validate_time_range, FillHourly.validate_time_range.
  rewrite (proj2 (Z.leb_le _ _) Hle). run.
  split; [eexists; split; [|split; reflexivity]; reflexivity|].
  split; [reflexivity|].
  split; [eexists; split; [|split; reflexivity]; reflexivity|].
  reflexivity.
Qed.

(** The theorem at work: a range from 2023-06-01 back to 2023-06-02. *)
Lemma backwards_range_is_reported_witness :
  exit_status
    (fst (FillDaily.main (Sample.env Sample.unreachable) Sample.backwards
            Sample.fresh)) = 0 /\
  exit_status
    (fst (FillHourly.main (Sample.env Sample.unreachable) Sample.backwards
            Sample.fresh)) = 0.
Proof.
  destruct (backwards_range_is_reported (Sample.env Sample.unreachable)
              Sample.backwards Sample.fresh Sample.fresh 1685577600)
    as (_ & _ & Hd & _ & Hh); [reflexivity | simpl; lia |].
  split; assumption.
Defined.

(** C6 as stated fails: on a backwards range the daily script reports the
    error, changes nothing else, and ends with status 0, not with a
    non-zero status. *)
Lemma backwards_range_exits_zero :
  1685577600 <= 1685664000 /\
  (exists e,
     FillDaily.main (Sample.env Sample.unreachable) Sample.backwards
       Sample.fresh =
     (Ret tt,
      set_stdout [[FStr "Configuration Error: "; FExn e]] Sample.fresh)) /\
  exit_status
    (fst (FillDaily.main (Sample.env Sample.unreachable) Sample.backwards
            Sample.fresh)) = 0.
Proof. split; [lia|]. split; [eexists|]; reflexivity. Qed.

(** ** The remote call *)

(** *** How many requests a call sends *)

Create HintDb sends.

Lemma sends_bind {A B} (a b : nat) (m : M A) (k : A -> M B) :
  sends_at_most a m -> (forall x, sends_at_most b (k x)) ->
  sends_at_most (a + b) (bind m k).
Proof.
  intros Hm Hk st. unfold bind. specialize (Hm st).
  destruct (m st) as [[x|e|c] st']; simpl in *; [|lia|lia].
  specialize (Hk x st'). lia.
Qed.

Lemma sends_try {A} (a b : nat) (m : M A) (c : exn -> bool) (h : exn -> M A) :
  sends_at_most a m -> (forall e, sends_at_most b (h e)) ->
  sends_at_most (a + b) (try_except m c h).
Proof.
  intros Hm Hh st. unfold try_except. specialize (Hm st).
  destruct (m st) as [[x|e|x] st']; simpl in *; [lia| |lia].
  destruct (c e); simpl; [|lia]. specialize (Hh e st'). lia.
Qed.

Lemma sends_weaken {A} (a b : nat) (m : M A) :
  (a <= b)%nat -> sends_at_most a m -> sends_at_most b m.
Proof. intros Hab Hm st. specialize (Hm st). lia. Qed.

Ltac sends_direct := intros st; run; simpl; lia.

Lemma sends_log_event env ev msg : sends_at_most 0 (log_event env ev msg).
Proof. unfold log_event. sends_direct. Qed.
Lemma sends_tracking_log env self s r f : sends_at_most 0 (tracking_log env self s r f).
Proof. unfold tracking_log, insert_tracking_log. sends_direct. Qed.
Lemma sends_update_requests env self : sends_at_most 0 (update_requests_made_today env self).
Proof. unfold update_requests_made_today, requests_today, update_tracking, log_event. sends_direct. Qed.
Lemma sends_log_api_call a b c d e f g h : sends_at_most 0 (log_api_call a b c d e f g h).
Proof. unfold log_api_call. sends_direct. Qed.
Lemma sends_critical_response {A} env self msg : sends_at_most 0 (@critical_response A env self msg).
Proof.
  unfold critical_response, tracking_log, insert_tracking_log,
    update_requests_made_today, requests_today, update_tracking, log_event.
  sends_direct.
Qed.
Lemma sends_critical_failure {A} env self e : sends_at_most 0 (@critical_failure A env self e).
Proof.
  unfold critical_failure, tracking_log, insert_tracking_log,
    update_requests_made_today, requests_today, update_tracking, log_event.
  sends_direct.
Qed.
Lemma sends_get_api_prototype env p t : sends_at_most 0 (get_api_prototype env p t).
Proof.
  intros st. unfold get_api_prototype, log_event. run.
  destruct (find_prototype _ _ _); simpl; lia.
Qed.
Lemma sends_requests_get env : sends_at_most 1 (requests_get env).
Proof. intros st. unfold requests_get. destruct (remote env (sent st)); simpl; lia. Qed.
Lemma sends_ret {A} (a : A) : sends_at_most 0 (ret a).
Proof. sends_direct. Qed.
Lemma sends_now env : sends_at_most 0 (now env).
Proof. sends_direct. Qed.
Lemma sends_add_failed_request : sends_at_most 0 add_failed_request.
Proof. unfold add_failed_request. sends_direct. Qed.
Lemma sends_lift {A} (r : res A) : sends_at_most 0 (lift r).
Proof. intros st. destruct r; simpl; lia. Qed.

#[local] Hint Resolve sends_log_event sends_tracking_log sends_update_requests
  sends_log_api_call sends_critical_response sends_critical_failure
  sends_get_api_prototype sends_ret sends_now sends_add_failed_request
  sends_lift : sends.

Ltac sends_step :=
  match goal with
  | |- sends_at_most _ (bind (requests_get _) _) =>
      apply (sends_bind 1 0); [apply sends_requests_get | intros ?]
  | |- sends_at_most 0 (bind _ _) =>
      apply (sends_bind 0 0); [solve [auto with sends] | intros ?]
  | |- sends_at_most 0 (if ?c then _ else _) => destruct c
  | |- sends_at_most 0 _ => solve [auto with sends]
  end.

Lemma sends_attempt_call env self date total completed ts payload attempt rc :
  sends_at_most 1
    (Daily.attempt_call env self date total completed ts payload attempt rc).
Proof.
  unfold Daily.attempt_call.
  apply (sends_try 1 0).
  - sends_step. repeat sends_step.
  - intros e. repeat sends_step.
Qed.

Lemma sends_attempts_loop env self date total completed ts payload attempts rc :
  sends_at_most (length attempts)
    (Daily.attempts_loop env self date total completed ts payload attempts rc).
Proof.
  revert rc. induction attempts as [|a rest IH]; intros rc; simpl.
  - apply sends_ret.
  - apply (sends_bind 1 (length rest)); [apply sends_attempt_call|].
    intros [w i|rc']; [|apply IH].
    eapply sends_weaken; [|apply sends_ret]. lia.
Qed.

Lemma sends_daily_call env self date total idx :
  sends_at_most 3 (Daily.call_openweather_api env self date total idx).
Proof.
  unfold Daily.call_openweather_api.
  apply (sends_try 3 0); [|intros e; apply sends_critical_failure].
  apply (sends_bind 0 3); [auto with sends|]. intros p.
  apply (sends_bind 0 3); [auto with sends|]. intros _.
  apply (sends_bind 0 3); [auto with sends|]. intros ts.
  apply (sends_attempts_loop env self date total idx ts _ (seqZ 0 Daily.max_retries) 0).
Qed.

(** *** The paths of a call that do not end in a response the engine
    classifies *)

(** Unfolds the logger and the governor's bookkeeping inside a call. *)
Ltac run_engine :=
  unfold try_except, requests_get, except_class, except_Exception,
    critical_failure, critical_response, log_api_call, log_event,
    tracking_log, insert_tracking_log, update_requests_made_today,
    requests_today, update_tracking, add_failed_request,
    add_batch_call_request;
  run.

Lemma upsert_tracking_fields s p t r f old :
  status (upsert_tracking s p t r f old) = s /\
  previous_status (upsert_tracking s p t r f old) = p /\
  last_checked (upsert_tracking s p t r f old) = t /\
  stopped_reason (upsert_tracking s p t r f old) = r /\
  force_restart (upsert_tracking s p t r f old) = f.
Proof. destruct old; simpl; auto. Qed.

Lemma daily_exhausted_retries (env : Env) (self : Engine) (date : string)
    (total idx : Z) (st : St) (p : string) (e1 e2 e3 : exn) :
  find_prototype (platform (control self)) (api_call_type self)
    (api_call_types st) = Some p ->
  remote env (sent st) = Failed e1 -> exn_cls e1 = RequestException ->
  remote env (S (sent st)) = Failed e2 -> exn_cls e2 = RequestException ->
  remote env (S (S (sent st))) = Failed e3 -> exn_cls e3 = RequestException ->
  exists st' row,
    Daily.call_openweather_api env self date total idx st
      = (Ret (Some (None, None)), st') /\
    Daily.fetch_validate_store env self total idx date st
      = (Ret tt, set_batch_call_requests (batch_call_requests st + 1) st') /\
    sent st' = S (S (S (sent st))) /\
    api_calls st' = api_calls st /\
    failed_requests st' = failed_requests st /\
    daily_summary_data st' = daily_summary_data st /\
    api_script_tracking st' !! engine_key self = Some row /\
    status row = [FStr "Processing"] /\
    force_restart row = true /\
    stopped_reason row =
      Some [FStr "Error fetching data after "; FInt 3;
            FStr " attempts. Skipping this date: "; FStr date].
Proof.
  intros Hp H1 C1 H2 C2 H3 C3.
  assert (exists st',
    Daily.call_openweather_api env self date total idx st
      = (Ret (Some (None, None)), st') /\
    batch_call_requests st' = batch_call_requests st /\
    sent st' = S (S (S (sent st))) /\
    api_calls st' = api_calls st /\
    failed_requests st' = failed_requests st /\
    daily_summary_data st' = daily_summary_data st /\
    exists row, api_script_tracking st' !! engine_key self = Some row /\
    status row = [FStr "Processing"] /\
    force_restart row = true /\
    stopped_reason row =
      Some [FStr "Error fetching data after "; FInt 3;
            FStr " attempts. Skipping this date: "; FStr date])
    as (st' & Hcall & Hb & Hrest).
  { unfold Daily.call_openweather_api, get_api_prototype. run_engine.
    rewrite Hp. simpl.
    change (seqZ 0 Daily.max_retries) with [0; 1; 2].
    unfold Daily.attempts_loop, Daily.attempt_call. run_engine.
    rewrite H1. simpl. rewrite C1. simpl.
    rewrite H2. simpl. rewrite C2. simpl.
    rewrite H3. simpl. rewrite C3. simpl.
    eexists. split; [reflexivity|]. simpl.
    repeat (split; [reflexivity|]).
    eexists. unfold engine_key, tracking_key.
    rewrite lookup_alter_eq, lookup_insert_eq. simpl.
    split; [reflexivity|]. simpl.
    destruct (api_script_tracking st !! _); simpl; auto. }
  destruct Hrest as (Hs & Ha & Hf & Hd & row & Hrow).
  exists st', row. split; [exact Hcall|].
  split; [|tauto].
  unfold Daily.fetch_validate_store, bind. rewrite Hcall. simpl.
  unfold add_batch_call_request. run. by rewrite Hb.
Qed.

Lemma hourly_transport_error (env : Env) (self : Engine) (ts total idx : Z)
    (st : St) (p : string) (e : exn) :
  find_prototype (platform (control self)) (api_call_type self)
    (api_call_types st) = Some p ->
  remote env (sent st) = Failed e ->
  exists st' row,
    Hourly.call_openweather_api env self ts total idx st = (Exit 1, st') /\
    Hourly.fetch_validate_store env self total idx ts st = (Exit 1, st') /\
    sent st' = S (sent st) /\
    api_calls st' = api_calls st /\
    api_script_tracking st' !! engine_key self = Some row /\
    status row = [FStr "stopped-err"] /\
    force_restart row = true /\
    stopped_reason row = Some [FStr "API Error: "; FExn e].
Proof.
  intros Hp H1.
  assert (exists st',
    Hourly.call_openweather_api env self ts total idx st = (Exit 1, st') /\
    sent st' = S (sent st) /\
    api_calls st' = api_calls st /\
    exists row, api_script_tracking st' !! engine_key self = Some row /\
    status row = [FStr "stopped-err"] /\
    force_restart row = true /\
    stopped_reason row = Some [FStr "API Error: "; FExn e])
    as (st' & Hcall & Hs & Ha & row & Hrow).
  { unfold Hourly.call_openweather_api, get_api_prototype. run_engine.
    rewrite Hp. simpl. rewrite H1. simpl.
    eexists. split; [reflexivity|]. simpl.
    repeat (split; [reflexivity|]).
    eexists. unfold engine_key, tracking_key.
    rewrite lookup_alter_eq, lookup_insert_eq. simpl.
    split; [reflexivity|]. simpl.
    destruct (api_script_tracking st !! _); simpl; auto. }
  exists st', row. split; [exact Hcall|]. split; [|tauto].
  unfold Hourly.fetch_validate_store, bind. by rewrite Hcall.
Qed.

Lemma unclassified_tests (r : response) :
  unclassified r = true ->
  (status_code r =? 200) = false /\
  (status_code r =? 400) &&
    str_contains "out the available range" (resp_text r) = false /\
  (status_code r =? 404) = false /\
  (status_code r =? 403) = false /\
  (500 <=? status_code r) = false.
Proof.
  unfold unclassified. rewrite !andb_true_iff, !negb_true_iff. tauto.
Qed.

Lemma hourly_unclassified (env : Env) (self : Engine) (ts total idx : Z)
    (st : St) (p : string) (r : response) :
  find_prototype (platform (control self)) (api_call_type self)
    (api_call_types st) = Some p ->
  remote env (sent st) = Responded r ->
  unclassified r = true ->
  exists st' row call,
    Hourly.call_openweather_api env self ts total idx st
      = (Ret (None, Some (call_id call)), st') /\
    Hourly.fetch_validate_store env self total idx ts st
      = (Ret tt, set_batch_call_requests (batch_call_requests st + 1) st') /\
    sent st' = S (sent st) /\
    api_calls st' = (api_calls st ++ [call])%list /\
    response_code call = status_code r /\
    failed_requests st' = failed_requests st + 1 /\
    hourly_data st' = hourly_data st /\
    api_script_tracking st' !! engine_key self = Some row /\
    status row = [FStr "Processing"] /\
    force_restart row = true /\
    stopped_reason row =
      Some [FStr "API Error: Unhandled API error with status ";
            FInt (status_code r)].
Proof.
  intros Hp H1 Hu.
  apply unclassified_tests in Hu as (T200 & T400 & T404 & T403 & T500).
  assert (exists st' call id,
    Hourly.call_openweather_api env self ts total idx st
      = (Ret (None, Some id), st') /\
    api_calls st' = (api_calls st ++ [call])%list /\
    call_id call = id /\
    batch_call_requests st' = batch_call_requests st /\
    sent st' = S (sent st) /\
    response_code call = status_code r /\
    failed_requests st' = failed_requests st + 1 /\
    hourly_data st' = hourly_data st /\
    exists row, api_script_tracking st' !! engine_key self = Some row /\
    status row = [FStr "Processing"] /\
    force_restart row = true /\
    stopped_reason row =
      Some [FStr "API Error: Unhandled API error with status ";
            FInt (status_code r)])
    as (st' & call & id & Hcall & Ha & <- & Hb & Hs & Hc & Hf & Hh & row & Hrow).
  { unfold Hourly.call_openweather_api, get_api_prototype. run_engine.
    rewrite Hp. simpl. rewrite H1. simpl.
    rewrite T200, T400, T404, T403, T500. simpl.
    eexists _, _, _. split; [reflexivity|]. simpl.
    repeat (split; [reflexivity|]).
    eexists. unfold engine_key, tracking_key.
    rewrite lookup_alter_eq, lookup_insert_eq. simpl.
    split; [reflexivity|]. simpl.
    destruct (api_script_tracking st !! _); simpl; auto. }
  exists st', row, call. split; [exact Hcall|]. split; [|tauto].
  unfold Hourly.fetch_validate_store, bind. rewrite Hcall. simpl.
  unfold add_batch_call_request. run. by rewrite Hb.
Qed.

(** C2, as amended: in the daily pipeline a call sends at most 3 requests
    and retries after a transport error; when the third attempt fails too,
    the outcome is recorded on the tracking row, nothing is stored, and the
    loop body returns, so the run goes on with the next key. In the hourly
    pipeline the call sends one request, and a transport error is a
    critical failure: the tracking row goes to stopped-err with
    force_restart set and the run ends with exit status 1. *)
Theorem transport_errors_by_pipeline (env : Env) (st : St)
    (path : string * Z) (limit total idx ts : Z) (date : string)
    (pd ph : string) (e1 e2 e3 : exn) :
  find_prototype "OpenWeather" "Daily Aggregation" (api_call_types st)
    = Some pd ->
  find_prototype "OpenWeather" "Weather Data for Timestamp"
    (api_call_types st) = Some ph ->
  remote env (sent st) = Failed e1 -> exn_cls e1 = RequestException ->
  remote env (S (sent st)) = Failed e2 -> exn_cls e2 = RequestException ->
  remote env (S (S (sent st))) = Failed e3 -> exn_cls e3 = RequestException ->
  (forall env' date' total' idx',
     sends_at_most 3
       (Daily.call_openweather_api env' (Daily.engine path limit) date'
          total' idx')) /\
  (exists st' row,
     Daily.call_openweather_api env (Daily.engine path limit) date total idx
       st = (Ret (Some (None, None)), st') /\
     Daily.fetch_validate_store env (Daily.engine path limit) total idx date
       st = (Ret tt, set_batch_call_requests (batch_call_requests st + 1) st') /\
     sent st' = S (S (S (sent st))) /\
     daily_summary_data st' = daily_summary_data st /\
     api_script_tracking st' !! engine_key (Daily.engine path limit)
       = Some row /\
     status row = [FStr "Processing"] /\
     stopped_reason row =
       Some [FStr "Error fetching data after "; FInt 3;
             FStr " attempts. Skipping this date: "; FStr date]) /\
  (exists st' row,
     Hourly.call_openweather_api env (Hourly.engine path limit) ts total idx
       st = (Exit 1, st') /\
     Hourly.fetch_validate_store env (Hourly.engine path limit) total idx ts
       st = (Exit 1, st') /\
     sent st' = S (sent st) /\
     api_script_tracking st' !! engine_key (Hourly.engine path limit)
       = Some row /\
     status row = [FStr "stopped-err"] /\
     force_restart row = true /\
     stopped_reason row = Some [FStr "API Error: "; FExn e1]).
Proof.
  intros Hpd Hph H1 C1 H2 C2 H3 C3. split; [|split].
  - intros. apply sends_daily_call.
  - destruct (daily_exhausted_retries env (Daily.engine path limit) date total
                idx st pd e1 e2 e3)
      as (st' & row & ? & ? & ? & ? & ? & ? & ? & ? & ? & ?); try assumption.
    exists st', row. tauto.
  - destruct (hourly_transport_error env (Hourly.engine path limit) ts total
                idx st ph e1)
      as (st' & row & ? & ? & ? & ? & ? & ? & ? & ?); try assumption.
    exists st', row. tauto.
Qed.

(** The theorem at work: the remote source cannot be reached. The daily
    loop body returns after three requests, the hourly one exits after
    one. *)
Lemma transport_errors_by_pipeline_witness :
  (exists st',
     Daily.fetch_validate_store (Sample.env Sample.unreachable)
       (Daily.engine ("day_summary", 0) 1000) 2 0 "2023-06-01" Sample.fresh
       = (Ret tt, st') /\ sent st' = 3%nat) /\
  (exists st',
     Hourly.fetch_validate_store (Sample.env Sample.unreachable)
       (Hourly.engine ("day_summary", 0) 1000) 2 0 1685577600 Sample.fresh
       = (Exit 1, st') /\ sent st' = 1%nat).
Proof.
  destruct (transport_errors_by_pipeline (Sample.env Sample.unreachable)
              Sample.fresh ("day_summary", 0) 1000 2 0 1685577600
              "2023-06-01"
              "https://api.openweathermap.org/data/3.0/onecall/day_summary?lat={lat}&lon={lon}&date={date}&appid={API_key}"
              "https://api.openweathermap.org/data/3.0/onecall/timemachine?lat={lat}&lon={lon}&dt={time}&appid={API_key}"
              (mk_exn RequestException "Connection timed out")
              (mk_exn RequestException "Connection timed out")
              (mk_exn RequestException "Connection timed out"))
    as (_ & (sd & rd & _ & Hd & Hsd & _) & (sh & rh & _ & Hh & Hsh & _));
    try reflexivity.
  split.
  - eexists. split; [exact Hd|]. simpl. exact Hsd.
  - eexists. split; [exact Hh|]. exact Hsh.
Defined.

(** C2 as stated fails in the hourly pipeline: when the remote source
    cannot be reached, the loop over two keys sends one request, the first
    key is not retried, the second is never tried, and the run ends with
    exit status 1. *)
Lemma hourly_transport_error_ends_run :
  fst Sample.hourly_loop_unreachable = Exit 1 /\
  sent (snd Sample.hourly_loop_unreachable) = 1%nat /\
  batch_call_requests (snd Sample.hourly_loop_unreachable) = 0.
Proof. vm_compute. repeat split. Qed.

(** C3, at its failing input: the remote source answers 401 to every
    request of the daily pipeline. The call repeats the request three times
    and returns no pair; unpacking it raises, the loop over the two dates
    ends there, and the failed-request counter is still 0. The daily script
    reports an unexpected error and ends. On the same answers the hourly
    loop does what the claim says: one request per key, each counted as a
    failed request, and the loop returns. *)
Theorem daily_unclassified_code_ends_run :
  fst Sample.hourly_loop_401 = Ret tt /\
  sent (snd Sample.hourly_loop_401) = 2%nat /\
  failed_requests (snd Sample.hourly_loop_401) = 2 /\
  batch_call_requests (snd Sample.hourly_loop_401) = 2 /\
  fst Sample.daily_loop_401
    = Raise (mk_exn TypeError "cannot unpack non-iterable NoneType object") /\
  sent (snd Sample.daily_loop_401) = 3%nat /\
  response_code <$> api_calls (snd Sample.daily_loop_401) = [401; 401; 401] /\
  failed_requests (snd Sample.daily_loop_401) = 0 /\
  batch_call_requests (snd Sample.daily_loop_401) = 0 /\
  fst Sample.daily_main_401 = Ret tt /\
  sent (snd Sample.daily_main_401) = 3%nat /\
  failed_requests (snd Sample.daily_main_401) = 0 /\
  last (stdout (snd Sample.daily_main_401)) =
    Some [FStr "Unexpected Error: ";
          FExn (mk_exn TypeError "cannot unpack non-iterable NoneType object")].
Proof. vm_compute. repeat split. Qed.

(** C10: on the two per-key failure paths after which the run continues,
    the exhausted transport retries of the daily engine and an unclassified
    response code in the hourly engine, the call returns, the loop body
    returns, and the tracking row is upserted with force_restart = true. *)
Theorem nonfatal_failures_set_force_restart (envd envh : Env) (std sth : St)
    (path : string * Z) (limit total idx ts : Z) (date : string)
    (pd ph : string) (e1 e2 e3 : exn) (r : response) :
  find_prototype "OpenWeather" "Daily Aggregation" (api_call_types std)
    = Some pd ->
  remote envd (sent std) = Failed e1 -> exn_cls e1 = RequestException ->
  remote envd (S (sent std)) = Failed e2 -> exn_cls e2 = RequestException ->
  remote envd (S (S (sent std))) = Failed e3 ->
  exn_cls e3 = RequestException ->
  find_prototype "OpenWeather" "Weather Data for Timestamp"
    (api_call_types sth) = Some ph ->
  remote envh (sent sth) = Responded r ->
  unclassified r = true ->
  (exists st' row,
     Daily.call_openweather_api envd (Daily.engine path limit) date total idx
       std = (Ret (Some (None, None)), st') /\
     Daily.fetch_validate_store envd (Daily.engine path limit) total idx date
       std = (Ret tt, set_batch_call_requests (batch_call_requests std + 1) st') /\
     api_script_tracking st' !! engine_key (Daily.engine path limit)
       = Some row /\
     status row = [FStr "Processing"] /\
     force_restart row = true) /\
  (exists st' row call,
     Hourly.call_openweather_api envh (Hourly.engine path limit) ts total idx
       sth = (Ret (None, Some (call_id call)), st') /\
     Hourly.fetch_validate_store envh (Hourly.engine path limit) total idx ts
       sth = (Ret tt, set_batch_call_requests (batch_call_requests sth + 1) st') /\
     api_script_tracking st' !! engine_key (Hourly.engine path limit)
       = Some row /\
     status row = [FStr "Processing"] /\
     force_restart row = true).
Proof.
  intros Hpd H1 C1 H2 C2 H3 C3 Hph Hr Hu. split.
  - destruct (daily_exhausted_retries envd (Daily.engine path limit) date
                total idx std pd e1 e2 e3)
      as (st' & row & ? & ? & ? & ? & ? & ? & ? & ? & ? & ?); try assumption.
    exists st', row. tauto.
  - destruct (hourly_unclassified envh (Hourly.engine path limit) ts total idx
                sth ph r)
      as (st' & row & call & ? & ? & ? & ? & ? & ? & ? & ? & ? & ? & ?);
      try assumption.
    exists st', row, call. tauto.
Qed.

(** The theorem at work: an unreachable remote source for the daily engine,
    and one that answers 429 for the hourly engine. *)
Lemma nonfatal_failures_set_force_restart_witness :
  (exists st' row,
     Daily.fetch_validate_store (Sample.env Sample.unreachable)
       (Daily.engine ("day_summary", 0) 1000) 2 0 "2023-06-01" Sample.fresh
       = (Ret tt, set_batch_call_requests 1 st') /\
     api_script_tracking st'
       !! ("openweather_summary_get", "OpenWeather", "day_summary")
       = Some row /\
     force_restart row = true) /\
  (exists st' row,
     Hourly.fetch_validate_store
       (Sample.env (Sample.answering 429 "Too many requests" JNull))
       (Hourly.engine ("day_summary", 0) 1000) 2 0 1685577600 Sample.fresh
       = (Ret tt, set_batch_call_requests 1 st') /\
     api_script_tracking st'
       !! ("openweather_timemachine_get", "OpenWeather", "timemachine")
       = Some row /\
     force_restart row = true).
Proof.
  destruct (nonfatal_failures_set_force_restart
              (Sample.env Sample.unreachable)
              (Sample.env (Sample.answering 429 "Too many requests" JNull))
              Sample.fresh Sample.fresh ("day_summary", 0) 1000 2 0
              1685577600 "2023-06-01"
              "https://api.openweathermap.org/data/3.0/onecall/day_summary?lat={lat}&lon={lon}&date={date}&appid={API_key}"
              "https://api.openweathermap.org/data/3.0/onecall/timemachine?lat={lat}&lon={lon}&dt={time}&appid={API_key}"
              (mk_exn RequestException "Connection timed out")
              (mk_exn RequestException "Connection timed out")
              (mk_exn RequestException "Connection timed out")
              {| status_code := 429; resp_text := "Too many requests";
                 resp_json := Ok JNull |})
    as ((sd & rd & _ & Hd & Hrd & _ & Hfd) & (sh & rh & c & _ & Hh & Hrh & _ & Hfh));
    try reflexivity.
  split.
  - exists sd, rd. split; [exact Hd|]. split; [exact Hrd|exact Hfd].
  - exists sh, rh. split; [exact Hh|]. split; [exact Hrh|exact Hfh].
Defined.

(** ** The store *)

Lemma filter_not_Exists {A} (P : A -> Prop) `{!forall x, Decision (P x)}
    (l : list A) :
  ~ Exists P l -> filter P l = [].
Proof.
  induction l as [|x l IH]; intros Hl; [reflexivity|].
  rewrite filter_cons_False; [apply IH|]; intros Hx; apply Hl;
    [by apply Exists_cons_tl | by apply Exists_cons_hd].
Qed.

Ltac run_store :=
  unfold try_except, except_Exception, log_event, log_sql_insert,
    add_failed_sql_insert;
  run.

Lemma hourly_store_fresh (env : Env) (self : Engine) (data : hourly_validated)
    (id : option Z) (st : St) (k : Z) :
  hv_dt data = JInt k ->
  Hourly.key_exists k (location_id self) (hourly_data st) = false ->
  hourly_schema env
    {| h_dt := k; h_location_id := location_id self; h_values := data |}
    = None ->
  exists st',
    Hourly.store_weather_data env self data id st = (Ret 1, st') /\
    hourly_data st' =
      (hourly_data st ++
         [{| h_dt := k; h_location_id := location_id self;
             h_values := data |}])%list /\
    failed_sql_inserts st' = failed_sql_inserts st /\
    hourly_records k (location_id self) (hourly_data st') = 1%nat.
Proof.
  intros Hk Hnew Hok.
  unfold Hourly.store_weather_data, Hourly.bigint_eq, Hourly.bigint_in.
  rewrite Hk. run_store. rewrite Hnew, Hok. run_store.
  eexists. split; [reflexivity|]. simpl. split; [reflexivity|].
  split; [reflexivity|].
  unfold hourly_records. rewrite filter_app, filter_not_Exists.
  - rewrite filter_cons_True by done. reflexivity.
  - unfold Hourly.key_exists in Hnew. by apply bool_decide_eq_false in Hnew.
Qed.

Lemma hourly_store_duplicate (env : Env) (self : Engine)
    (data : hourly_validated) (id : option Z) (st : St) (k : Z) :
  hv_dt data = JInt k ->
  Hourly.key_exists k (location_id self) (hourly_data st) = true ->
  exists st' t,
    Hourly.store_weather_data env self data id st = (Ret 0, st') /\
    hourly_data st' = hourly_data st /\
    failed_sql_inserts st' = failed_sql_inserts st + 1 /\
    sql_handling st' =
      (sql_handling st ++
         [{| sh_api_call_id := id; sh_timestamp := t;
             sh_status := [FStr "failure"];
             sh_error := Some [FStr "Duplicate record"] |}])%list.
Proof.
  intros Hk Hdup.
  unfold Hourly.store_weather_data, Hourly.bigint_eq, Hourly.bigint_in.
  rewrite Hk. run_store. rewrite Hdup. run_store.
  eexists _, _. repeat split.
Qed.

Lemma key_exists_snoc (k loc : Z) (rows : list HourlyRow) (v : hourly_validated) :
  Hourly.key_exists k loc
    (rows ++ [{| h_dt := k; h_location_id := loc; h_values := v |}]) = true.
Proof.
  unfold Hourly.key_exists. apply bool_decide_eq_true.
  apply Exists_app. right. by apply Exists_cons_hd.
Qed.

Lemma daily_store_fresh (env : Env) (self : Engine) (data : daily_validated)
    (id : option Z) (st : St) :
  Daily.date_exists (dv_date data) (daily_summary_data st) = false ->
  daily_schema env {| d_date := dv_date data; d_values := data |} = None ->
  exists st',
    Daily.store_weather_data env self data id st = (Ret 1, st') /\
    daily_summary_data st' =
      (daily_summary_data st ++
         [{| d_date := dv_date data; d_values := data |}])%list /\
    failed_sql_inserts st' = failed_sql_inserts st /\
    daily_records (dv_date data) (daily_summary_data st') = 1%nat.
Proof.
  intros Hnew Hok. unfold Daily.store_weather_data.
  run_store. rewrite Hnew, Hok. run_store.
  eexists. split; [reflexivity|]. simpl. split; [reflexivity|].
  split; [reflexivity|].
  unfold daily_records. rewrite filter_app, filter_not_Exists.
  - rewrite filter_cons_True by done. reflexivity.
  - unfold Daily.date_exists in Hnew. by apply bool_decide_eq_false in Hnew.
Qed.

Lemma daily_store_duplicate (env : Env) (self : Engine)
    (data : daily_validated) (id : option Z) (st : St) :
  Daily.date_exists (dv_date data) (daily_summary_data st) = true ->
  exists st' t,
    Daily.store_weather_data env self data id st = (Ret 0, st') /\
    daily_summary_data st' = daily_summary_data st /\
    failed_sql_inserts st' = failed_sql_inserts st + 1 /\
    sql_handling st' =
      (sql_handling st ++
         [{| sh_api_call_id := id; sh_timestamp := t;
             sh_status := [FStr "failure"];
             sh_error := Some [FStr "Duplicate record"] |}])%list.
Proof.
  intros Hdup. unfold Daily.store_weather_data.
  run_store. rewrite Hdup. run_store.
  eexists _, _. repeat split.
Qed.

Lemma date_exists_snoc (d : Z) (rows : list DailyRow) (v : daily_validated) :
  Daily.date_exists d (rows ++ [{| d_date := d; d_values := v |}]) = true.
Proof.
  unfold Daily.date_exists. apply bool_decide_eq_true.
  apply Exists_app. right. by apply Exists_cons_hd.
Qed.

(** C7: for every key, storing a record twice leaves exactly one stored
    record: the first store of a key that is not yet stored inserts it, the
    second finds it, returns 0 without raising, leaves the table as it is,
    counts a failed insert and reports "Duplicate record" in the
    store-outcome audit. Whenever the key is already stored, the store is
    refused in this way. *)
Theorem store_twice_keeps_one (env : Env) (self : Engine) (st : St)
    (id1 id2 : option Z) :
  (forall (data : hourly_validated) (k : Z),
     hv_dt data = JInt k ->
     Hourly.key_exists k (location_id self) (hourly_data st) = false ->
     hourly_schema env
       {| h_dt := k; h_location_id := location_id self; h_values := data |}
       = None ->
     exists st1 st2 t,
       Hourly.store_weather_data env self data id1 st = (Ret 1, st1) /\
       Hourly.store_weather_data env self data id2 st1 = (Ret 0, st2) /\
       hourly_data st2 = hourly_data st1 /\
       hourly_records k (location_id self) (hourly_data st2) = 1%nat /\
       failed_sql_inserts st2 = failed_sql_inserts st1 + 1 /\
       last (sql_handling st2) =
         Some {| sh_api_call_id := id2; sh_timestamp := t;
                 sh_status := [FStr "failure"];
                 sh_error := Some [FStr "Duplicate record"] |}) /\
  (forall (data : daily_validated),
     Daily.date_exists (dv_date data) (daily_summary_data st) = false ->
     daily_schema env {| d_date := dv_date data; d_values := data |} = None ->
     exists st1 st2 t,
       Daily.store_weather_data env self data id1 st = (Ret 1, st1) /\
       Daily.store_weather_data env self data id2 st1 = (Ret 0, st2) /\
       daily_summary_data st2 = daily_summary_data st1 /\
       daily_records (dv_date data) (daily_summary_data st2) = 1%nat /\
       failed_sql_inserts st2 = failed_sql_inserts st1 + 1 /\
       last (sql_handling st2) =
         Some {| sh_api_call_id := id2; sh_timestamp := t;
                 sh_status := [FStr "failure"];
                 sh_error := Some [FStr "Duplicate record"] |}) /\
  (forall (data : hourly_validated) (k : Z),
     hv_dt data = JInt k ->
     Hourly.key_exists k (location_id self) (hourly_data st) = true ->
     exists st',
       Hourly.store_weather_data env self data id1 st = (Ret 0, st') /\
       hourly_data st' = hourly_data st /\
       failed_sql_inserts st' = failed_sql_inserts st + 1) /\
  (forall (data : daily_validated),
     Daily.date_exists (dv_date data) (daily_summary_data st) = true ->
     exists st',
       Daily.store_weather_data env self data id1 st = (Ret 0, st') /\
       daily_summary_data st' = daily_summary_data st /\
       failed_sql_inserts st' = failed_sql_inserts st + 1).
Proof.
  split; [|split; [|split]].
  - intros data k Hk Hnew Hok.
    destruct (hourly_store_fresh env self data id1 st k Hk Hnew Hok)
      as (st1 & H1 & Hrows & _ & Hone).
    destruct (hourly_store_duplicate env self data id2 st1 k Hk)
      as (st2 & t & H2 & Hsame & Hcount & Haudit).
    { rewrite Hrows. apply key_exists_snoc. }
    exists st1, st2, t. rewrite Hsame, Haudit, last_snoc.
    repeat split; assumption || reflexivity.
  - intros data Hnew Hok.
    destruct (daily_store_fresh env self data id1 st Hnew Hok)
      as (st1 & H1 & Hrows & _ & Hone).
    destruct (daily_store_duplicate env self data id2 st1)
      as (st2 & t & H2 & Hsame & Hcount & Haudit).
    { rewrite Hrows. apply date_exists_snoc. }
    exists st1, st2, t. rewrite Hsame, Haudit, last_snoc.
    repeat split; assumption || reflexivity.
  - intros data k Hk Hdup.
    destruct (hourly_store_duplicate env self data id1 st k Hk Hdup)
      as (st' & t & ? & ? & ? & _).
    exists st'. tauto.
  - intros data Hdup.
    destruct (daily_store_duplicate env self data id1 st Hdup)
      as (st' & t & ? & ? & ? & _).
    exists st'. tauto.
Qed.

(** The theorem at work: the hour and the day 2023-06-01 00:00 UTC, stored
    twice into empty tables. *)
Lemma store_twice_keeps_one_witness :
  (exists st1 st2,
     Hourly.store_weather_data (Sample.env Sample.unreachable)
       (Hourly.engine ("timemachine", 0) 1000)
       (Sample.validated_hour 1685577600) (Some 1) Sample.fresh
       = (Ret 1, st1) /\
     Hourly.store_weather_data (Sample.env Sample.unreachable)
       (Hourly.engine ("timemachine", 0) 1000)
       (Sample.validated_hour 1685577600) (Some 2) st1 = (Ret 0, st2) /\
     hourly_records 1685577600 1 (hourly_data st2) = 1%nat) /\
  (exists st1 st2,
     Daily.store_weather_data (Sample.env Sample.unreachable)
       (Hourly.engine ("timemachine", 0) 1000)
       (Sample.validated_day 1685577600) (Some 1) Sample.fresh
       = (Ret 1, st1) /\
     Daily.store_weather_data (Sample.env Sample.unreachable)
       (Hourly.engine ("timemachine", 0) 1000)
       (Sample.validated_day 1685577600) (Some 2) st1 = (Ret 0, st2) /\
     daily_records 1685577600 (daily_summary_data st2) = 1%nat).
Proof.
  destruct (store_twice_keeps_one (Sample.env Sample.unreachable)
              (Hourly.engine ("timemachine", 0) 1000) Sample.fresh
              (Some 1) (Some 2)) as (Hh & Hd & _ & _).
  split.
  - destruct (Hh (Sample.validated_hour 1685577600) 1685577600)
      as (st1 & st2 & t & H1 & H2 & _ & Hone & _); try reflexivity.
    exists st1, st2. split; [exact H1|]. split; [exact H2|exact Hone].
  - destruct (Hd (Sample.validated_day 1685577600))
      as (st1 & st2 & t & H1 & H2 & _ & Hone & _); try reflexivity.
    exists st1, st2. split; [exact H1|]. split; [exact H2|exact Hone].
Defined.

(** ** The validation *)

Lemma assoc_assoc_set (k k' : string) (v : json) (l : list (string * json)) :
  assoc k (assoc_set k' v l) = if String.eqb k k' then Some v else assoc k l.
Proof.
  induction l as [|[k0 v0] l IH]; simpl; [reflexivity|].
  destruct (String.eqb_spec k' k0) as [->|Hne]; simpl.
  - destruct (String.eqb_spec k k0); reflexivity.
  - rewrite IH. destruct (String.eqb_spec k k0) as [->|]; [|reflexivity].
    destruct (String.eqb_spec k0 k'); congruence.
Qed.

Lemma get2_value_at (data : json) (s f : string) (d v : json) :
  value_at data [s; f] = Some v -> Daily.get2 data s f d = Ok v.
Proof.
  unfold Daily.get2. destruct data; simpl; try discriminate.
  destruct (assoc s fields) as [sec|]; [|discriminate].
  destruct sec; simpl; try discriminate.
  destruct (assoc f fields0); [|discriminate]. by intros [= ->].
Qed.

Lemma get3_value_at (data : json) (s m f : string) (d v : json) :
  value_at data [s; m; f] = Some v ->
  exists mid, Daily.get2 data s m (JObj []) = Ok mid /\ py_get mid f d = Ok v.
Proof.
  unfold Daily.get2. destruct data; simpl; try discriminate.
  destruct (assoc s fields) as [sec|]; [|discriminate].
  destruct sec; simpl; try discriminate.
  destruct (assoc m fields0) as [mid|]; [|discriminate].
  destruct mid; simpl; try discriminate.
  destruct (assoc f fields1) eqn:Ef; [|discriminate]. intros [= ->].
  eexists. split; [reflexivity|]. simpl. by rewrite Ef.
Qed.

Ltac next_bind :=
  match goal with
  | |- rbind ?r _ = _ -> _ =>
      let E := fresh "E" in destruct r eqn:E; cbn [rbind]; [|discriminate]
  end.

Lemma no_missing_field (fields : list (string * json)) :
  fst <$> List.filter (fun fv => is_none (snd fv)) fields = [] ->
  Forall (fun fv => is_none (snd fv) = false) fields.
Proof.
  induction fields as [|[n x] l IH]; simpl; [constructor|].
  destruct (is_none x) eqn:Hx; simpl; [discriminate|].
  intros H. constructor; [exact Hx|apply IH, H].
Qed.

(** A payload that passes the daily validation has none of the checked
    values null. *)
Lemma daily_validated_inv (env : Env) (data : json) (v : daily_validated) :
  Daily.extract env data = Ok (Daily.Validated v) ->
  (forall s f x, (s, f) ∈ [("cloud_cover", "afternoon"); ("humidity", "afternoon");
                          ("precipitation", "total"); ("temperature", "min");
                          ("temperature", "max"); ("pressure", "afternoon")] ->
     Daily.get2 data s f (JFloat 0) = Ok x -> is_none x = false) /\
  (forall mid x, Daily.get2 data "wind" "max" (JObj []) = Ok mid ->
     py_get mid "speed" (JFloat 0) = Ok x -> is_none x = false).
Proof.
  unfold Daily.extract. repeat next_bind.
  match goal with
  | |- match ?l with _ => _ end = _ -> _ =>
      destruct l eqn:Hmissing; [|discriminate]
  end.
  intros _. apply no_missing_field in Hmissing.
  repeat match goal with
         | H : Forall _ (_ :: _) |- _ =>
             apply Forall_cons in H as [? H]; simpl in *
         end.
  split.
  - intros s f x Hin Hx.
    repeat (apply elem_of_cons in Hin as [[= -> ->]|Hin]; [congruence|]).
    by apply elem_of_nil in Hin.
  - intros mid x Hmid Hx. congruence.
Qed.

Lemma daily_null_field_not_validated (env : Env) (data : json)
    (name : string) (path : list string) (v : daily_validated) :
  (name, path) ∈ daily_critical ->
  value_at data path = Some JNull ->
  Daily.extract env data <> Ok (Daily.Validated v).
Proof.
  intros Hin Hnull Hv. apply daily_validated_inv in Hv as [H2 H3].
  unfold daily_critical in Hin.
  repeat (apply elem_of_cons in Hin as [[= -> ->]|Hin];
          [try (apply (get2_value_at _ _ _ (JFloat 0)) in Hnull;
                apply H2 in Hnull; [discriminate|set_solver])|]).
  - apply (get3_value_at _ _ _ _ (JFloat 0)) in Hnull as (mid & Hmid & Hx).
    specialize (H3 mid JNull Hmid Hx). discriminate.
  - by apply elem_of_nil in Hin.
Qed.

Lemma value_at_truthy (data v : json) (k : string) (rest : list string) :
  value_at data (k :: rest) = Some v -> truthy data = true.
Proof.
  destruct data; simpl; try discriminate.
  destruct fields; [discriminate|reflexivity].
Qed.

Ltac run_validation :=
  unfold try_except, except_Exception, handle_sql_failure, log_event,
    log_sql_insert, add_batch_call_request;
  run.

Lemma daily_null_field_aborts (env : Env) (self : Engine) (data : json)
    (id : option Z) (st : St) (name : string) (path : list string) :
  (name, path) ∈ daily_critical ->
  value_at data path = Some JNull ->
  exists st' row,
    Daily.extract_and_validate_weather_data env self data id st
      = (Ret None, st') /\
    sql_handling st' = (sql_handling st ++ [row])%list /\
    sh_api_call_id row = id /\
    sh_status row = [FStr "failure"] /\
    length (log_file st') = S (length (log_file st)) /\
    daily_summary_data st' = daily_summary_data st /\
    failed_sql_inserts st' = failed_sql_inserts st /\
    failed_requests st' = failed_requests st /\
    batch_call_requests st' = batch_call_requests st.
Proof.
  intros Hin Hnull.
  pose proof (daily_null_field_not_validated env data name path) as Hnot.
  unfold Daily.extract_and_validate_weather_data. run_validation.
  destruct (Daily.extract env data) as [[names d|v]|e]; simpl.
  - eexists _, _. split; [reflexivity|]. simpl.
    rewrite length_app. simpl. repeat split; lia.
  - exfalso. by eapply Hnot.
  - eexists _, _. split; [reflexivity|]. simpl.
    rewrite length_app. simpl. repeat split; lia.
Qed.

(** An hourly payload whose first data point misses a checked field is
    reported as missing it. *)
Lemma hourly_missing_field (top l : list (string * json)) (rest : list json)
    (field : string) :
  assoc "data" top = Some (JArr (JObj l :: rest)) ->
  field ∈ Hourly.critical_fields ->
  assoc field l = None \/ assoc field l = Some JNull ->
  exists names dt, Hourly.extract (JObj top) = Ok (Hourly.Missing names dt).
Proof.
  intros Hdata Hin Hnone. unfold Hourly.extract, py_getitem.
  rewrite Hdata. cbn [rbind py_first py_get].
  set (visibility := if Hourly.is_number _ then _ else _).
  match goal with
  | |- context [List.filter ?f Hourly.critical_fields] =>
      assert (In field (List.filter f Hourly.critical_fields)) as Hmissing
  end.
  { apply filter_In. split; [by apply list_elem_of_In|].
    rewrite assoc_assoc_set.
    assert (String.eqb field "visibility" = false) as ->.
    { unfold Hourly.critical_fields in Hin.
      repeat (apply elem_of_cons in Hin as [->|Hin]; [reflexivity|]).
      by apply elem_of_nil in Hin. }
    by destruct Hnone as [-> | ->]. }
  destruct (List.filter _ Hourly.critical_fields) as [|n names];
    [destruct Hmissing|].
  eexists _, _. reflexivity.
Qed.

Lemma hourly_missing_field_aborts (env : Env) (self : Engine)
    (top l : list (string * json)) (rest : list json) (field : string)
    (id : option Z) (st : St) :
  assoc "data" top = Some (JArr (JObj l :: rest)) ->
  field ∈ Hourly.critical_fields ->
  assoc field l = None \/ assoc field l = Some JNull ->
  exists st' row,
    Hourly.extract_and_validate_weather_data env self (JObj top) id st
      = (Ret None, st') /\
    sql_handling st' = (sql_handling st ++ [row])%list /\
    sh_api_call_id row = id /\
    sh_status row = [FStr "failure"] /\
    length (log_file st') = S (length (log_file st)) /\
    hourly_data st' = hourly_data st /\
    failed_sql_inserts st' = failed_sql_inserts st /\
    failed_requests st' = failed_requests st /\
    batch_call_requests st' = batch_call_requests st.
Proof.
  intros Hdata Hin Hnone.
  destruct (hourly_missing_field top l rest field Hdata Hin Hnone)
    as (names & dt & Hextract).
  unfold Hourly.extract_and_validate_weather_data. run_validation.
  rewrite Hextract. simpl.
  eexists _, _. split; [reflexivity|]. simpl.
  rewrite length_app. simpl. repeat split; lia.
Qed.

(** C4, as amended: for every successful response whose payload has a null
    in a field the validation checks (daily: the seven values of
    [daily_critical]; hourly: temp, feels_like, pressure, humidity or dt of
    the first data point, an object, null or absent), validation returns
    [None]: the failure is written to the event log and as a 'failure' row
    of the store-outcome audit, no record is stored, the failed-insert
    counter of the engine is unchanged, and the loop body returns, so the
    run continues. *)
Theorem null_field_aborts_validation (env : Env) (self : Engine) (st : St)
    (id : option Z) :
  truthy_id id = true ->
  (forall (data : json) (name : string) (path : list string),
     (name, path) ∈ daily_critical ->
     value_at data path = Some JNull ->
     exists st0 row,
       Daily.extract_and_validate_weather_data env self data id st
         = (Ret None, st0) /\
       Daily.validate_and_store env self (Some data, id) st
         = (Ret tt, set_batch_call_requests (batch_call_requests st + 1) st0) /\
       sql_handling st0 = (sql_handling st ++ [row])%list /\
       sh_api_call_id row = id /\
       sh_status row = [FStr "failure"] /\
       length (log_file st0) = S (length (log_file st)) /\
       daily_summary_data st0 = daily_summary_data st /\
       failed_sql_inserts st0 = failed_sql_inserts st) /\
  (forall (top l : list (string * json)) (rest : list json) (field : string),
     assoc "data" top = Some (JArr (JObj l :: rest)) ->
     field ∈ Hourly.critical_fields ->
     assoc field l = None \/ assoc field l = Some JNull ->
     exists st0 row,
       Hourly.extract_and_validate_weather_data env self (JObj top) id st
         = (Ret None, st0) /\
       Hourly.validate_and_store env self (Some (JObj top), id) st
         = (Ret tt, set_batch_call_requests (batch_call_requests st + 1) st0) /\
       sql_handling st0 = (sql_handling st ++ [row])%list /\
       sh_api_call_id row = id /\
       sh_status row = [FStr "failure"] /\
       length (log_file st0) = S (length (log_file st)) /\
       hourly_data st0 = hourly_data st /\
       failed_sql_inserts st0 = failed_sql_inserts st).
Proof.
  intros Hid. split.
  - intros data name path Hin Hnull.
    destruct (daily_null_field_aborts env self data id st name path Hin Hnull)
      as (st0 & row & Hrun & ? & ? & ? & ? & ? & ? & _ & Hb).
    exists st0, row. split; [exact Hrun|]. split; [|tauto].
    unfold Daily.validate_and_store.
    assert (truthy data = true) as ->.
    { unfold daily_critical in Hin.
      repeat (apply elem_of_cons in Hin as [[= -> ->]|Hin];
              [by eapply value_at_truthy|]).
      by apply elem_of_nil in Hin. }
    rewrite Hid. simpl. unfold bind at 1. unfold bind at 1.
    rewrite Hrun. unfold add_batch_call_request. run. by rewrite Hb.
  - intros top l rest field Hdata Hin Hnone.
    destruct (hourly_missing_field_aborts env self top l rest field id st
                Hdata Hin Hnone)
      as (st0 & row & Hrun & ? & ? & ? & ? & ? & ? & _ & Hb).
    exists st0, row. split; [exact Hrun|]. split; [|tauto].
    unfold Hourly.validate_and_store.
    assert (truthy (JObj top) = true) as ->.
    { destruct top; [discriminate|reflexivity]. }
    rewrite Hid. simpl. unfold bind at 1. unfold bind at 1.
    rewrite Hrun. unfold add_batch_call_request. run. by rewrite Hb.
Qed.

(** The theorem at work: a daily summary with a null minimum temperature,
    and an hourly data point without pressure. *)
Lemma null_field_aborts_validation_witness :
  (exists st0,
     Daily.extract_and_validate_weather_data (Sample.env Sample.unreachable)
       (Daily.engine ("day_summary", 0) 1000) Sample.summary_null_temperature
       (Some 1) Sample.fresh = (Ret None, st0) /\
     Daily.validate_and_store (Sample.env Sample.unreachable)
       (Daily.engine ("day_summary", 0) 1000)
       (Some Sample.summary_null_temperature, Some 1) Sample.fresh
       = (Ret tt, set_batch_call_requests 1 st0) /\
     daily_summary_data st0 = []) /\
  (exists st0,
     Hourly.extract_and_validate_weather_data (Sample.env Sample.unreachable)
       (Hourly.engine ("timemachine", 0) 1000) Sample.hour_without_pressure
       (Some 1) Sample.fresh = (Ret None, st0) /\
     Hourly.validate_and_store (Sample.env Sample.unreachable)
       (Hourly.engine ("timemachine", 0) 1000)
       (Some Sample.hour_without_pressure, Some 1) Sample.fresh
       = (Ret tt, set_batch_call_requests 1 st0) /\
     hourly_data st0 = []).
Proof.
  split.
  - destruct (proj1 (null_field_aborts_validation
                       (Sample.env Sample.unreachable)
                       (Daily.engine ("day_summary", 0) 1000) Sample.fresh
                       (Some 1) eq_refl)
                Sample.summary_null_temperature "temperature_min"
                ["temperature"; "min"])
      as (st0 & row & H1 & H2 & _ & _ & _ & _ & Hd & _);
      [apply (bool_decide_unpack _); vm_compute; exact I | reflexivity |].
    exists st0. split; [exact H1|]. split; [exact H2|exact Hd].
  - destruct (proj2 (null_field_aborts_validation
                       (Sample.env Sample.unreachable)
                       (Hourly.engine ("timemachine", 0) 1000) Sample.fresh
                       (Some 1) eq_refl)
                [("lat", JFloat (4085 # 100)); ("lon", JFloat (-7397 # 100));
                 ("timezone", JStr "America/New_York");
                 ("timezone_offset", JInt (-14400));
                 ("data", JArr [JObj [("dt", JInt 1685577600);
                                      ("temp", JInt 20);
                                      ("feels_like", JInt 19);
                                      ("humidity", JInt 60)]])]
                [("dt", JInt 1685577600); ("temp", JInt 20);
                 ("feels_like", JInt 19); ("humidity", JInt 60)]
                [] "pressure")
      as (st0 & row & H1 & H2 & _ & _ & _ & _ & Hd & _);
      [reflexivity | apply (bool_decide_unpack _); vm_compute; exact I
      | left; reflexivity |].
    exists st0. split; [exact H1|]. split; [exact H2|exact Hd].
Defined.

(** C4 as stated fails: a daily summary with a null minimum temperature is
    refused and audited as a failure, but it is not counted as a failed
    insert: the counter stays 0 and the run that ends after it closes its
    tracking row with stopped-succ. *)
Lemma null_temperature_is_not_counted :
  value_at Sample.summary_null_temperature ["temperature"; "min"]
    = Some JNull /\
  exists st',
    (Daily.validate_and_store (Sample.env Sample.unreachable)
       (Daily.engine ("day_summary", 0) 1000)
       (Some Sample.summary_null_temperature, Some 1) ;;
     Daily.finish (Sample.env Sample.unreachable)
       (Daily.engine ("day_summary", 0) 1000)) Sample.fresh
      = (Ret tt, st') /\
    daily_summary_data st' = [] /\
    sh_status <$> sql_handling st' = [[FStr "failure"]] /\
    failed_sql_inserts st' = 0 /\
    status <$> api_script_tracking st'
                 !! engine_key (Daily.engine ("day_summary", 0) 1000)
      = Some [FStr "stopped-succ"].
Proof.
  split; [reflexivity|]. eexists. split; [vm_compute; reflexivity|].
  vm_compute. repeat split.
Qed.

(** The daily validation does not see an absent field: a summary without
    its temperature section passes, with 0.0 for the absent values, and is
    stored. *)
Lemma absent_temperature_is_stored :
  value_at Sample.summary_without_temperature ["temperature"; "min"] = None /\
  exists st',
    Daily.validate_and_store (Sample.env Sample.unreachable)
      (Daily.engine ("day_summary", 0) 1000)
      (Some Sample.summary_without_temperature, Some 1) Sample.fresh
      = (Ret tt, st') /\
    daily_records 1685577600 (daily_summary_data st') = 1%nat /\
    dv_temperature_min <$> (d_values <$> daily_summary_data st')
      = [JFloat 0] /\
    failed_sql_inserts st' = 0.
Proof.
  split; [reflexivity|]. eexists. split; [vm_compute; reflexivity|].
  vm_compute. repeat split.
Qed.

(** * Further properties *)

(** ** The governor and the tracking row *)

Lemma next_interval_of_eq (calls : Z) :
  (next_interval_of calls == (10 # 9) + (1 # 270) * inject_Z calls)%Q.
Proof. unfold next_interval_of. field. Qed.

(** The pacing delay of [rate_limit_check], in the exact arithmetic of the
    model (the code evaluates the same expression in doubles). The count
    is that of the calls of the platform audited in the trailing 300
    seconds. The delay is 10/9 seconds for no call and 1/270 of a second
    longer for each call more, so it is strictly increasing in the count
    and positive for every count: the check always takes the branch that
    sleeps, and returns after writing its two log entries, which show the
    count and the delay. *)
Theorem rate_limit_check_always_sleeps (env : Env) (self : APIControl)
    (st : St) :
  let calls :=
    count_calls (platform_type_ids (platform self) (api_call_types st))
      (clock env (ticks st) - 300) (fun _ => true) (api_calls st) in
  (forall n : Z,
     (next_interval_of n == (10 # 9) + inject_Z n * (1 # 270))%Q) /\
  (forall a b : Z, a < b -> (next_interval_of a < next_interval_of b)%Q) /\
  (0 < next_interval_of calls)%Q /\
  rate_limit_check env self st =
    (Ret tt,
     set_log_file
       (log_file st ++
          [(clock env (S (ticks st)), "Rate Limit Check",
            [FStr "Calls in the last 5 minutes: "; FInt calls;
             FStr ", Next interval: "; FNum (next_interval_of calls);
             FStr " seconds"]);
           (clock env (S (S (ticks st))), "Rate Limit",
            [FStr "Sleeping for "; FNum (next_interval_of calls);
             FStr " seconds to enforce rate limit."])])
       (set_ticks (S (S (S (ticks st)))) st)).
Proof.
  intros calls.
  assert (0 <= calls) as Hcalls by (unfold calls, count_calls; lia).
  assert (0 < next_interval_of calls)%Q as Hpos.
  { rewrite next_interval_of_eq. rewrite Zle_Qle in Hcalls.
    change (inject_Z 0) with 0%Q in Hcalls. lra. }
  split; [intros n; rewrite next_interval_of_eq; ring|].
  split.
  { intros a b Hab. rewrite !next_interval_of_eq.
    rewrite Zlt_Qlt in Hab. lra. }
  split; [exact Hpos|].
  unfold rate_limit_check, log_event, time_sleep. run. fold calls.
  assert (Qgt_bool (next_interval_of calls) 0 = true) as ->.
  { unfold Qgt_bool. apply negb_true_iff.
    destruct (Qle_bool (next_interval_of calls) 0) eqn:Hle; [|reflexivity].
    apply Qle_bool_iff in Hle. lra. }
  simpl. rewrite <- app_assoc. reflexivity.
Qed.

(** Between the two cases of the daily-cap check: with at least one call
    today and fewer than the limit, the check does not signal halt and
    writes one log entry; the tracking table and every other store are left
    as they are. *)
Theorem check_daily_limit_below (env : Env) (self : APIControl) (st : St) :
  let n := count_calls_of_type (api_call_type_id self)
             (utc_midnight (clock env (ticks st))) (api_calls st) in
  0 < n -> n < daily_limit self ->
  check_daily_limit_reached env self st =
    (Ret false,
     set_log_file
       (log_file st ++
          [(clock env (S (S (ticks st))), "Daily Request Check",
            [FStr "Requests made today: "; FInt n])])
       (set_ticks (S (S (S (ticks st)))) st)).
Proof.
  intros n Hpos Hlt.
  unfold check_daily_limit_reached, requests_today, log_event. run.
  fold (utc_midnight (clock env (ticks st))). fold n.
  rewrite (proj2 (Z.leb_gt _ _) Hlt).
  assert ((n =? 0) = false) as -> by (apply Z.eqb_neq; lia).
  reflexivity.
Qed.

(** The theorem at work: five calls today under a limit of 10. *)
Lemma check_daily_limit_below_witness :
  fst (check_daily_limit_reached (Sample.env Sample.unreachable)
         (Sample.hourly_control 10) More.five_calls) = Ret false /\
  api_script_tracking
    (snd (check_daily_limit_reached (Sample.env Sample.unreachable)
            (Sample.hourly_control 10) More.five_calls))
    = api_script_tracking More.five_calls.
Proof.
  rewrite (check_daily_limit_below (Sample.env Sample.unreachable)
             (Sample.hourly_control 10) More.five_calls);
    [split; reflexivity | vm_compute; reflexivity | vm_compute; reflexivity].
Defined.

(** [update_requests_made_today] returns, adds 1 to the persisted counter
    of the row of its script and stamps it, keeping its status, flags and
    reason; it creates no row when there is none, and it touches no other
    row. The count it writes to the log is taken from the call audit, not
    from the row. *)
Theorem update_requests_made_today_spec (env : Env) (self : APIControl)
    (st : St) :
  exists st',
    update_requests_made_today env self st = (Ret tt, st') /\
    (api_script_tracking st !! tracking_key self = None ->
     api_script_tracking st' = api_script_tracking st) /\
    (forall r, api_script_tracking st !! tracking_key self = Some r ->
       exists r',
         api_script_tracking st' !! tracking_key self = Some r' /\
         requests_made_today r' = requests_made_today r + 1 /\
         status r' = status r /\ previous_status r' = previous_status r /\
         daily_limit_reached r' = daily_limit_reached r /\
         stopped_reason r' = stopped_reason r /\
         force_restart r' = force_restart r) /\
    (forall k, k <> tracking_key self ->
       api_script_tracking st' !! k = api_script_tracking st !! k) /\
    last (log_file st') =
      Some (clock env (S (S (ticks st))), "Request Update",
            [FStr "Requests made today incremented to ";
             FInt (count_calls_of_type (api_call_type_id self)
                     (utc_midnight (clock env (ticks st))) (api_calls st) + 1)]).
Proof.
  unfold update_requests_made_today, requests_today, update_tracking,
    log_event. run.
  eexists. split; [reflexivity|]. simpl. split; [|split; [|split]].
  - intros Hnone. apply map_eq. intros k.
    destruct (decide (k = tracking_key self)) as [->|Hk].
    + by rewrite lookup_alter_eq, Hnone.
    + by rewrite lookup_alter_ne.
  - intros r Hr. rewrite lookup_alter_eq, Hr. simpl.
    eexists. split; [reflexivity|]. simpl. tauto.
  - intros k Hk. by rewrite lookup_alter_ne.
  - by rewrite last_snoc.
Qed.

(** The theorem at work: the row of the hourly script holds 15. *)
Lemma update_requests_made_today_spec_witness :
  exists st' r',
    update_requests_made_today (Sample.env Sample.unreachable)
      (Sample.hourly_control 10) Sample.new_day = (Ret tt, st') /\
    api_script_tracking st' !! tracking_key (Sample.hourly_control 10)
      = Some r' /\
    requests_made_today r' = 16.
Proof.
  destruct (update_requests_made_today_spec (Sample.env Sample.unreachable)
              (Sample.hourly_control 10) Sample.new_day)
    as (st' & Hrun & _ & Hrow & _).
  destruct (Hrow Sample.stale_row) as (r' & Hr' & Hc & _); [reflexivity|].
  exists st', r'. split; [exact Hrun|]. split; [exact Hr'|exact Hc].
Defined.

(** Two tracking transitions in a row: the row holds the second status,
    reason and flag, the first status as its previous status, and the
    counter and the daily-limit flag it had before both (0 and unset for a
    row the first transition created); the rows of other keys are
    untouched. *)
Theorem tracking_transitions_chain (env : Env) (sn pf alt : string)
    (s1 s2 : text) (r1 r2 : option text) (f1 f2 : bool) (st : St) :
  exists st1 st2 row,
    insert_tracking_log env sn pf alt s1 r1 f1 st = (Ret tt, st1) /\
    insert_tracking_log env sn pf alt s2 r2 f2 st1 = (Ret tt, st2) /\
    api_script_tracking st2 !! (sn, pf, alt) = Some row /\
    status row = s2 /\
    previous_status row = Some s1 /\
    stopped_reason row = r2 /\
    force_restart row = f2 /\
    requests_made_today row = counter_of (api_script_tracking st !! (sn, pf, alt)) /\
    daily_limit_reached row =
      (api_script_tracking st !! (sn, pf, alt)) ≫= daily_limit_reached /\
    (forall k, k <> (sn, pf, alt) ->
       api_script_tracking st2 !! k = api_script_tracking st !! k).
Proof.
  assert (forall P Q : Prop, P /\ Q -> P /\ Q) as _ by tauto.
  unfold insert_tracking_log. run.
  eexists _, _, _. split; [reflexivity|]. split; [reflexivity|]. simpl.
  rewrite !lookup_insert_eq. split; [reflexivity|]. simpl.
  repeat match goal with |- _ /\ _ => split end;
    try (intros k Hk; by rewrite !lookup_insert_ne);
    by destruct (api_script_tracking st !! (sn, pf, alt)).
Qed.

(** ** The classification of a response *)

Lemma fatal_code_tests (r : response) :
  fatal_code r = true ->
  (status_code r =? 200) = false /\
  (status_code r =? 400) &&
    str_contains "out the available range" (resp_text r) = false /\
  ((status_code r =? 404) = true \/
   (status_code r =? 404) = false /\ (status_code r =? 403) = true \/
   (status_code r =? 404) = false /\ (status_code r =? 403) = false /\
   (500 <=? status_code r) = true).
Proof.
  unfold fatal_code. rewrite !andb_true_iff, !negb_true_iff, !orb_true_iff.
  intros [[T200 T400] Hcode]. split; [assumption|]. split; [assumption|].
  destruct (status_code r =? 404); [tauto|].
  destruct (status_code r =? 403); [tauto|].
  destruct Hcode as [[Hcode|Hcode]|Hcode]; try discriminate. tauto.
Qed.

(** Closes the description of the state a call leaves: its tracking row,
    its audit row and its counter. *)
Ltac call_state st :=
  simpl;
  repeat match goal with
  | |- _ /\ _ => split
  | |- audited _ _ _ _ _ => eexists; simpl; repeat split; reflexivity
  | |- exists reason, tracked _ _ _ (Some reason) _ => eexists
  | |- tracked _ _ _ _ _ =>
      unfold tracked, engine_key, tracking_key, Daily.engine, Hourly.engine;
      simpl; eexists;
      rewrite ?lookup_alter_eq, ?lookup_insert_eq; simpl;
      split; [reflexivity|];
      destruct (api_script_tracking st !! _); simpl; auto
  | |- counted_once _ _ _ =>
      unfold counted_once, engine_key, tracking_key, Daily.engine,
        Hourly.engine;
      simpl; rewrite ?lookup_alter_eq, ?lookup_insert_eq; simpl;
      destruct (api_script_tracking st !! _); reflexivity
  | |- _ = _ => reflexivity
  end.

Ltac enter_daily_call Hp :=
  unfold Daily.call_openweather_api, get_api_prototype; run_engine;
  rewrite Hp; simpl;
  change (seqZ 0 Daily.max_retries) with [0; 1; 2];
  unfold Daily.attempts_loop, Daily.attempt_call; run_engine.

Ltac enter_hourly_call Hp :=
  unfold Hourly.call_openweather_api, get_api_prototype; run_engine;
  rewrite Hp; simpl.

Lemma is_request_exception (e : exn) :
  exn_cls e = RequestException -> except_class RequestException e = true.
Proof. unfold except_class. by intros ->. Qed.

(** A response 404, 403 or 5xx ends the run in both engines: the call
    writes the audit row of the request, sets the tracking row to
    stopped-err with the force-restart flag, counts the call once and
    exits with status 1; nothing is stored. In the daily engine this holds
    on every attempt: when [k] transport errors came before the response
    (k = 0, 1 or 2), the call has sent k + 1 requests and the audit row
    shows the retry count k. The hourly engine sends its one request. *)
Theorem fatal_response_ends_run (env : Env) (st : St) (path : string * Z)
    (limit total idx ts : Z) (date : string) (pd ph : string) (r : response) :
  find_prototype "OpenWeather" "Daily Aggregation" (api_call_types st)
    = Some pd ->
  find_prototype "OpenWeather" "Weather Data for Timestamp"
    (api_call_types st) = Some ph ->
  fatal_code r = true ->
  (forall k : nat,
     (k < 3)%nat ->
     (forall i, (i < k)%nat ->
        exists e, remote env (sent st + i)%nat = Failed e /\
                  exn_cls e = RequestException) ->
     remote env (sent st + k)%nat = Responded r ->
     exists st' id,
       Daily.call_openweather_api env (Daily.engine path limit) date total
         idx st = (Exit 1, st') /\
       sent st' = (sent st + k + 1)%nat /\
       audited st st' (status_code r) (Z.of_nat k) id /\
       (exists reason,
          tracked st' (Daily.engine path limit) [FStr "stopped-err"]
            (Some reason) true) /\
       counted_once st st' (Daily.engine path limit) /\
       daily_summary_data st' = daily_summary_data st) /\
  (remote env (sent st) = Responded r ->
   exists st' id,
     Hourly.call_openweather_api env (Hourly.engine path limit) ts total idx
       st = (Exit 1, st') /\
     sent st' = S (sent st) /\
     audited st st' (status_code r) 0 id /\
     (exists reason,
        tracked st' (Hourly.engine path limit) [FStr "stopped-err"]
          (Some reason) true) /\
     counted_once st st' (Hourly.engine path limit) /\
     hourly_data st' = hourly_data st).
Proof.
  intros Hpd Hph Hfatal.
  apply fatal_code_tests in Hfatal as (T200 & T400 & Hcode).
  split.
  - intros k Hk Hfail Hr.
    assert (forall i, (i < k)%nat ->
              exists e, remote env (sent st + i)%nat = Failed e /\
                        except_class RequestException e = true) as Hfail'.
    { intros i Hi. destruct (Hfail i Hi) as (e & He & Hc).
      exists e. split; [exact He|by apply is_request_exception]. }
    clear Hfail.
    destruct k as [|[|[|k]]]; [| | |lia].
    + rewrite Nat.add_0_r in Hr.
      enter_daily_call Hpd. rewrite Hr. simpl. rewrite T200, T400. simpl.
      destruct Hcode as [T404|[[T404 T403]|(T404 & T403 & T500)]];
        rewrite ?T404, ?T403, ?T500; simpl;
        eexists _, _; (split; [reflexivity|]); call_state st; lia.
    + destruct (Hfail' 0%nat) as (e0 & F0 & C0); [lia|].
      rewrite Nat.add_0_r in F0. rewrite Nat.add_1_r in Hr.
      enter_daily_call Hpd. rewrite F0. simpl. unfold except_class in C0.
      rewrite C0. simpl. rewrite Hr. simpl. rewrite T200, T400. simpl.
      destruct Hcode as [T404|[[T404 T403]|(T404 & T403 & T500)]];
        rewrite ?T404, ?T403, ?T500; simpl;
        eexists _, _; (split; [reflexivity|]); call_state st; lia.
    + destruct (Hfail' 0%nat) as (e0 & F0 & C0); [lia|].
      destruct (Hfail' 1%nat) as (e1 & F1 & C1); [lia|].
      rewrite Nat.add_0_r in F0. rewrite Nat.add_1_r in F1.
      replace (sent st + 2)%nat with (S (S (sent st))) in Hr by lia.
      enter_daily_call Hpd. rewrite F0. simpl. unfold except_class in C0, C1.
      rewrite C0. simpl. rewrite F1. simpl. rewrite C1. simpl.
      rewrite Hr. simpl. rewrite T200, T400. simpl.
      destruct Hcode as [T404|[[T404 T403]|(T404 & T403 & T500)]];
        rewrite ?T404, ?T403, ?T500; simpl;
        eexists _, _; (split; [reflexivity|]); call_state st; lia.
  - intros Hr.
    enter_hourly_call Hph. rewrite Hr. simpl. rewrite T200, T400. simpl.
    destruct Hcode as [T404|[[T404 T403]|(T404 & T403 & T500)]];
      rewrite ?T404, ?T403, ?T500; simpl;
      eexists _, _; (split; [reflexivity|]); call_state st.
Qed.

(** The theorem at work: the remote source answers 403 to the first
    request, and to the second after a timeout. *)
Lemma fatal_response_ends_run_witness :
  fst (Daily.call_openweather_api
         (Sample.env (Sample.answering 403 "Forbidden" JNull))
         (Daily.engine ("day_summary", 0) 1000) "2023-06-01" 2 0
         Sample.fresh) = Exit 1 /\
  (exists st',
     Daily.call_openweather_api (Sample.env More.forbidden_after_timeout)
       (Daily.engine ("day_summary", 0) 1000) "2023-06-01" 2 0
       Sample.fresh = (Exit 1, st') /\
     sent st' = 2%nat /\
     retry_count <$> api_calls st' = [1]) /\
  fst (Hourly.call_openweather_api
         (Sample.env (Sample.answering 403 "Forbidden" JNull))
         (Hourly.engine ("day_summary", 0) 1000) 1685577600 2 0
         Sample.fresh) = Exit 1.
Proof.
  split; [|split].
  - destruct (fatal_response_ends_run
                (Sample.env (Sample.answering 403 "Forbidden" JNull))
                Sample.fresh ("day_summary", 0) 1000 2 0 1685577600
                "2023-06-01" More.daily_prototype More.hourly_prototype
                {| status_code := 403; resp_text := "Forbidden";
                   resp_json := Ok JNull |} eq_refl eq_refl eq_refl)
      as [Hd _].
    destruct (Hd 0%nat) as (sd & id & Hrun & _);
      [lia | intros i Hi; lia | reflexivity |].
    by rewrite Hrun.
  - destruct (fatal_response_ends_run
                (Sample.env More.forbidden_after_timeout)
                Sample.fresh ("day_summary", 0) 1000 2 0 1685577600
                "2023-06-01" More.daily_prototype More.hourly_prototype
                {| status_code := 403; resp_text := "Forbidden";
                   resp_json := Ok JNull |} eq_refl eq_refl eq_refl)
      as [Hd _].
    destruct (Hd 1%nat) as (sd & id & Hrun & Hsent & (c & Hcalls & _ & Hrc & _) & _);
      [lia | | reflexivity |].
    { intros i Hi. assert (i = 0%nat) as -> by lia.
      eexists. split; reflexivity. }
    exists sd. split; [exact Hrun|]. split; [exact Hsent|].
    rewrite Hcalls. simpl. by rewrite Hrc.
  - destruct (fatal_response_ends_run
                (Sample.env (Sample.answering 403 "Forbidden" JNull))
                Sample.fresh ("day_summary", 0) 1000 2 0 1685577600
                "2023-06-01" More.daily_prototype More.hourly_prototype
                {| status_code := 403; resp_text := "Forbidden";
                   resp_json := Ok JNull |} eq_refl eq_refl eq_refl)
      as [_ Hh].
    destruct (Hh eq_refl) as (sh & ih & Hrun & _). by rewrite Hrun.
Defined.

(** The first request of a call is answered 200 with a body that decodes,
    in both engines: the call has sent that one request, writes its audit
    row with retry count 0, sets the tracking row to the progress label
    without reason or force-restart flag, counts the call once, and
    returns the decoded body with the id of the audit row; no failure is
    counted. *)
Theorem success_response_returns_body (env : Env) (st : St)
    (path : string * Z) (limit total idx ts : Z) (date : string)
    (pd ph : string) (r : response) (body : json) :
  find_prototype "OpenWeather" "Daily Aggregation" (api_call_types st)
    = Some pd ->
  find_prototype "OpenWeather" "Weather Data for Timestamp"
    (api_call_types st) = Some ph ->
  remote env (sent st) = Responded r ->
  status_code r = 200 ->
  resp_json r = Ok body ->
  (exists st' id,
     Daily.call_openweather_api env (Daily.engine path limit) date total idx
       st = (Ret (Some (Some body, id)), st') /\
     sent st' = S (sent st) /\
     audited st st' 200 0 id /\
     tracked st' (Daily.engine path limit)
       [FStr "Processing: "; FInt idx; FStr " of "; FInt total] None false /\
     counted_once st st' (Daily.engine path limit) /\
     failed_requests st' = failed_requests st /\
     daily_summary_data st' = daily_summary_data st) /\
  (exists st' id,
     Hourly.call_openweather_api env (Hourly.engine path limit) ts total idx
       st = (Ret (Some body, id), st') /\
     sent st' = S (sent st) /\
     audited st st' 200 0 id /\
     tracked st' (Hourly.engine path limit)
       [FStr "Processing: "; FInt idx; FStr " of "; FInt total] None false /\
     counted_once st st' (Hourly.engine path limit) /\
     failed_requests st' = failed_requests st /\
     hourly_data st' = hourly_data st).
Proof.
  intros Hpd Hph Hr H200 Hbody. split.
  - enter_daily_call Hpd. rewrite Hr. simpl. rewrite H200, Hbody. simpl.
    eexists _, _; (split; [reflexivity|]); call_state st.
  - enter_hourly_call Hph. rewrite Hr. simpl. rewrite H200, Hbody. simpl.
    eexists _, _; (split; [reflexivity|]); call_state st.
Qed.

(** The theorem at work: the remote source answers 200 with a body. *)
Lemma success_response_returns_body_witness :
  (exists id,
     fst (Daily.call_openweather_api
            (Sample.env (Sample.answering 200 "" Sample.summary_null_temperature))
            (Daily.engine ("day_summary", 0) 1000) "2023-06-01" 2 0
            Sample.fresh)
       = Ret (Some (Some Sample.summary_null_temperature, id))) /\
  (exists id,
     fst (Hourly.call_openweather_api
            (Sample.env (Sample.answering 200 "" Sample.summary_null_temperature))
            (Hourly.engine ("day_summary", 0) 1000) 1685577600 2 0
            Sample.fresh)
       = Ret (Some Sample.summary_null_temperature, id)).
Proof.
  destruct (success_response_returns_body
              (Sample.env (Sample.answering 200 "" Sample.summary_null_temperature))
              Sample.fresh ("day_summary", 0) 1000 2 0 1685577600
              "2023-06-01"
              "https://api.openweathermap.org/data/3.0/onecall/day_summary?lat={lat}&lon={lon}&date={date}&appid={API_key}"
              "https://api.openweathermap.org/data/3.0/onecall/timemachine?lat={lat}&lon={lon}&dt={time}&appid={API_key}"
              {| status_code := 200; resp_text := "";
                 resp_json := Ok Sample.summary_null_temperature |}
              Sample.summary_null_temperature)
    as ((sd & id & Hd & _) & (sh & ih & Hh & _)); try reflexivity.
  split; [exists id; rewrite Hd|exists ih; rewrite Hh]; reflexivity.
Defined.

Lemma invalid_date_tests (r : response) :
  invalid_date r = true ->
  (status_code r =? 200) = false /\
  (status_code r =? 400) &&
    str_contains "out the available range" (resp_text r) = true.
Proof.
  unfold invalid_date. intros H. split; [|exact H].
  apply andb_true_iff in H as [H _]. apply Z.eqb_eq in H. rewrite H.
  reflexivity.
Qed.

(** The answer 400 "date out of range" in both engines: the call returns
    no data with the id of its audit row, counts one failed request, sets
    the tracking row to Processing with the reason and without the
    force-restart flag, and counts the call; the loop body then returns, so
    the run goes on with the next key. *)
Theorem invalid_date_is_skipped (env : Env) (st : St) (path : string * Z)
    (limit total idx ts : Z) (date : string) (pd ph : string) (r : response) :
  find_prototype "OpenWeather" "Daily Aggregation" (api_call_types st)
    = Some pd ->
  find_prototype "OpenWeather" "Weather Data for Timestamp"
    (api_call_types st) = Some ph ->
  remote env (sent st) = Responded r ->
  invalid_date r = true ->
  (exists st' id,
     Daily.call_openweather_api env (Daily.engine path limit) date total idx
       st = (Ret (Some (None, id)), st') /\
     Daily.fetch_validate_store env (Daily.engine path limit) total idx date
       st = (Ret tt, set_batch_call_requests (batch_call_requests st + 1) st') /\
     sent st' = S (sent st) /\
     audited st st' (status_code r) 0 id /\
     tracked st' (Daily.engine path limit) [FStr "Processing"]
       (Some [FStr "API Error: call failed with status ";
              FInt (status_code r); FStr ": Invalid date"]) false /\
     counted_once st st' (Daily.engine path limit) /\
     failed_requests st' = failed_requests st + 1 /\
     daily_summary_data st' = daily_summary_data st) /\
  (exists st' id,
     Hourly.call_openweather_api env (Hourly.engine path limit) ts total idx
       st = (Ret (None, id), st') /\
     Hourly.fetch_validate_store env (Hourly.engine path limit) total idx ts
       st = (Ret tt, set_batch_call_requests (batch_call_requests st + 1) st') /\
     sent st' = S (sent st) /\
     audited st st' (status_code r) 0 id /\
     tracked st' (Hourly.engine path limit) [FStr "Processing"]
       (Some [FStr "API Error: call failed with status ";
              FInt (status_code r); FStr ": Invalid date"]) false /\
     counted_once st st' (Hourly.engine path limit) /\
     failed_requests st' = failed_requests st + 1 /\
     hourly_data st' = hourly_data st).
Proof.
  intros Hpd Hph Hr Hinv.
  apply invalid_date_tests in Hinv as (T200 & T400). split.
  - assert (exists st' id,
      Daily.call_openweather_api env (Daily.engine path limit) date total idx
        st = (Ret (Some (None, id)), st') /\
      batch_call_requests st' = batch_call_requests st /\
      sent st' = S (sent st) /\
      audited st st' (status_code r) 0 id /\
      tracked st' (Daily.engine path limit) [FStr "Processing"]
        (Some [FStr "API Error: call failed with status ";
               FInt (status_code r); FStr ": Invalid date"]) false /\
      counted_once st st' (Daily.engine path limit) /\
      failed_requests st' = failed_requests st + 1 /\
      daily_summary_data st' = daily_summary_data st)
      as (st' & id & Hcall & Hb & Hrest).
    { enter_daily_call Hpd. rewrite Hr. simpl. rewrite T200, T400. simpl.
      eexists _, _; (split; [reflexivity|]); call_state st. }
    exists st', id. split; [exact Hcall|]. split; [|exact Hrest].
    unfold Daily.fetch_validate_store, bind. rewrite Hcall. simpl.
    unfold add_batch_call_request. run. by rewrite Hb.
  - assert (exists st' id,
      Hourly.call_openweather_api env (Hourly.engine path limit) ts total idx
        st = (Ret (None, id), st') /\
      batch_call_requests st' = batch_call_requests st /\
      sent st' = S (sent st) /\
      audited st st' (status_code r) 0 id /\
      tracked st' (Hourly.engine path limit) [FStr "Processing"]
        (Some [FStr "API Error: call failed with status ";
               FInt (status_code r); FStr ": Invalid date"]) false /\
      counted_once st st' (Hourly.engine path limit) /\
      failed_requests st' = failed_requests st + 1 /\
      hourly_data st' = hourly_data st)
      as (st' & id & Hcall & Hb & Hrest).
    { enter_hourly_call Hph. rewrite Hr. simpl. rewrite T200, T400. simpl.
      eexists _, _; (split; [reflexivity|]); call_state st. }
    exists st', id. split; [exact Hcall|]. split; [|exact Hrest].
    unfold Hourly.fetch_validate_store, bind. rewrite Hcall. simpl.
    unfold add_batch_call_request. run. by rewrite Hb.
Qed.

(** The theorem at work: the remote source answers 400 with the message of
    a date out of range. *)
Lemma invalid_date_is_skipped_witness :
  fst (Daily.fetch_validate_store
         (Sample.env (Sample.answering 400
            "requested date is out the available range" JNull))
         (Daily.engine ("day_summary", 0) 1000) 2 0 "2023-06-01"
         Sample.fresh) = Ret tt /\
  fst (Hourly.fetch_validate_store
         (Sample.env (Sample.answering 400
            "requested date is out the available range" JNull))
         (Hourly.engine ("day_summary", 0) 1000) 2 0 1685577600
         Sample.fresh) = Ret tt.
Proof.
  destruct (invalid_date_is_skipped
              (Sample.env (Sample.answering 400
                 "requested date is out the available range" JNull))
              Sample.fresh ("day_summary", 0) 1000 2 0 1685577600
              "2023-06-01"
              "https://api.openweathermap.org/data/3.0/onecall/day_summary?lat={lat}&lon={lon}&date={date}&appid={API_key}"
              "https://api.openweathermap.org/data/3.0/onecall/timemachine?lat={lat}&lon={lon}&dt={time}&appid={API_key}"
              {| status_code := 400;
                 resp_text := "requested date is out the available range";
                 resp_json := Ok JNull |})
    as ((sd & id & _ & Hd & _) & (sh & ih & _ & Hh & _)); try reflexivity.
  split; [rewrite Hd|rewrite Hh]; reflexivity.
Defined.

(** Without a request template for its call type, an engine sends no
    request: [get_api_prototype] raises, and the call ends the run with
    exit status 1 after setting the tracking row to stopped-err with the
    force-restart flag; the call audit is left as it is. *)
Theorem missing_prototype_ends_run (env : Env) (st : St) (self : Engine)
    (total idx ts : Z) (date : string) :
  let e := mk_exn ValueError
             ("No API prototype found for " ++ platform (control self) ++
              " - " ++ api_call_type self) in
  find_prototype (platform (control self)) (api_call_type self)
    (api_call_types st) = None ->
  (exists st',
     get_api_prototype env (platform (control self)) (api_call_type self) st
       = (Raise e, st') /\
     length (log_file st') = S (length (log_file st))) /\
  (exists st',
     Daily.call_openweather_api env self date total idx st = (Exit 1, st') /\
     sent st' = sent st /\
     api_calls st' = api_calls st /\
     tracked st' self [FStr "stopped-err"]
       (Some [FStr "API Error: "; FExn e]) true) /\
  (exists st',
     Hourly.call_openweather_api env self ts total idx st = (Exit 1, st') /\
     sent st' = sent st /\
     api_calls st' = api_calls st /\
     tracked st' self [FStr "stopped-err"]
       (Some [FStr "API Error: "; FExn e]) true).
Proof.
  intros e Hnone. split; [|split].
  - unfold get_api_prototype, log_event. run. rewrite Hnone. simpl.
    eexists. split; [reflexivity|]. simpl. rewrite length_app. simpl. lia.
  - unfold Daily.call_openweather_api, get_api_prototype. run_engine.
    rewrite Hnone. simpl.
    eexists; (split; [reflexivity|]); call_state st.
  - unfold Hourly.call_openweather_api, get_api_prototype. run_engine.
    rewrite Hnone. simpl.
    eexists; (split; [reflexivity|]); call_state st.
Qed.

(** The theorem at work: the table of call types is empty. *)
Lemma missing_prototype_ends_run_witness :
  fst (Daily.call_openweather_api (Sample.env Sample.unreachable)
         (Daily.engine ("day_summary", 0) 1000) "2023-06-01" 2 0
         More.no_types) = Exit 1 /\
  sent (snd (Daily.call_openweather_api (Sample.env Sample.unreachable)
               (Daily.engine ("day_summary", 0) 1000) "2023-06-01" 2 0
               More.no_types)) = 0%nat.
Proof.
  destruct (missing_prototype_ends_run (Sample.env Sample.unreachable)
              More.no_types (Daily.engine ("day_summary", 0) 1000) 2 0 0
              "2023-06-01")
    as (_ & (sd & Hd & Hs & _) & _); [reflexivity|].
  rewrite Hd. split; [reflexivity|exact Hs].
Defined.

Lemma not_request_exception (e : exn) :
  exn_cls e <> RequestException ->
  exn_class_eqb (exn_cls e) RequestException = false.
Proof. destruct (exn_cls e); intros H; try reflexivity. by destruct H. Qed.

(** In the daily engine the audit row of a call shows how many attempts
    failed before the one that got the response: after one transport error
    the second request is sent and its row has retry count 1, after two the
    third request is sent and its row has retry count 2. When that
    response is a 200 whose body decodes, the call returns the body and
    has counted the call once. *)
Theorem retry_count_is_recorded (env1 env2 : Env) (st : St)
    (path : string * Z) (limit total idx : Z) (date : string) (pd : string)
    (e1 e2 e2' : exn) (r1 r2 : response) (b1 b2 : json) :
  find_prototype "OpenWeather" "Daily Aggregation" (api_call_types st)
    = Some pd ->
  remote env1 (sent st) = Failed e1 -> exn_cls e1 = RequestException ->
  remote env1 (S (sent st)) = Responded r1 -> status_code r1 = 200 ->
  resp_json r1 = Ok b1 ->
  remote env2 (sent st) = Failed e2 -> exn_cls e2 = RequestException ->
  remote env2 (S (sent st)) = Failed e2' -> exn_cls e2' = RequestException ->
  remote env2 (S (S (sent st))) = Responded r2 -> status_code r2 = 200 ->
  resp_json r2 = Ok b2 ->
  (exists st' id,
     Daily.call_openweather_api env1 (Daily.engine path limit) date total idx
       st = (Ret (Some (Some b1, id)), st') /\
     sent st' = S (S (sent st)) /\
     audited st st' 200 1 id /\
     counted_once st st' (Daily.engine path limit)) /\
  (exists st' id,
     Daily.call_openweather_api env2 (Daily.engine path limit) date total idx
       st = (Ret (Some (Some b2, id)), st') /\
     sent st' = S (S (S (sent st))) /\
     audited st st' 200 2 id /\
     counted_once st st' (Daily.engine path limit)).
Proof.
  intros Hpd F1 C1 R1 K1 B1 F2 C2 F2' C2' R2 K2 B2. split.
  - enter_daily_call Hpd. rewrite F1. simpl. rewrite C1. simpl.
    rewrite R1. simpl. rewrite K1, B1. simpl.
    eexists _, _; (split; [reflexivity|]); call_state st.
  - enter_daily_call Hpd. rewrite F2. simpl. rewrite C2. simpl.
    rewrite F2'. simpl. rewrite C2'. simpl.
    rewrite R2. simpl. rewrite K2, B2. simpl.
    eexists _, _; (split; [reflexivity|]); call_state st.
Qed.

(** An exception of the request that is not a transport error is not
    retried by the daily engine: after one request the call ends the run
    with exit status 1, the tracking row at stopped-err with the
    force-restart flag. *)
Theorem other_exception_ends_run (env : Env) (st : St) (path : string * Z)
    (limit total idx : Z) (date : string) (pd : string) (e : exn) :
  find_prototype "OpenWeather" "Daily Aggregation" (api_call_types st)
    = Some pd ->
  remote env (sent st) = Failed e ->
  exn_cls e <> RequestException ->
  exists st',
    Daily.call_openweather_api env (Daily.engine path limit) date total idx
      st = (Exit 1, st') /\
    sent st' = S (sent st) /\
    api_calls st' = api_calls st /\
    tracked st' (Daily.engine path limit) [FStr "stopped-err"]
      (Some [FStr "API Error: "; FExn e]) true /\
    counted_once st st' (Daily.engine path limit).
Proof.
  intros Hpd Hf Hc. apply not_request_exception in Hc.
  enter_daily_call Hpd. rewrite Hf. simpl. rewrite Hc. simpl.
  eexists; (split; [reflexivity|]); call_state st.
Qed.

(** The theorem at work: the first request, and the first two requests,
    time out. *)
Lemma retry_count_is_recorded_witness :
  (retry_count <$>
     api_calls (snd (Daily.call_openweather_api
                       (Sample.env (More.timing_out_first 1))
                       (Daily.engine ("day_summary", 0) 1000) "2023-06-01"
                       2 0 Sample.fresh))) = [1] /\
  (retry_count <$>
     api_calls (snd (Daily.call_openweather_api
                       (Sample.env (More.timing_out_first 2))
                       (Daily.engine ("day_summary", 0) 1000) "2023-06-01"
                       2 0 Sample.fresh))) = [2].
Proof.
  destruct (retry_count_is_recorded
              (Sample.env (More.timing_out_first 1))
              (Sample.env (More.timing_out_first 2))
              Sample.fresh ("day_summary", 0) 1000 2 0 "2023-06-01"
              More.daily_prototype
              (mk_exn RequestException "Connection timed out")
              (mk_exn RequestException "Connection timed out")
              (mk_exn RequestException "Connection timed out")
              {| status_code := 200; resp_text := "{}";
                 resp_json := Ok (JObj []) |}
              {| status_code := 200; resp_text := "{}";
                 resp_json := Ok (JObj []) |}
              (JObj []) (JObj []))
    as ((s1 & i1 & H1 & _ & (c1 & Ha1 & _ & Hr1 & _) & _)
        & (s2 & i2 & H2 & _ & (c2 & Ha2 & _ & Hr2 & _) & _));
    try reflexivity.
  rewrite H1, H2. simpl. rewrite Ha1, Ha2. simpl. by rewrite Hr1, Hr2.
Defined.

(** The theorem at work: the request fails with a [ValueError]. *)
Lemma other_exception_ends_run_witness :
  fst (Daily.call_openweather_api (Sample.env More.broken_request)
         (Daily.engine ("day_summary", 0) 1000) "2023-06-01" 2 0
         Sample.fresh) = Exit 1 /\
  sent (snd (Daily.call_openweather_api (Sample.env More.broken_request)
               (Daily.engine ("day_summary", 0) 1000) "2023-06-01" 2 0
               Sample.fresh)) = 1%nat.
Proof.
  destruct (other_exception_ends_run (Sample.env More.broken_request)
              Sample.fresh ("day_summary", 0) 1000 2 0 "2023-06-01"
              More.daily_prototype
              (mk_exn ValueError "check_hostname requires server_hostname"))
    as (st' & Hrun & Hs & _); [reflexivity | reflexivity | discriminate |].
  rewrite Hrun. split; [reflexivity|exact Hs].
Defined.

(** ** Every outcome of a call *)

Ltac split_tests :=
  repeat match goal with
         | |- context [if ?c then _ else _] => destruct c eqn:?; simpl
         end.

(** Closes a statement on the persisted counter of an engine's row. *)
Ltac call_counted st :=
  unfold counted, counted_once, engine_key, tracking_key, Daily.engine,
    Hourly.engine;
  simpl; rewrite ?lookup_alter_eq, ?lookup_insert_eq; simpl;
  rewrite ?lookup_alter_eq, ?lookup_insert_eq; simpl;
  destruct (api_script_tracking st !! _); simpl; lia.

(** The outcomes of a call of the hourly engine, for every answer or
    exception its request gets. The call returns a pair or exits with
    status 1: the last handler turns every exception into that exit. It
    sends at most one request. It adds one to the persisted counter of its
    row, or two when the answer is a 200 whose body does not decode: that
    answer is counted in the branch of the 200 and once more by the
    handler that takes the exception of the decoding. *)
Theorem hourly_call_outcomes (env : Env) (self : Engine)
    (ts total idx : Z) (st : St) :
  let twice :=
    match find_prototype (platform (control self)) (api_call_type self)
            (api_call_types st) with
    | Some _ => undecodable (remote env (sent st))
    | None => false
    end in
  exists o st',
    Hourly.call_openweather_api env self ts total idx st = (o, st') /\
    ((exists p, o = Ret p) \/ o = Exit 1) /\
    (twice = true -> o = Exit 1) /\
    (sent st' <= S (sent st))%nat /\
    counted (if twice then 2 else 1) st st' self.
Proof.
  unfold Hourly.call_openweather_api, get_api_prototype. run_engine.
  destruct (find_prototype _ _ _) as [p|]; simpl.
  - destruct (remote env (sent st)) as [r|e]; simpl.
    + destruct (status_code r =? 200) eqn:T200; simpl.
      * destruct (resp_json r) as [body|e]; simpl;
          (eexists _, _; split; [reflexivity|]; split; [eauto|];
           split; [try discriminate; auto|];
           split; [simpl; lia|call_counted st]).
      * split_tests;
          (eexists _, _; split; [reflexivity|]; split; [eauto|];
           split; [discriminate|];
           split; [simpl; lia|call_counted st]).
    + eexists _, _; split; [reflexivity|]; split; [eauto|];
        split; [discriminate|]; split; [simpl; lia|call_counted st].
  - eexists _, _; split; [reflexivity|]; split; [eauto|];
      split; [discriminate|]; split; [simpl; lia|call_counted st].
Qed.

Lemma critical_failure_exits {A} (env : Env) (self : Engine) (e : exn)
    (st : St) :
  exists st',
    @critical_failure A env self e st = (Exit 1, st') /\
    counted_once st st' self /\
    sent st' = sent st.
Proof.
  run_engine. eexists. split; [reflexivity|]. split; [call_state st|reflexivity].
Qed.

(** One pass of the retry loop of the daily engine on an answer that
    decodes. *)
Lemma daily_attempt_outcomes (env : Env) (self : Engine) (date : string)
    (total idx ts : Z) (payload : request) (attempt rc : Z) (st : St) :
  undecodable (remote env (sent st)) = false ->
  exists o st',
    Daily.attempt_call env self date total idx ts payload attempt rc st
      = (o, st') /\
    sent st' = S (sent st) /\
    ((exists rc', o = Ret (Daily.Next rc') /\
        api_script_tracking st' = api_script_tracking st /\
        failed_requests st' = failed_requests st) \/
     (exists e, o = Raise e /\
        api_script_tracking st' = api_script_tracking st) \/
     (((exists w i, o = Ret (Daily.Return w i)) \/ o = Exit 1) /\
      counted_once st st' self)).
Proof.
  unfold Daily.attempt_call, undecodable. run_engine.
  destruct (remote env (sent st)) as [r|e]; simpl.
  - destruct (status_code r =? 200) eqn:T200; simpl.
    + destruct (resp_json r) as [body|e]; [|discriminate]. intros _. simpl.
      eexists _, _; split; [reflexivity|]; split; [reflexivity|].
      right; right; split; [eauto|call_state st].
    + intros _. split_tests;
        (eexists _, _; split; [reflexivity|]; split; [reflexivity|];
         first [ left; eexists; repeat split; reflexivity
               | right; right; split; [eauto|call_state st] ]).
  - intros _. split_tests;
      (eexists _, _; split; [reflexivity|]; split; [reflexivity|];
       first [ left; eexists; repeat split; reflexivity
             | right; left; eexists; split; reflexivity
             | right; right; split; [eauto|call_state st] ]).
Qed.

Lemma counted_once_after (st st1 st' : St) (self : Engine) :
  api_script_tracking st1 = api_script_tracking st ->
  counted_once st1 st' self -> counted_once st st' self.
Proof. unfold counted_once. by intros ->. Qed.

Lemma daily_loop_outcomes (env : Env) (self : Engine) (date : string)
    (total idx ts : Z) (payload : request) (attempts : list Z) (rc : Z)
    (st : St) :
  decodes env ->
  exists o st',
    Daily.attempts_loop env self date total idx ts payload attempts rc st
      = (o, st') /\
    ((o = Ret None /\
        api_script_tracking st' = api_script_tracking st /\
        failed_requests st' = failed_requests st) \/
     (exists e, o = Raise e /\
        api_script_tracking st' = api_script_tracking st) \/
     (((exists p, o = Ret (Some p)) \/ o = Exit 1) /\
      counted_once st st' self)).
Proof.
  intros Henv.
  revert rc st. induction attempts as [|a rest IH]; intros rc st; simpl.
  - eexists _, _. split; [reflexivity|]. left. auto.
  - destruct (daily_attempt_outcomes env self date total idx ts payload a rc
                st (Henv (sent st)))
      as (o & st1 & Hrun & _ & Hcases).
    unfold bind at 1. rewrite Hrun.
    destruct Hcases as [(rc' & -> & Ht & Hf)|[(e & -> & Ht)|[Hdone Hc]]].
    + destruct (IH rc' st1) as (o' & st' & Hloop & Hcases).
      exists o', st'. split; [exact Hloop|].
      destruct Hcases as [(-> & Ht' & Hf')|[(e & -> & Ht')|[Hdone Hc]]].
      * left. repeat split; congruence.
      * right. left. exists e. split; [reflexivity|congruence].
      * right. right. split; [exact Hdone|].
        by apply (counted_once_after st st1).
    + eexists _, _. split; [reflexivity|]. right. left. eauto.
    + destruct Hdone as [(w & i & ->)| ->];
        (eexists _, _; split; [reflexivity|]; right; right; split; eauto).
Qed.

(** The outcomes of a call of the daily engine when every answer 200 of
    the remote source carries a body that decodes. Either the call returns
    a pair or exits with status 1, and then it has added exactly one to
    the persisted counter of its row, however many requests it sent; or
    it falls out of the retry loop and returns no pair, and then it has
    left the tracking table and the failed-request counter as they were. *)
Theorem daily_call_outcomes (env : Env) (self : Engine) (date : string)
    (total idx : Z) (st : St) :
  decodes env ->
  exists o st',
    Daily.call_openweather_api env self date total idx st = (o, st') /\
    ((o = Ret None /\
        api_script_tracking st' = api_script_tracking st /\
        failed_requests st' = failed_requests st) \/
     (((exists p, o = Ret (Some p)) \/ o = Exit 1) /\
      counted_once st st' self)).
Proof.
  intros Henv.
  unfold Daily.call_openweather_api.
  generalize (seqZ 0 Daily.max_retries) as attempts. intros attempts.
  unfold get_api_prototype. run_engine.
  destruct (find_prototype _ _ _) as [p|]; simpl.
  - match goal with
    | |- context [Daily.attempts_loop ?a ?b ?c ?d ?e ?f ?g ?h ?i ?s] =>
        destruct (daily_loop_outcomes a b c d e f g h i s Henv)
          as (o & st' & Hloop & Hcases);
        rewrite Hloop
    end.
    destruct Hcases as [(-> & Ht & Hf)|[(e & -> & Ht)|[Hdone Hc]]].
    + eexists _, _. split; [reflexivity|]. left.
      split; [reflexivity|]. split; [by rewrite Ht|by rewrite Hf].
    + eexists _, _. split; [reflexivity|]. right. split; [auto|].
      apply (counted_once_after st st'); [by rewrite Ht|call_state st'].
    + destruct Hdone as [(q & ->)| ->];
        (eexists _, _; split; [reflexivity|]; right; split; [eauto|];
         eapply counted_once_after; [|exact Hc]; reflexivity).
  - eexists _, _. split; [reflexivity|]. right. split; [auto|call_state st].
Qed.

(** The theorem at work: every request times out, so no answer 200 has to
    decode; the call returns a pair after three requests and has counted
    once. *)
Lemma daily_call_outcomes_witness :
  exists p st',
    Daily.call_openweather_api (Sample.env Sample.unreachable)
      (Daily.engine ("day_summary", 0) 1000) "2023-06-01" 2 0 Sample.fresh
      = (Ret (Some p), st') /\
    counted_once Sample.fresh st' (Daily.engine ("day_summary", 0) 1000).
Proof.
  destruct (daily_call_outcomes (Sample.env Sample.unreachable)
              (Daily.engine ("day_summary", 0) 1000) "2023-06-01" 2 0
              Sample.fresh)
    as (o & st' & Hrun & Hcases); [intros k; reflexivity|].
  destruct Hcases as [(-> & _)|[[(p & ->)| ->] Hc]].
  - vm_compute in Hrun. discriminate.
  - exists p, st'. auto.
  - vm_compute in Hrun. discriminate.
Defined.


(** ** An answer 200 whose body does not decode *)

Lemma counted_trans (a b : Z) (st st1 st2 : St) (self : Engine) :
  counted a st st1 self -> counted b st1 st2 self ->
  counted (a + b) st st2 self.
Proof. unfold counted. lia. Qed.

Lemma counted_frame (n : Z) (st st0 st' : St) (self : Engine) :
  api_script_tracking st0 = api_script_tracking st ->
  counted n st0 st' self -> counted n st st' self.
Proof. unfold counted. by intros ->. Qed.

(** One pass of the retry loop of the daily engine on an answer 200 whose
    decoding raises a [RequestException]: the answer is audited and
    counted, then the handler of the loop takes the exception. *)
Lemma daily_attempt_undecodable (env : Env) (self : Engine) (date : string)
    (total idx ts : Z) (payload : request) (attempt rc : Z) (st : St)
    (r : response) (e : exn) :
  remote env (sent st) = Responded r -> status_code r = 200 ->
  resp_json r = Err e -> exn_cls e = RequestException ->
  exists o st1 c,
    Daily.attempt_call env self date total idx ts payload attempt rc st
      = (o, st1) /\
    sent st1 = S (sent st) /\
    api_calls st1 = (api_calls st ++ [c])%list /\
    response_code c = 200 /\ retry_count c = rc /\
    if attempt <? Daily.max_retries - 1
    then o = Ret (Daily.Next (rc + 1)) /\ counted 1 st st1 self
    else o = Ret (Daily.Return None None) /\ counted 2 st st1 self /\
         tracked st1 self [FStr "Processing"]
           (Some [FStr "Error fetching data after "; FInt Daily.max_retries;
                  FStr " attempts. Skipping this date: "; FStr date]) true.
Proof.
  intros Hr H200 Hbody Hc.
  unfold Daily.attempt_call. run_engine.
  rewrite Hr. simpl. rewrite H200, Hbody. simpl. rewrite Hc. simpl.
  destruct (attempt <? Daily.max_retries - 1); simpl.
  - eexists _, _, _. split; [reflexivity|]. simpl.
    do 5 (split; [reflexivity|]).
    unfold counted, engine_key, tracking_key. simpl.
    rewrite ?lookup_alter_eq, ?lookup_insert_eq. simpl.
    destruct (api_script_tracking st !! _); simpl; lia.
  - eexists _, _, _. split; [reflexivity|]. simpl.
    do 5 (split; [reflexivity|]). split.
    + unfold counted, engine_key, tracking_key. simpl.
      rewrite ?lookup_alter_eq, ?lookup_insert_eq. simpl.
      rewrite ?lookup_alter_eq, ?lookup_insert_eq. simpl.
      destruct (api_script_tracking st !! _); simpl; lia.
    + unfold tracked, engine_key, tracking_key. simpl.
      rewrite ?lookup_alter_eq, ?lookup_insert_eq. simpl.
      eexists. split; [reflexivity|].
      destruct (api_script_tracking st !! _); simpl; auto.
Qed.

(** With a request template, a call of the daily engine is its retry loop,
    started after one log entry and two readings of the clock; what the
    loop returns, the call returns. *)
Lemma daily_call_enters_loop (env : Env) (self : Engine) (date : string)
    (total idx : Z) (st : St) (p : string) :
  find_prototype (platform (control self)) (api_call_type self)
    (api_call_types st) = Some p ->
  exists st0 t payload,
    sent st0 = sent st /\
    api_calls st0 = api_calls st /\
    api_script_tracking st0 = api_script_tracking st /\
    forall x st',
      Daily.attempts_loop env self date total idx t payload [0; 1; 2] 0 st0
        = (Ret x, st') ->
      Daily.call_openweather_api env self date total idx st = (Ret x, st').
Proof.
  intros Hp. eexists _, _, _. split; [|split; [|split]]; cycle 3.
  - intros x st' Hloop.
    unfold Daily.call_openweather_api, get_api_prototype, log_event,
      try_except, bind, gets, ret, now, modify.
    rewrite Hp. cbn -[Daily.attempts_loop seqZ].
    change (seqZ 0 Daily.max_retries) with [0; 1; 2].
    rewrite Hloop. reflexivity.
  - reflexivity.
  - reflexivity.
  - reflexivity.
Qed.

Lemma hourly_undecodable (env : Env) (st : St) (path : string * Z)
    (limit total idx ts : Z) (ph : string) (r : response) (e : exn) :
  find_prototype "OpenWeather" "Weather Data for Timestamp"
    (api_call_types st) = Some ph ->
  remote env (sent st) = Responded r -> status_code r = 200 ->
  resp_json r = Err e ->
  exists st' id,
    Hourly.call_openweather_api env (Hourly.engine path limit) ts total
      idx st = (Exit 1, st') /\
    sent st' = S (sent st) /\
    audited st st' 200 0 id /\
    tracked st' (Hourly.engine path limit) [FStr "stopped-err"]
      (Some [FStr "API Error: "; FExn e]) true /\
    counted 2 st st' (Hourly.engine path limit).
Proof.
  intros Hph Hr H200 Hbody.
  enter_hourly_call Hph. rewrite Hr. simpl. rewrite H200, Hbody. simpl.
  eexists _, _; (split; [reflexivity|]).
  split; [reflexivity|]. split; [call_state st|].
  split; [call_state st|call_counted st].
Qed.

Lemma daily_undecodable_other (env : Env) (st : St) (path : string * Z)
    (limit total idx : Z) (date : string) (pd : string) (r : response)
    (e : exn) :
  find_prototype "OpenWeather" "Daily Aggregation" (api_call_types st)
    = Some pd ->
  remote env (sent st) = Responded r -> status_code r = 200 ->
  resp_json r = Err e -> exn_cls e <> RequestException ->
  exists st' id,
    Daily.call_openweather_api env (Daily.engine path limit) date total
      idx st = (Exit 1, st') /\
    sent st' = S (sent st) /\
    audited st st' 200 0 id /\
    tracked st' (Daily.engine path limit) [FStr "stopped-err"]
      (Some [FStr "API Error: "; FExn e]) true /\
    counted 2 st st' (Daily.engine path limit).
Proof.
  intros Hpd Hr H200 Hbody Hc. apply not_request_exception in Hc.
  enter_daily_call Hpd. rewrite Hr. simpl. rewrite H200, Hbody. simpl.
  rewrite Hc. simpl.
  eexists _, _; (split; [reflexivity|]).
  split; [reflexivity|]. split; [call_state st|].
  split; [call_state st|call_counted st].
Qed.

Lemma daily_undecodable_thrice (env : Env) (st : St) (self : Engine)
    (total idx : Z) (date : string) (pd : string) :
  find_prototype (platform (control self)) (api_call_type self)
    (api_call_types st) = Some pd ->
  (forall i, (i < 3)%nat ->
     exists r e,
       remote env (sent st + i)%nat = Responded r /\ status_code r = 200 /\
       resp_json r = Err e /\ exn_cls e = RequestException) ->
  exists st' c0 c1 c2,
    Daily.call_openweather_api env self date total idx st
      = (Ret (Some (None, None)), st') /\
    sent st' = (sent st + 3)%nat /\
    api_calls st' = (api_calls st ++ [c0; c1; c2])%list /\
    response_code <$> [c0; c1; c2] = [200; 200; 200] /\
    retry_count <$> [c0; c1; c2] = [0; 1; 2] /\
    tracked st' self [FStr "Processing"]
      (Some [FStr "Error fetching data after "; FInt 3;
             FStr " attempts. Skipping this date: "; FStr date]) true /\
    counted 4 st st' self.
Proof.
  intros Hpd Hthree.
  destruct (daily_call_enters_loop env self date total idx st pd Hpd)
    as (st0 & t & payload & Hs0 & Ha0 & Ht0 & Hcall).
  destruct (Hthree 0%nat) as (r0 & e0 & R0 & K0 & B0 & C0); [lia|].
  destruct (Hthree 1%nat) as (r1 & e1 & R1 & K1 & B1 & C1); [lia|].
  destruct (Hthree 2%nat) as (r2 & e2 & R2 & K2 & B2 & C2); [lia|].
  rewrite Nat.add_0_r, <- Hs0 in R0.
  destruct (daily_attempt_undecodable env self date total idx t payload 0 0
              st0 r0 e0 R0 K0 B0 C0)
    as (o1 & st1 & c0 & Hrun1 & Hs1 & Ha1 & Hc1 & Hr1 & Ho1).
  cbn in Ho1. destruct Ho1 as [-> Hn1].
  replace (sent st + 1)%nat with (sent st1) in R1 by lia.
  destruct (daily_attempt_undecodable env self date total idx t payload 1
              (0 + 1) st1 r1 e1 R1 K1 B1 C1)
    as (o2 & st2 & c1 & Hrun2 & Hs2 & Ha2 & Hc2 & Hr2 & Ho2).
  cbn in Ho2. destruct Ho2 as [-> Hn2].
  replace (sent st + 2)%nat with (sent st2) in R2 by lia.
  destruct (daily_attempt_undecodable env self date total idx t payload 2
              (0 + 1 + 1) st2 r2 e2 R2 K2 B2 C2)
    as (o3 & st3 & c2 & Hrun3 & Hs3 & Ha3 & Hc3 & Hr3 & Ho3).
  cbn in Ho3. destruct Ho3 as (-> & Hn3 & Htracked).
  exists st3, c0, c1, c2. split.
  { apply Hcall. cbn [Daily.attempts_loop].
    unfold bind at 1. rewrite Hrun1.
    unfold bind at 1. rewrite Hrun2.
    unfold bind at 1. rewrite Hrun3. reflexivity. }
  split; [lia|]. split.
  { rewrite Ha3, Ha2, Ha1, Ha0. by rewrite <- !app_assoc. }
  split; [cbn; by rewrite Hc1, Hc2, Hc3|].
  split; [cbn; by rewrite Hr1, Hr2, Hr3|].
  split; [exact Htracked|].
  apply (counted_frame 4 st st0); [exact Ht0|].
  change 4 with (1 + (1 + 2)).
  eapply counted_trans; [exact Hn1|].
  eapply counted_trans; [exact Hn2|exact Hn3].
Qed.

(** An answer 200 whose body [response.json()] cannot decode is counted
    more than once. The audit row, the progress label and the counter are
    written before the body is decoded. In the hourly engine, and in the
    daily engine when the exception of the decoding is no
    [RequestException], the last handler takes the exception: it sets the
    row to stopped-err with the force-restart flag, counts the call a
    second time and exits with status 1. In the daily engine a decoding
    exception that is a [RequestException] is taken by the retry handler:
    with three such answers the call sends three requests, audits them
    with the retry counts 0, 1 and 2, adds four to the counter (one for
    each answer and one for giving up) and returns without data, the row
    at Processing with the force-restart flag. *)
Theorem undecodable_body_is_counted_again (env : Env) (st : St)
    (path : string * Z) (limit total idx ts : Z) (date : string)
    (pd ph : string) :
  find_prototype "OpenWeather" "Daily Aggregation" (api_call_types st)
    = Some pd ->
  find_prototype "OpenWeather" "Weather Data for Timestamp"
    (api_call_types st) = Some ph ->
  (forall r e,
     remote env (sent st) = Responded r -> status_code r = 200 ->
     resp_json r = Err e ->
     exists st' id,
       Hourly.call_openweather_api env (Hourly.engine path limit) ts total
         idx st = (Exit 1, st') /\
       sent st' = S (sent st) /\
       audited st st' 200 0 id /\
       tracked st' (Hourly.engine path limit) [FStr "stopped-err"]
         (Some [FStr "API Error: "; FExn e]) true /\
       counted 2 st st' (Hourly.engine path limit)) /\
  (forall r e,
     remote env (sent st) = Responded r -> status_code r = 200 ->
     resp_json r = Err e -> exn_cls e <> RequestException ->
     exists st' id,
       Daily.call_openweather_api env (Daily.engine path limit) date total
         idx st = (Exit 1, st') /\
       sent st' = S (sent st) /\
       audited st st' 200 0 id /\
       tracked st' (Daily.engine path limit) [FStr "stopped-err"]
         (Some [FStr "API Error: "; FExn e]) true /\
       counted 2 st st' (Daily.engine path limit)) /\
  ((forall i, (i < 3)%nat ->
      exists r e,
        remote env (sent st + i)%nat = Responded r /\ status_code r = 200 /\
        resp_json r = Err e /\ exn_cls e = RequestException) ->
   exists st' c0 c1 c2,
     Daily.call_openweather_api env (Daily.engine path limit) date total
       idx st = (Ret (Some (None, None)), st') /\
     sent st' = (sent st + 3)%nat /\
     api_calls st' = (api_calls st ++ [c0; c1; c2])%list /\
     response_code <$> [c0; c1; c2] = [200; 200; 200] /\
     retry_count <$> [c0; c1; c2] = [0; 1; 2] /\
     tracked st' (Daily.engine path limit) [FStr "Processing"]
       (Some [FStr "Error fetching data after "; FInt 3;
              FStr " attempts. Skipping this date: "; FStr date]) true /\
     counted 4 st st' (Daily.engine path limit)).
Proof.
  intros Hpd Hph. split; [|split].
  - intros r e. by apply (hourly_undecodable _ _ _ _ _ _ _ ph).
  - intros r e. by apply (daily_undecodable_other _ _ _ _ _ _ _ pd).
  - intros Hthree.
    by apply (daily_undecodable_thrice env st (Daily.engine path limit)
                total idx date pd).
Qed.

(** The theorem at work: the remote source answers every request with a
    page that is no JSON. *)
Lemma undecodable_body_is_counted_again_witness :
  (exists st',
     Hourly.call_openweather_api (Sample.env Worlds.answering_undecodable)
       (Hourly.engine ("timemachine", 0) 1000) 1685577600 2 0 Sample.fresh
       = (Exit 1, st') /\
     counted 2 Sample.fresh st' (Hourly.engine ("timemachine", 0) 1000)) /\
  (exists st',
     Daily.call_openweather_api (Sample.env Worlds.answering_undecodable)
       (Daily.engine ("day_summary", 0) 1000) "2023-06-01" 2 0 Sample.fresh
       = (Ret (Some (None, None)), st') /\
     sent st' = 3%nat /\
     counted 4 Sample.fresh st' (Daily.engine ("day_summary", 0) 1000)).
Proof.
  destruct (undecodable_body_is_counted_again
              (Sample.env Worlds.answering_undecodable) Sample.fresh
              ("timemachine", 0) 1000 2 0 1685577600 "2023-06-01"
              More.daily_prototype More.hourly_prototype eq_refl eq_refl)
    as (Hh & _ & _).
  destruct (undecodable_body_is_counted_again
              (Sample.env Worlds.answering_undecodable) Sample.fresh
              ("day_summary", 0) 1000 2 0 1685577600 "2023-06-01"
              More.daily_prototype More.hourly_prototype eq_refl eq_refl)
    as (_ & _ & Hd).
  split.
  - destruct (Hh Worlds.undecodable_answer
                (mk_exn RequestException "Expecting value: line 1 column 1")
                eq_refl eq_refl eq_refl)
      as (st' & id & Hrun & _ & _ & _ & Hc).
    exists st'. auto.
  - destruct Hd as (st' & c0 & c1 & c2 & Hrun & Hsent & _ & _ & _ & _ & Hc).
    { intros i Hi. exists Worlds.undecodable_answer. eexists.
      repeat split; reflexivity. }
    exists st'. auto.
Defined.
